(** * Concatenation of block managers: pandas/core/internals/concat.py

    A shallow embedding of the planning and value-assembly engine of
    [pandas.core.internals.concat] and the properties its specification
    states about it.

    Conventions of the embedding:
    - a Python function that can raise returns [result A]; the exceptions
      are the Python exception classes the code can raise;
    - [cache_readonly] properties ([JoinUnit.is_na]) are pure functions of
      the object they are read from;
    - attributes of classes that live outside concat.py ([Block],
      [BlockManager], dtypes, arrays) are record fields, read exactly where
      the source reads them;
    - the promotion service ([find_common_type],
      [ensure_dtype_can_hold_na]) and the reindexer are parameters of the
      development. *)

From Stdlib Require Import String Ascii ZArith NArith Bool Arith Lia List.
From Stdlib Require Import Permutation.
Import ListNotations.
Local Open Scope string_scope.
Local Open Scope list_scope.

Set Implicit Arguments.

(** ** Exceptions and fallible results *)

(** A raised exception, by the name of its class. *)
Inductive PyException : Type :=
| PyExc (class_name : string).

Definition IndexError : PyException := PyExc "IndexError".
Definition NotImplementedError : PyException := PyExc "NotImplementedError".
Definition ValueError : PyException := PyExc "ValueError".
Definition AssertionError : PyException := PyExc "AssertionError".

Inductive result (A : Type) : Type :=
| Ok (a : A)
| Raise (e : PyException).

Arguments Ok {A} a.
Arguments Raise {A} e.

Definition bind {A B : Type} (m : result A) (k : A -> result B) : result B :=
  match m with
  | Ok a => k a
  | Raise e => Raise e
  end.

Notation "x <- m ;; k" := (bind m (fun x => k))
  (at level 61, m at next level, right associativity).

Fixpoint mapM {A B : Type} (f : A -> result B) (xs : list A)
  : result (list B) :=
  match xs with
  | [] => Ok []
  | x :: xs' => y <- f x ;; ys <- mapM f xs' ;; Ok (y :: ys)
  end.

(** [xs[i]] on a Python list: a negative index counts from the end, an
    index out of range raises IndexError. *)
Definition py_getitem {A : Type} (xs : list A) (i : Z) : result A :=
  let n := Z.of_nat (length xs) in
  let j := if Z.ltb i 0 then Z.add i n else i in
  if Z.ltb j 0 then Raise IndexError
  else
    match nth_error xs (Z.to_nat j) with
    | Some x => Ok x
    | None => Raise IndexError
    end.

(** A loop that threads a value through fallible steps. *)
Fixpoint foldM {A B : Type} (f : A -> B -> result A) (xs : list B) (a : A)
  : result A :=
  match xs with
  | [] => Ok a
  | x :: xs' => a' <- f a x ;; foldM f xs' a'
  end.

(** [enumerate(xs)], counting from [i]. *)
Fixpoint enumerate_from {A : Type} (i : nat) (xs : list A) : list (nat * A) :=
  match xs with
  | [] => []
  | x :: xs' => (i, x) :: enumerate_from (S i) xs'
  end.

Definition enumerate {A : Type} (xs : list A) : list (nat * A) :=
  enumerate_from 0 xs.

(** ** Scalars

    The values an array cell, a fill value or an NA marker can be.
    [NpGeneric k sz lit] is the numpy scalar [dtype.type(lit)] of the numpy
    dtype of kind [k] and item size [sz], for the literals ["NaT"] and
    ["NaN"] the source builds. [PyFloat m e] is the finite float
    [m * 2^e]. [PyObject] is any non-scalar Python object stored in an
    object array (a list, a dict, ...). *)

Inductive Scalar : Type :=
| PyNone
| NpNan
| PdNaT
| PdNA
| NpGeneric (k : ascii) (itemsize : N) (lit : string)
| PyBool (b : bool)
| PyInt (z : Z)
| PyFloat (m e : Z)
| PyStr (s : string)
| PyObject (repr : string).

Definition Scalar_eq_dec : forall a b : Scalar, {a = b} + {a <> b}.
Proof.
  decide equality;
    auto using string_dec, ascii_dec, N.eq_dec, Z.eq_dec, Bool.bool_dec.
Defined.

Definition scalar_is (a b : Scalar) : bool :=
  if Scalar_eq_dec a b then true else false.

(** Modelled from the spec: [lib.is_scalar] of pandas/_libs/lib.pyx is not
    part of the source at hand: whether a cell holds a scalar rather than a
    container object. *)
Definition is_scalar (val : Scalar) : bool :=
  match val with
  | PyObject _ => false
  | _ => true
  end.

(** Modelled from the spec: [isna] of pandas/core/dtypes/missing.py is not
    part of the source at hand: [is_missing(value)], which holds of the
    missing markers None, NaN, NaT and NA. *)
Definition isna (val : Scalar) : bool :=
  match val with
  | PyNone | NpNan | PdNaT | PdNA => true
  | NpGeneric _ _ lit => String.eqb lit "NaT" || String.eqb lit "NaN"
  | _ => false
  end.

(** Modelled from the spec: [isna_all] of pandas/core/dtypes/missing.py is
    not part of the source at hand: every cell of a one-dimensional run is
    missing. *)
Definition isna_all (xs : list Scalar) : bool := forallb isna xs.

(** ** Dtypes *)

Record ExtensionDtype : Type := mkExtensionDtype {
  ext_name : string;
  ext_kind : ascii;
  na_value : Scalar;
  ext_is_sparse : bool;      (* isinstance(dtype, SparseDtype) *)
  ext_supports_2d : bool     (* dtype._supports_2d *)
}.

Inductive DtypeObj : Type :=
| NpDtype (k : ascii) (itemsize : N)      (* numpy.dtype *)
| ExtDtype (e : ExtensionDtype).

Definition ExtensionDtype_eq_dec : forall a b : ExtensionDtype, {a = b} + {a <> b}.
Proof.
  decide equality;
    auto using string_dec, ascii_dec, Scalar_eq_dec, Bool.bool_dec.
Defined.

Definition DtypeObj_eq_dec : forall a b : DtypeObj, {a = b} + {a <> b}.
Proof.
  decide equality;
    auto using ascii_dec, N.eq_dec, ExtensionDtype_eq_dec.
Defined.

Definition kind (dtype : DtypeObj) : ascii :=
  match dtype with
  | NpDtype k _ => k
  | ExtDtype e => ext_kind e
  end.

(** Modelled from the spec: [is_dtype_equal] of pandas/core/dtypes/common.py
    is not part of the source at hand: one type exactly equals the other.
    It also stands for [==] between dtypes. *)
Definition is_dtype_equal (a b : DtypeObj) : bool :=
  if DtypeObj_eq_dec a b then true else false.

(** [isinstance(dtype, SparseDtype)] *)
Definition isinstance_SparseDtype (dtype : DtypeObj) : bool :=
  match dtype with
  | NpDtype _ _ => false
  | ExtDtype e => ext_is_sparse e
  end.

(** Modelled from the spec: [is_1d_only_ea_dtype] of
    pandas/core/dtypes/common.py is not part of the source at hand: the
    dtype of a single-dimensional-only extension array type. *)
Definition is_1d_only_ea_dtype (dtype : DtypeObj) : bool :=
  match dtype with
  | NpDtype _ _ => false
  | ExtDtype e => negb (ext_supports_2d e)
  end.

(** [c in s] for a one-character string [c]. *)
Fixpoint char_in (c : ascii) (s : string) : bool :=
  match s with
  | EmptyString => false
  | String c' s' => Ascii.eqb c c' || char_in c s'
  end.

Definition np_object : DtypeObj := NpDtype "O" 8.
Definition np_bool : DtypeObj := NpDtype "b" 1.
Definition np_int32 : DtypeObj := NpDtype "i" 4.
Definition np_int64 : DtypeObj := NpDtype "i" 8.
Definition np_float64 : DtypeObj := NpDtype "f" 8.
Definition np_void : DtypeObj := NpDtype "V" 0.

(** ** Arrays, placements, blocks and join units *)

Inductive ArrayData : Type :=
| Data1D (xs : list Scalar)
| Data2D (rows : list (list Scalar)).

Record ArrayLike : Type := mkArray {
  arr_dtype : DtypeObj;
  arr_data : ArrayData
}.

(** [values.shape] of a two-dimensional array, [(len(values),)] padded to two
    axes for a one-dimensional one. *)
Definition arr_shape (a : ArrayLike) : nat * nat :=
  match arr_data a with
  | Data1D xs => (1, length xs)
  | Data2D rows => (length rows, length (hd [] rows))
  end.

(** [values.ravel(order="K")]: the cells in memory order. *)
Definition ravel (a : ArrayLike) : list Scalar :=
  match arr_data a with
  | Data1D xs => xs
  | Data2D rows => concat rows
  end.

(** [values.size]: the number of cells. *)
Definition size (a : ArrayLike) : nat := length (ravel a).

(** [values.ndim] *)
Definition ndim (a : ArrayLike) : nat :=
  match arr_data a with
  | Data1D _ => 1
  | Data2D _ => 2
  end.

(** A [BlockPlacement] by the positions it holds, in order. *)
Definition BlockPlacement : Type := list nat.

Record Block : Type := mkBlock {
  block_class : string;        (* type(block) *)
  values : ArrayLike;
  mgr_locs : BlockPlacement;
  _can_hold_na : bool;
  is_extension : bool;
  _can_consolidate : bool;
  fill_value : Scalar
}.

(** Modelled from the spec: the property [Block.dtype] of
    pandas/core/internals/blocks.py is not part of the source at hand: the
    storage type of a block, which is the dtype of its values. *)
Definition dtype (blk : Block) : DtypeObj := arr_dtype (values blk).

(** Modelled from the spec: the property [Block.is_bool] of
    pandas/core/internals/blocks.py is not part of the source at hand: the
    unit is boolean-typed. *)
Definition is_bool (blk : Block) : bool := is_dtype_equal (dtype blk) np_bool.

Record JoinUnit : Type := mkJoinUnit {
  block : Block
}.

(** [JoinUnit.is_na] *)
Definition is_na (self : JoinUnit) : bool :=
  let blk := block self in
  if Ascii.eqb (kind (dtype blk)) "V" then true
  else if negb (_can_hold_na blk) then false
  else
    let values := values blk in
    if Nat.eqb (size values) 0 then true
    else if isinstance_SparseDtype (arr_dtype values) then false
    else
      match arr_data values with
      | Data1D xs =>
          match xs with
          | val :: _ =>
              if negb (is_scalar val) || negb (isna val) then false
              else isna_all xs
          | [] => false
          end
      | Data2D rows =>
          match rows with
          | (val :: _) :: _ =>
              if negb (is_scalar val) || negb (isna val) then false
              else forallb isna_all rows
          | _ => false
          end
      end.

(** [_dtype_to_na_value] *)
Definition _dtype_to_na_value (dtype : DtypeObj) (has_none_blocks : bool)
  : result Scalar :=
  match dtype with
  | ExtDtype e => Ok (na_value e)
  | NpDtype k sz =>
      if char_in k "mM" then Ok (NpGeneric k sz "NaT")
      else if char_in k "fc" then Ok (NpGeneric k sz "NaN")
      else if Ascii.eqb k "b" then Ok PyNone
      else if char_in k "iu" then
        if negb has_none_blocks then Ok PyNone else Ok NpNan
      else if Ascii.eqb k "O" then Ok NpNan
      else Raise NotImplementedError
  end.

(** Modelled from the spec: [lib.dtypes_all_equal] of pandas/_libs/lib.pyx is
    not part of the source at hand: all the types are identical, each being
    compared with the first; the first of an empty list cannot be read. *)
Definition dtypes_all_equal (types : list DtypeObj) : result bool :=
  match types with
  | [] => Raise IndexError
  | first :: rest => Ok (forallb (fun t => is_dtype_equal t first) rest)
  end.

Definition is_proxy (unit : JoinUnit) : bool :=
  Ascii.eqb (kind (dtype (block unit))) "V".

Section DtypeUnifier.

(** The promotion service of pandas.core.dtypes.cast. *)
Variable find_common_type : list DtypeObj -> result DtypeObj.
Variable ensure_dtype_can_hold_na : DtypeObj -> DtypeObj.

(** [_get_empty_dtype] *)
Definition _get_empty_dtype (join_units : list JoinUnit) : result DtypeObj :=
  match join_units with
  | [u] => Ok (dtype (block u))
  | _ =>
      all_eq <- dtypes_all_equal
                  (map (fun ju => dtype (block ju)) join_units) ;;
      if (all_eq : bool) then
        match join_units with
        | u :: _ => Ok (dtype (block u))
        | [] => Raise IndexError
        end
      else
        let has_none_blocks := existsb is_proxy join_units in
        let dtypes :=
          map (fun unit => dtype (block unit))
              (filter (fun unit => negb (is_na unit)) join_units) in
        let dtypes :=
          if Nat.eqb (length dtypes) 0 then
            map (fun unit => dtype (block unit))
                (filter (fun unit => negb (is_proxy unit)) join_units)
          else dtypes in
        dtype <- find_common_type dtypes ;;
        Ok (if has_none_blocks then ensure_dtype_can_hold_na dtype
            else dtype)
  end.

End DtypeUnifier.

(** [_is_uniform_join_units] *)
Definition _is_uniform_join_units (join_units : list JoinUnit) : result bool :=
  match join_units with
  | [] => Raise IndexError
  | ju0 :: _ =>
      let first := block ju0 in
      if Ascii.eqb (kind (dtype first)) "V" then Ok false
      else
        Ok (forallb (fun ju => String.eqb (block_class (block ju))
                                          (block_class first)) join_units
            && forallb (fun ju =>
                          is_dtype_equal (dtype (block ju)) (dtype first)
                          || char_in (kind (dtype (block ju))) "iub")
                       join_units
            && forallb (fun ju => negb (is_na ju) || is_extension (block ju))
                       join_units
            && Nat.ltb 1 (length join_units))
  end.

(** ** Array primitives *)

(** [values.view()] and [values.copy()] give an array of the same dtype and
    cells; which buffer backs it is not part of this model. *)
Definition view (a : ArrayLike) : ArrayLike := a.
Definition copy_array (a : ArrayLike) : ArrayLike := a.

(** [t[0, :]]: the first row of a two-dimensional array. *)
Definition getitem_row0 (t : ArrayLike) : result ArrayLike :=
  match arr_data t with
  | Data2D (row :: _) => Ok (mkArray (arr_dtype t) (Data1D row))
  | _ => Raise IndexError
  end.

(** An array of shape [(ncols, nrows)] whose every cell is [fill]. *)
Definition full (dt : DtypeObj) (shape : nat * nat) (fill : Scalar)
  : ArrayLike :=
  mkArray dt (Data2D (repeat (repeat fill (snd shape)) (fst shape))).

(** What a numpy array of dtype [dt] holds after [fill] is stored in it: a
    floating or complex array holds its own NaN for any missing marker, a
    datetime or timedelta array its own NaT, an object array the marker
    itself. *)
Definition store_cast (dt : DtypeObj) (fill : Scalar) : Scalar :=
  match dt with
  | NpDtype k sz =>
      if char_in k "fc" && isna fill then NpGeneric k sz "NaN"
      else if char_in k "mM" && isna fill then NpGeneric k sz "NaT"
      else fill
  | ExtDtype _ => fill
  end.

(** Modelled from the spec: the property [Block.shape] of
    pandas/core/internals/blocks.py is not part of the source at hand: the
    shape of the two-dimensional values of a block; a block over
    one-dimensional extension values has the shape
    [(len(mgr_locs), len(values))]. *)
Definition shape (blk : Block) : nat * nat :=
  match arr_data (values blk) with
  | Data1D xs => (length (mgr_locs blk), length xs)
  | Data2D _ => arr_shape (values blk)
  end.

(** Modelled from the spec: [make_na_array] of pandas/core/internals/managers.py
    is not part of the source at hand. It synthesizes a fresh all-missing
    array of the target type, the requested shape and the given fill value;
    for a one-dimensional-only extension dtype the array is one-dimensional
    and the block must have exactly one column. *)
Definition make_na_array (dt : DtypeObj) (shape : nat * nat)
  (fill_value : Scalar) : result ArrayLike :=
  if is_1d_only_ea_dtype dt then
    let (ncols, nrows) := shape in
    if Nat.eqb ncols 1 then Ok (mkArray dt (Data1D (repeat fill_value nrows)))
    else Raise AssertionError
  else Ok (full dt shape (store_cast dt fill_value)).

(** Modelled from the spec: [ensure_block_shape] of
    pandas/core/internals/blocks.py is not part of the source at hand. With
    [ndim=2] it reshapes a one-dimensional array to two dimensions, as one
    row, unless its dtype is one-dimensional only. *)
Definition ensure_block_shape (a : ArrayLike) : ArrayLike :=
  match arr_data a with
  | Data1D xs =>
      if is_1d_only_ea_dtype (arr_dtype a) then a
      else mkArray (arr_dtype a) (Data2D [xs])
  | Data2D _ => a
  end.

(** Cells of [np.concatenate] along axis 1 of two-dimensional arrays: the
    rows are appended pairwise, and the arrays must have as many rows as the
    first. *)
Fixpoint append_rows (acc : list (list Scalar)) (rest : list ArrayData)
  : result (list (list Scalar)) :=
  match rest with
  | [] => Ok acc
  | Data2D rows :: rest' =>
      if Nat.eqb (length rows) (length acc) then
        append_rows (map (fun p => fst p ++ snd p) (combine acc rows)) rest'
      else Raise ValueError
  | Data1D _ :: _ => Raise ValueError
  end.

(** Cells of [np.concatenate] along axis 0. *)
Fixpoint stack_cells (acc : ArrayData) (rest : list ArrayData)
  : result ArrayData :=
  match rest with
  | [] => Ok acc
  | d :: rest' =>
      match acc, d with
      | Data1D xs, Data1D ys => stack_cells (Data1D (xs ++ ys)) rest'
      | Data2D r1, Data2D r2 =>
          if Nat.eqb (length (hd [] r1)) (length (hd [] r2)) then
            stack_cells (Data2D (r1 ++ r2)) rest'
          else Raise ValueError
      | _, _ => Raise ValueError
      end
  end.

Definition concat_cells (datas : list ArrayData) (axis : Z)
  : result ArrayData :=
  match datas with
  | [] => Raise ValueError
  | d :: rest =>
      if Z.eqb axis 0 then stack_cells d rest
      else
        match d with
        | Data2D rows => rows' <- append_rows rows rest ;; Ok (Data2D rows')
        | Data1D _ => Raise ValueError
        end
  end.

(** ** Block managers and the concatenation plan *)

Definition Index : Type := list string.

(** What indexes a block along its first axis: a slice or explicit
    positions. *)
Inductive Slicer : Type :=
| SliceAll                        (* slice(None) *)
| PySlice (start stop : Z)        (* slice(start, stop) *)
| Indices (idx : list Z).

Record BlockManager : Type := mkBlockManager {
  blocks : list Block;
  axes : list Index
}.

(** Modelled from the spec: the property [BlockManager.shape] is not part of
    the source at hand. [mgr.shape[0]] is the number of items, the length of
    the first axis, which is also [len(mgr.items)]. *)
Definition shape0 (mgr : BlockManager) : result nat :=
  items <- py_getitem (axes mgr) 0%Z ;; Ok (length items).

Fixpoint list_set (arr : list Z) (j : nat) (v : Z) : list Z :=
  match arr, j with
  | [], _ => []
  | _ :: rest, O => v :: rest
  | x :: rest, S j' => x :: list_set rest j' v
  end.

(** [arr[j] = v] on an integer array. *)
Definition assign (arr : list Z) (j : nat) (v : Z) : result (list Z) :=
  if Nat.ltb j (length arr) then Ok (list_set arr j v) else Raise IndexError.

(** Modelled from the spec: [BlockManager.blknos] and [BlockManager.blklocs]
    (built by [_rebuild_blknos_and_blklocs] of pandas/_libs/internals.pyx)
    are not part of the source at hand. For every column position they give
    which block supplies it and at which position inside that block; a
    position no block supplies is an integrity error. *)
Definition _rebuild_blknos_and_blklocs (mgr : BlockManager)
  : result (list Z * list Z) :=
  n <- shape0 mgr ;;
  r <- foldM (fun acc (nb : nat * Block) =>
                foldM (fun (acc' : list Z * list Z) (ij : nat * nat) =>
                         nos <- assign (fst acc') (snd ij)
                                       (Z.of_nat (fst nb)) ;;
                         locs <- assign (snd acc') (snd ij)
                                        (Z.of_nat (fst ij)) ;;
                         Ok (nos, locs))
                      (enumerate (mgr_locs (snd nb))) acc)
             (enumerate (blocks mgr))
             (repeat (-1)%Z n, repeat (-1)%Z n) ;;
  if existsb (Z.eqb (-1)) (fst r) then Raise AssertionError else Ok r.

Definition blknos (mgr : BlockManager) : result (list Z) :=
  r <- _rebuild_blknos_and_blklocs mgr ;; Ok (fst r).

Definition blklocs (mgr : BlockManager) : result (list Z) :=
  r <- _rebuild_blknos_and_blklocs mgr ;; Ok (snd r).

(** The runs of equal consecutive columns: [cur] is the column of the run
    being built, which starts at [start] and has [n] positions so far. *)
Fixpoint group_runs (cur : list Z) (start n : nat) (cols : list (list Z))
  : list (list Z * BlockPlacement) :=
  match cols with
  | [] => [(cur, seq start n)]
  | col :: cols' =>
      if list_eq_dec Z.eq_dec col cur then group_runs cur start (S n) cols'
      else (cur, seq start n) :: group_runs col (start + n) 1 cols'
  end.

(** Modelled from the spec: [get_concat_blkno_indexers] of
    pandas/_libs/internals.pyx is not part of the source at hand. Given the
    block number of every column position in every manager, it partitions
    the column axis into maximal runs over which the vector of block numbers
    (one per manager) is constant, and returns for each run that vector and
    the placement of the run. *)
Definition get_concat_blkno_indexers (blknos_list : list (list Z))
  : result (list (list Z * BlockPlacement)) :=
  blknos0 <- py_getitem blknos_list 0%Z ;;
  let ncols := length blknos0 in
  if Nat.eqb ncols 0 then Ok []
  else if negb (forallb (fun b => Nat.eqb (length b) ncols) blknos_list)
  then Raise AssertionError
  else
    match map (fun i => map (fun b => nth i b (-1)%Z) blknos_list)
              (seq 0 ncols) with
    | [] => Ok []
    | col :: cols => Ok (group_runs col 0 1 cols)
    end.

(** Modelled from the spec: [BlockPlacement.is_slice_like] and
    [BlockPlacement.as_slice] of pandas/_libs/internals.pyx are not part of
    the source at hand. A placement is slice-like when its positions advance
    by one constant non-zero step; [as_slice_step] is that step (1 for a
    single position). *)
Definition as_slice_step (bp : BlockPlacement) : option Z :=
  match bp with
  | [] => None
  | [_] => Some 1%Z
  | a :: b :: _ =>
      let d := (Z.of_nat b - Z.of_nat a)%Z in
      if Z.eqb d 0 then None
      else if list_eq_dec Z.eq_dec
                (map Z.of_nat bp)
                (map (fun i => (Z.of_nat a + Z.of_nat i * d)%Z)
                     (seq 0 (length bp)))
           then Some d else None
  end.

Definition is_slice_like (bp : BlockPlacement) : bool :=
  match as_slice_step bp with Some _ => true | None => false end.

(** Modelled from the spec: [lib.maybe_indices_to_slice] is not part of the
    source at hand. Positions that form a contiguous stride-1 range below
    [max_len] become a slice; anything else stays explicit indexing. *)
Definition maybe_indices_to_slice (indices : list Z) (max_len : nat)
  : Slicer :=
  match indices with
  | [] => PySlice 0 0
  | vstart :: _ =>
      if Z.leb 0 vstart
         && Z.leb (vstart + Z.of_nat (length indices)) (Z.of_nat max_len)
         && (if list_eq_dec Z.eq_dec indices
                  (map (fun i => (vstart + Z.of_nat i)%Z)
                       (seq 0 (length indices)))
             then true else false)
      then PySlice vstart (vstart + Z.of_nat (length indices))
      else Indices indices
  end.

(** [xs[slicer]] on the first axis. *)
Definition take_slicer {A : Type} (xs : list A) (slicer : Slicer)
  : result (list A) :=
  match slicer with
  | SliceAll => Ok xs
  | PySlice start stop =>
      Ok (firstn (Z.to_nat (stop - start)) (skipn (Z.to_nat start) xs))
  | Indices idx => mapM (py_getitem xs) idx
  end.

(** Modelled from the spec: [Block.getitem_block] of
    pandas/core/internals/blocks.py is not part of the source at hand. It
    takes the positional sub-slice of the block along the column axis: the
    placement and the rows of two-dimensional values are indexed by the
    slicer; one-dimensional extension values only admit a slice that keeps
    their single column. *)
Definition getitem_block (blk : Block) (slicer : Slicer) : result Block :=
  new_mgr_locs <- take_slicer (mgr_locs blk) slicer ;;
  new_values <-
    match arr_data (values blk) with
    | Data2D rows =>
        rows' <- take_slicer rows slicer ;;
        Ok (mkArray (arr_dtype (values blk)) (Data2D rows'))
    | Data1D _ =>
        match slicer with
        | Indices _ => Raise AssertionError
        | _ =>
            kept <- take_slicer [0] slicer ;;
            match kept with
            | [] => Raise AssertionError
            | _ => Ok (values blk)
            end
        end
    end ;;
  Ok (mkBlock (block_class blk) new_values new_mgr_locs (_can_hold_na blk)
              (is_extension blk) (_can_consolidate blk) (fill_value blk)).

(** Modelled from the spec: [Block.copy] of pandas/core/internals/blocks.py
    is not part of the source at hand. A block is replaced, never mutated in
    place, by copy-or-view operations: the copy has the class, the placement
    and the cells of the block, deep or not. *)
Definition copy_block (blk : Block) (deep : bool) : Block :=
  mkBlock (block_class blk)
          (if deep then copy_array (values blk) else view (values blk))
          (mgr_locs blk) (_can_hold_na blk) (is_extension blk)
          (_can_consolidate blk) (fill_value blk).

(** Modelled from the spec: [BlockPlacement.add] of pandas/_libs/internals.pyx
    is not part of the source at hand: the placement with every position
    moved by the offset. *)
Definition placement_add (bp : BlockPlacement) (offset : nat) : BlockPlacement :=
  map (fun pos => pos + offset) bp.

(** [nb._mgr_locs = locs] *)
Definition set_mgr_locs (nb : Block) (locs : BlockPlacement) : Block :=
  mkBlock (block_class nb) (values nb) locs (_can_hold_na nb)
          (is_extension nb) (_can_consolidate nb) (fill_value nb).

(** Modelled from the spec: [Block.make_block_same_class] of
    pandas/core/internals/blocks.py is not part of the source at hand: a
    block of the original representation class over the given values at the
    given placement. *)
Definition make_block_same_class (blk : Block) (vals : ArrayLike)
  (placement : BlockPlacement) : Block :=
  mkBlock (block_class blk) vals placement (_can_hold_na blk)
          (is_extension blk) (_can_consolidate blk) (fill_value blk).

(** Modelled from the spec: [ensure_wrapped_if_datetimelike] of
    pandas/core/construction.py is not part of the source at hand. It only
    changes the class that wraps datetime-like cells; the cells and the
    dtype, which are all this model keeps of an array, stay. *)
Definition ensure_wrapped_if_datetimelike (a : ArrayLike) : ArrayLike := a.

(** [_get_block_for_concat_plan] *)
Definition _get_block_for_concat_plan (mgr : BlockManager)
  (bp : BlockPlacement) (blkno : Z) (max_len : nat) : result Block :=
  blk <- py_getitem (blocks mgr) blkno ;;
  if Nat.eqb (length bp) (length (mgr_locs blk))
     && (is_slice_like (mgr_locs blk)
         && match as_slice_step (mgr_locs blk) with
            | Some step => Z.eqb step 1
            | None => false
            end)
  then Ok blk
  else
    locs <- blklocs mgr ;;
    ax0_blk_indexer <- mapM (fun pos => py_getitem locs (Z.of_nat pos)) bp ;;
    let slc := maybe_indices_to_slice ax0_blk_indexer max_len in
    getitem_block blk slc.

(** [_get_combined_plan] *)
Definition _get_combined_plan (mgrs : list BlockManager)
  : result (list (BlockPlacement * list JoinUnit)) :=
  mgr0 <- py_getitem mgrs 0%Z ;;
  max_len <- shape0 mgr0 ;;
  blknos_list <- mapM blknos mgrs ;;
  pairs <- get_concat_blkno_indexers blknos_list ;;
  mapM (fun pair : list Z * BlockPlacement =>
          let (blknos, bp) := pair in
          units_for_bp <-
            mapM (fun km : nat * BlockManager =>
                    let (k, mgr) := km in
                    blkno <- py_getitem blknos (Z.of_nat k) ;;
                    nb <- _get_block_for_concat_plan mgr bp blkno max_len ;;
                    Ok (mkJoinUnit nb))
                 (enumerate mgrs) ;;
          Ok (bp, units_for_bp))
       pairs.

Section Engine.

(** The promotion service of pandas.core.dtypes.cast. *)
Variable find_common_type : list DtypeObj -> result DtypeObj.
Variable ensure_dtype_can_hold_na : DtypeObj -> DtypeObj.

(** Missing-value compatibility of pandas.core.dtypes.missing and
    pandas.core.dtypes.common. *)
Variable is_valid_na_for_dtype : Scalar -> DtypeObj -> bool.
Variable needs_i8_conversion : DtypeObj -> bool.

(** Casting ([astype_array], also behind [Block.astype]) and numpy's own
    promotion ([np.result_type]). *)
Variable astype_array : ArrayLike -> DtypeObj -> ArrayLike.
Variable np_result_type : list DtypeObj -> DtypeObj.

(** The generic compatibility concatenation of pandas.core.dtypes.concat:
    arrays, axis, [ea_compat_axis]. *)
Variable concat_compat : list ArrayLike -> Z -> bool -> result ArrayLike.

(** [np.concatenate(arrays, axis)]: arrays of one dtype are joined as they
    are; otherwise numpy promotes and casts them first. *)
Definition np_concatenate (arrays : list ArrayLike) (axis : Z)
  : result ArrayLike :=
  match arrays with
  | [] => Raise ValueError
  | a :: rest =>
      let target :=
        if forallb (fun x => is_dtype_equal (arr_dtype x) (arr_dtype a)) rest
        then arr_dtype a
        else np_result_type (map arr_dtype arrays) in
      let cast x :=
        if is_dtype_equal (arr_dtype x) target then x
        else astype_array x target in
      cells <- concat_cells (map (fun x => arr_data (cast x)) arrays) axis ;;
      Ok (mkArray target cells)
  end.

(** [JoinUnit._is_valid_na_for] *)
Definition _is_valid_na_for (self : JoinUnit) (dtype' : DtypeObj) : bool :=
  if negb (is_na self) then false
  else
    let blk := block self in
    if Ascii.eqb (kind (dtype blk)) "V" then true
    else if is_dtype_equal (dtype blk) np_object then
      forallb (fun x => is_valid_na_for_dtype x dtype') (ravel (values blk))
    else
      let na_value := fill_value blk in
      if scalar_is na_value PdNaT && negb (is_dtype_equal (dtype blk) dtype')
      then false
      else if scalar_is na_value PdNA && needs_i8_conversion dtype' then false
      else is_valid_na_for_dtype na_value dtype'.

(** [JoinUnit.get_reindexed_values] *)
Definition get_reindexed_values (self : JoinUnit) (empty_dtype : DtypeObj)
  (upcasted_na : Scalar) : result ArrayLike :=
  if scalar_is upcasted_na PyNone
     && negb (Ascii.eqb (kind (dtype (block self))) "V")
  then
    (* No upcasting is necessary *)
    Ok (view (values (block self)))
  else
    let fill_value := upcasted_na in
    if _is_valid_na_for self empty_dtype then
      let blk_dtype := dtype (block self) in
      let fill_value :=
        if is_dtype_equal blk_dtype np_object then
          match ravel (values (block self)) with
          | v0 :: _ => if scalar_is v0 PyNone then PyNone else fill_value
          | [] => fill_value
          end
        else fill_value in
      make_na_array empty_dtype (shape (block self)) fill_value
    else if negb (_can_consolidate (block self)) then
      (* preserve these for validation in concat_compat *)
      Ok (values (block self))
    else if is_bool (block self) then
      Ok (view (astype_array (values (block self)) np_object))
    else
      Ok (view (values (block self))).

(** The second half of [_concatenate_join_units]: how the values collected
    from the units are put together. *)
Definition concat_reindexed (to_concat : list ArrayLike) (copy : bool)
  : result ArrayLike :=
  match to_concat with
  | [concat_values] =>
      (* Only one block, nothing to concatenate. *)
      Ok (if copy then copy_array concat_values else concat_values)
  | _ =>
      if existsb (fun t => is_1d_only_ea_dtype (arr_dtype t)) to_concat then
        to_concat <- mapM (fun t => if is_1d_only_ea_dtype (arr_dtype t)
                                    then Ok t else getitem_row0 t)
                          to_concat ;;
        concat_values <- concat_compat to_concat 0%Z true ;;
        Ok (ensure_block_shape concat_values)
      else concat_compat to_concat 1%Z false
  end.

(** [_concatenate_join_units] *)
Definition _concatenate_join_units (join_units : list JoinUnit) (copy : bool)
  : result ArrayLike :=
  empty_dtype <- _get_empty_dtype find_common_type ensure_dtype_can_hold_na
                                  join_units ;;
  let has_none_blocks := existsb is_proxy join_units in
  upcasted_na <- _dtype_to_na_value empty_dtype has_none_blocks ;;
  to_concat <- mapM (fun ju => get_reindexed_values ju empty_dtype upcasted_na)
                    join_units ;;
  concat_reindexed to_concat copy.

(** The values of a uniform group in [concatenate_managers]: the branch
    taken when [_is_uniform_join_units] holds. *)
Definition uniform_values (join_units : list JoinUnit) (blk : Block)
  : result ArrayLike :=
  let vals := map (fun ju => values (block ju)) join_units in
  if negb (is_extension blk) then np_concatenate vals 1%Z
  else if is_1d_only_ea_dtype (dtype blk) then
    values <- concat_compat vals 1%Z true ;;
    Ok (ensure_block_shape values)
  else concat_compat vals 1%Z false.

(** The reindexer ([BlockManager.reindex_indexer], called with
    [copy=False, only_slice=True, allow_dups=True, use_na_proxy=True]):
    manager, target labels, indexer, axis. *)
Variable reindex_indexer :
  BlockManager -> Index -> option (list Z) -> Z -> result BlockManager.

(** [new_block_2d(values, placement)] of pandas.core.internals.blocks. *)
Variable new_block_2d : ArrayLike -> BlockPlacement -> Block.

(** A [(manager, {axis: indexer, ...})] pair; the dict by its items in
    insertion order. *)
Definition MgrIndexers : Type := (BlockManager * list (Z * option (list Z)))%type.

(** [_maybe_reindex_columns_na_proxy] *)
Definition _maybe_reindex_columns_na_proxy (axes : list Index)
  (mgrs_indexers : list MgrIndexers) : result (list MgrIndexers) :=
  mapM (fun mi : MgrIndexers =>
          let (mgr, indexers) := mi in
          mgr <- foldM (fun mgr (item : Z * option (list Z)) =>
                          let (i, indexer) := item in
                          ax <- py_getitem axes i ;;
                          reindex_indexer mgr ax indexer i)
                       indexers mgr ;;
          Ok (mgr, []))
       mgrs_indexers.

(** The inner loop of [_concat_managers_axis0]: the blocks one manager
    contributes. *)
Definition axis0_blocks (copy made_copy : bool) (offset : nat)
  (mgr : BlockManager) : result (list Block) :=
  mapM (fun blk =>
          nb <- (if made_copy then Ok (copy_block blk false)
                 else if copy then Ok (copy_block blk true)
                 else getitem_block blk SliceAll) ;;
          Ok (set_mgr_locs nb (placement_add (mgr_locs nb) offset)))
       (blocks mgr).

(** The outer loop of [_concat_managers_axis0] over the managers, each with
    its [had_reindexers] flag, threading the running offset and the blocks
    collected so far. *)
Fixpoint axis0_loop (copy : bool) (mgrs : list (bool * BlockManager))
  (offset : nat) (blocks : list Block) : result (list Block) :=
  match mgrs with
  | [] => Ok blocks
  | (made_copy, mgr) :: mgrs' =>
      new <- axis0_blocks copy made_copy offset mgr ;;
      n <- shape0 mgr ;;
      axis0_loop copy mgrs' (offset + n) (blocks ++ new)
  end.

(** [_concat_managers_axis0] *)
Definition _concat_managers_axis0 (mgrs_indexers : list MgrIndexers)
  (axes : list Index) (copy : bool) : result BlockManager :=
  let had_reindexers :=
    map (fun mi : MgrIndexers => Nat.ltb 0 (length (snd mi))) mgrs_indexers in
  mgrs_indexers <- _maybe_reindex_columns_na_proxy axes mgrs_indexers ;;
  let mgrs := map fst mgrs_indexers in
  blocks <- axis0_loop copy (combine had_reindexers mgrs) 0 [] ;;
  Ok (mkBlockManager blocks axes).

(** One turn of the loop of [concatenate_managers] over the plan. *)
Definition concat_group (copy : bool)
  (group : BlockPlacement * list JoinUnit) : result Block :=
  let (placement, join_units) := group in
  unit <- py_getitem join_units 0%Z ;;
  let blk := block unit in
  vf <- (if Nat.eqb (length join_units) 1 then
           Ok (if copy then copy_array (values blk) else view (values blk),
               true)
         else
           uniform <- _is_uniform_join_units join_units ;;
           if (uniform : bool) then
             values' <- uniform_values join_units blk ;;
             let values' := ensure_wrapped_if_datetimelike values' in
             Ok (values',
                 is_dtype_equal (arr_dtype (values blk)) (arr_dtype values'))
           else
             values' <- _concatenate_join_units join_units copy ;;
             Ok (values', false)) ;;
  let (values', fastpath) := vf : ArrayLike * bool in
  Ok (if fastpath then make_block_same_class blk values' placement
      else new_block_2d values' placement).

(** [concatenate_managers] on block managers. The first manager is looked
    up to tell an [ArrayManager] from a [BlockManager]; the array-manager
    representation is outside this model, so that test answers no. *)
Definition concatenate_managers (mgrs_indexers : list MgrIndexers)
  (axes : list Index) (concat_axis : Z) (copy : bool) : result BlockManager :=
  _ <- py_getitem mgrs_indexers 0%Z ;;
  if Z.eqb concat_axis 0 then _concat_managers_axis0 mgrs_indexers axes copy
  else
    mgrs_indexers <- _maybe_reindex_columns_na_proxy axes mgrs_indexers ;;
    concat_plan <- _get_combined_plan (map fst mgrs_indexers) ;;
    blocks <- mapM (concat_group copy) concat_plan ;;
    Ok (mkBlockManager blocks axes).

End Engine.

(** ** The collaborators on the common dtypes

    The engine above is parametric in its collaborators. The definitions
    below give them on the common numpy dtypes, for use at concrete
    inputs. *)

Definition is_numeric_kind (dt : DtypeObj) : bool :=
  match dt with
  | NpDtype k _ => char_in k "iuf"
  | ExtDtype _ => false
  end.

Definition itemsize_of (dt : DtypeObj) : N :=
  match dt with
  | NpDtype _ sz => sz
  | ExtDtype _ => 8%N
  end.

(** The smallest numeric numpy dtype that holds every value of the integer
    and floating dtypes [types]. *)
Definition numeric_join (types : list DtypeObj) : DtypeObj :=
  let has k := existsb (fun t => Ascii.eqb (kind t) k) types in
  let width k := fold_right N.max 0%N
                   (map itemsize_of
                        (filter (fun t => Ascii.eqb (kind t) k) types)) in
  let int_width := N.max (width "i"%char) (2 * width "u"%char)%N in
  if has "f"%char then
    NpDtype "f" (N.max (width "f"%char)
                       (if N.leb (N.max int_width (width "u"%char)) 2
                        then 4%N else 8%N))
  else if has "i"%char then
    if N.leb int_width 8 then NpDtype "i" int_width else np_float64
  else NpDtype "u" (width "u"%char).

(** Modelled from the spec: [find_common_type] of pandas/core/dtypes/cast.py
    is not part of the source at hand. It computes the smallest common type
    able to represent every collected type losslessly: equal types give that
    type, integer and floating types their numeric join, and anything else,
    a boolean type unified with a differently-typed one included, the
    generic object type. *)
Definition pandas_find_common_type (types : list DtypeObj)
  : result DtypeObj :=
  match types with
  | [] => Raise ValueError
  | first :: rest =>
      if forallb (fun t => is_dtype_equal t first) rest then Ok first
      else if forallb is_numeric_kind types then Ok (numeric_join types)
      else Ok np_object
  end.

(** Modelled from the spec: [ensure_dtype_can_hold_na] of
    pandas/core/dtypes/cast.py is not part of the source at hand. It widens
    a type to one capable of holding a missing marker: a non-nullable
    integer type to float64, a boolean type to object; any other type
    already holds one. *)
Definition pandas_ensure_dtype_can_hold_na (dt : DtypeObj) : DtypeObj :=
  match dt with
  | NpDtype k _ =>
      if char_in k "iu" then np_float64
      else if Ascii.eqb k "b" then np_object
      else dt
  | ExtDtype _ => dt
  end.

Definition is_NaT_like (obj : Scalar) : bool :=
  match obj with
  | PdNaT => true
  | NpGeneric _ _ lit => String.eqb lit "NaT"
  | _ => false
  end.

(** Modelled from the spec: [is_valid_na_for_dtype] of
    pandas/core/dtypes/missing.py is not part of the source at hand. A
    missing marker is compatible with a target type unless it is a
    not-a-time marker of the other temporal kind, or any not-a-time marker
    for a numeric or boolean target; the object type takes every marker. *)
Definition pandas_is_valid_na_for_dtype (obj : Scalar) (dt : DtypeObj)
  : bool :=
  if negb (is_scalar obj) || negb (isna obj) then false
  else if Ascii.eqb (kind dt) "M" then
    negb (scalar_is obj (NpGeneric "m" 8 "NaT"))
  else if Ascii.eqb (kind dt) "m" then
    negb (scalar_is obj (NpGeneric "M" 8 "NaT"))
  else if char_in (kind dt) "iufcb" then negb (is_NaT_like obj)
  else true.

(** Modelled from the spec: [needs_i8_conversion] of
    pandas/core/dtypes/common.py is not part of the source at hand: the
    temporal (datetime and timedelta) kinds. *)
Definition pandas_needs_i8_conversion (dt : DtypeObj) : bool :=
  char_in (kind dt) "mM".

(** A cell cast to a dtype: an object array keeps the Python object, an
    integer array takes a boolean as 0 or 1, a floating array takes an
    integer as the float of the same value and a missing marker as NaN. *)
Definition cast_cell (dt : DtypeObj) (v : Scalar) : Scalar :=
  match dt with
  | NpDtype k sz =>
      if char_in k "iu" then
        match v with
        | PyBool b => PyInt (if b then 1 else 0)
        | _ => v
        end
      else if Ascii.eqb k "f" then
        match v with
        | PyBool b => PyFloat (if b then 1 else 0) 0
        | PyInt z => PyFloat z 0
        | _ => store_cast dt v
        end
      else v
  | ExtDtype _ => v
  end.

Definition map_cells (f : Scalar -> Scalar) (d : ArrayData) : ArrayData :=
  match d with
  | Data1D xs => Data1D (map f xs)
  | Data2D rows => Data2D (map (map f) rows)
  end.

(** Modelled from the spec: [astype_array] of pandas/core/dtypes/astype.py
    is not part of the source at hand: [cast(array, target_type)], cell by
    cell. *)
Definition pandas_astype_array (a : ArrayLike) (dt : DtypeObj) : ArrayLike :=
  mkArray dt (map_cells (cast_cell dt) (arr_data a)).

(** [np.result_type]: numpy promotes booleans with the integers. *)
Definition numpy_result_type (types : list DtypeObj) : DtypeObj :=
  let as_number t := if is_dtype_equal t np_bool then NpDtype "u" 1 else t in
  if forallb is_numeric_kind (map as_number types)
  then numeric_join (map as_number types)
  else np_object.

Definition numpy_concatenate : list ArrayLike -> Z -> result ArrayLike :=
  np_concatenate pandas_astype_array numpy_result_type.

(** Modelled from the spec: [concat_compat] of pandas/core/dtypes/concat.py
    is not part of the source at hand: [generic_concat(arrays, axis,
    representation_compatible_mode)]. Arrays of one dtype are concatenated
    as they are; otherwise every array is cast to the common type of the
    promotion service and the casts are concatenated. In
    representation-compatible mode the arrays are one-dimensional and are
    joined end to end, whatever the axis. *)
Definition pandas_concat_compat (to_concat : list ArrayLike) (axis : Z)
  (ea_compat_axis : bool) : result ArrayLike :=
  let axis := if ea_compat_axis then 0%Z else axis in
  match to_concat with
  | [] => Raise ValueError
  | a :: rest =>
      if forallb (fun x => is_dtype_equal (arr_dtype x) (arr_dtype a)) rest
      then numpy_concatenate to_concat axis
      else
        target <- pandas_find_common_type (map arr_dtype to_concat) ;;
        numpy_concatenate
          (map (fun x => pandas_astype_array x target) to_concat) axis
  end.

(** Modelled from the spec: [new_block_2d] of pandas/core/internals/blocks.py
    is not part of the source at hand. It wraps values in a block of the
    generic class for their dtype at the given placement. *)
Definition pandas_new_block_2d (vals : ArrayLike) (placement : BlockPlacement)
  : Block :=
  match arr_dtype vals with
  | ExtDtype e =>
      mkBlock "ExtensionBlock" vals placement true true false (na_value e)
  | NpDtype k _ =>
      mkBlock (if char_in k "mM" then "DatetimeLikeBlock" else "NumpyBlock")
              vals placement (negb (char_in k "iub")) false true
              (if char_in k "mM" then PdNaT else NpNan)
  end.

(** A reindexer for managers that are already aligned. *)
Definition aligned_reindex_indexer (mgr : BlockManager) (labels : Index)
  (indexer : option (list Z)) (axis : Z) : result BlockManager := Ok mgr.

Definition pandas_get_empty_dtype : list JoinUnit -> result DtypeObj :=
  _get_empty_dtype pandas_find_common_type pandas_ensure_dtype_can_hold_na.

Definition pandas_concatenate_join_units
  : list JoinUnit -> bool -> result ArrayLike :=
  _concatenate_join_units pandas_find_common_type
    pandas_ensure_dtype_can_hold_na pandas_is_valid_na_for_dtype
    pandas_needs_i8_conversion pandas_astype_array pandas_concat_compat.

Definition pandas_uniform_values : list JoinUnit -> Block -> result ArrayLike :=
  uniform_values pandas_astype_array numpy_result_type pandas_concat_compat.

Definition pandas_concatenate_managers
  : list (BlockManager * list (Z * option (list Z))) -> list Index -> Z ->
    bool -> result BlockManager :=
  concatenate_managers pandas_find_common_type
    pandas_ensure_dtype_can_hold_na pandas_is_valid_na_for_dtype
    pandas_needs_i8_conversion pandas_astype_array numpy_result_type
    pandas_concat_compat aligned_reindex_indexer pandas_new_block_2d.

(** ** Sample dtypes, blocks and units *)

Definition sparse_float64 : DtypeObj :=
  ExtDtype (mkExtensionDtype "Sparse[float64, nan]" "f" NpNan true false).

(** A numpy-backed two-dimensional block of one column. *)
Definition numpy_block (dt : DtypeObj) (row : list Scalar) (can_hold_na : bool)
  (fill : Scalar) : Block :=
  mkBlock "NumpyBlock" (mkArray dt (Data2D [row])) [0] can_hold_na false true
          fill.

(** An extension block over a one-dimensional extension array. *)
Definition extension_block (dt : DtypeObj) (xs : list Scalar) (fill : Scalar)
  : Block :=
  mkBlock "ExtensionBlock" (mkArray dt (Data1D xs)) [0] true true false fill.

Definition category_dtype : DtypeObj :=
  ExtDtype (mkExtensionDtype "category" "O" NpNan false false).

Definition category_unit (xs : list string) : JoinUnit :=
  mkJoinUnit (extension_block category_dtype (map PyStr xs) NpNan).

Definition empty_sparse_unit : JoinUnit :=
  mkJoinUnit (extension_block sparse_float64 [] NpNan).

Definition empty_int64_unit : JoinUnit :=
  mkJoinUnit (numpy_block np_int64 [] false NpNan).

Definition int64_unit (xs : list Z) : JoinUnit :=
  mkJoinUnit (numpy_block np_int64 (map PyInt xs) false NpNan).

Definition bool_unit (xs : list bool) : JoinUnit :=
  mkJoinUnit (numpy_block np_bool (map PyBool xs) false NpNan).

Definition nan64 : Scalar := NpGeneric "f" 8 "NaN".

Definition float64_nan_unit (n : nat) : JoinUnit :=
  mkJoinUnit (numpy_block np_float64 (repeat nan64 n) true NpNan).

(** A manager of two integer columns held in one block, and a manager whose
    two columns are a float block and an object block. *)
Definition mgr_one_block : BlockManager :=
  mkBlockManager
    [mkBlock "NumpyBlock"
       (mkArray np_int64 (Data2D [[PyInt 1; PyInt 2]; [PyInt 3; PyInt 4]]))
       [0; 1] false false true NpNan]
    [["X"; "Y"]; ["r0"; "r1"]].

Definition mgr_two_blocks : BlockManager :=
  mkBlockManager
    [mkBlock "NumpyBlock"
       (mkArray np_float64 (Data2D [[PyFloat 5 0; nan64]]))
       [0] true false true NpNan;
     mkBlock "NumpyBlock"
       (mkArray np_object (Data2D [[PyStr "a"; PyNone]]))
       [1] true false true NpNan]
    [["X"; "Y"]; ["r2"; "r3"]].

Definition output_axes : list Index :=
  [["X"; "Y"]; ["r0"; "r1"; "r2"; "r3"]].

(** A boolean column followed by an integer column. *)
Definition bool_int_group : list JoinUnit :=
  [bool_unit [true; false; true; true]; int64_unit [1; 0; 1]%Z].

(** An object unit holding None and NaN. *)
Definition object_none_unit : JoinUnit :=
  mkJoinUnit (numpy_block np_object [PyNone; NpNan] true NpNan).

(** The block [_make_na_block] builds with [use_na_proxy]. *)
Definition proxy_unit (n : nat) : JoinUnit :=
  mkJoinUnit (numpy_block np_void (repeat PyNone n) true NpNan).

(** ** Notions the properties are stated with *)

(** The dtypes [_get_empty_dtype] hands to the promotion service: those of
    the units that are not all-missing, or, when there is none, those of the
    units that are not proxies. *)
Definition collected_dtypes (join_units : list JoinUnit) : list DtypeObj :=
  match filter (fun unit => negb (is_na unit)) join_units with
  | [] => map (fun unit => dtype (block unit))
              (filter (fun unit => negb (is_proxy unit)) join_units)
  | not_na => map (fun unit => dtype (block unit)) not_na
  end.

(** The number of rows a group spans: the row counts of its units, summed. *)
Definition total_rows (join_units : list JoinUnit) : nat :=
  list_sum (map (fun u => snd (shape (block u))) join_units).

(** A two-dimensional array is rectangular: its rows have one length. A
    one-dimensional array always is. *)
Definition rectangular (a : ArrayLike) : Prop :=
  match arr_data a with
  | Data1D _ => True
  | Data2D rows => forall row, In row rows -> length row = length (hd [] rows)
  end.

(** What the block numbers and block locations of a manager record: a
    position with block number [b] is held by block [b], at the location
    recorded for it. *)
Definition locates (blks : list Block) (nos locs : list Z) : Prop :=
  length nos = length locs /\
  forall (pos : nat) (x : Z),
    nth_error nos pos = Some x -> x <> (-1)%Z ->
    exists (b : nat) (blk : Block) (i : nat),
      x = Z.of_nat b /\ nth_error blks b = Some blk /\
      nth_error locs pos = Some (Z.of_nat i) /\
      nth_error (mgr_locs blk) i = Some pos.

(** The number of items of a manager: the length of its first axis. *)
Definition nitems (mgr : BlockManager) : nat := length (hd [] (axes mgr)).


(** A block moved [offset] positions along the column axis: its class, its
    values and its other attributes stay, its placement is shifted. *)
Definition shifted (offset : nat) (blk : Block) : Block :=
  mkBlock (block_class blk) (values blk)
          (map (fun pos => pos + offset) (mgr_locs blk))
          (_can_hold_na blk) (is_extension blk) (_can_consolidate blk)
          (fill_value blk).

(** The blocks of the managers in manager order, each manager's blocks
    shifted by the number of items of the managers before it. *)
Fixpoint stacked_blocks (mgrs : list BlockManager) (offset : nat)
  : list Block :=
  match mgrs with
  | [] => []
  | mgr :: mgrs' =>
      map (shifted offset) (blocks mgr)
      ++ stacked_blocks mgrs' (offset + nitems mgr)
  end.

(** * Properties *)

(** ** Basic facts *)

Lemma is_dtype_equal_true : forall a b, is_dtype_equal a b = true <-> a = b.
Proof.
  intros a b. unfold is_dtype_equal.
  destruct (DtypeObj_eq_dec a b); split; congruence.
Qed.

Lemma is_dtype_equal_refl : forall a, is_dtype_equal a a = true.
Proof. intro a. now apply is_dtype_equal_true. Qed.

Lemma is_dtype_equal_false : forall a b, is_dtype_equal a b = false <-> a <> b.
Proof.
  intros a b. unfold is_dtype_equal.
  destruct (DtypeObj_eq_dec a b); split; congruence.
Qed.

Lemma Ok_inj : forall (A : Type) (a b : A), Ok a = Ok b -> a = b.
Proof. intros A a b H. congruence. Qed.

Lemma existsb_false_forall : forall (A : Type) (f : A -> bool) (xs : list A),
  (forall x, In x xs -> f x = false) -> existsb f xs = false.
Proof.
  intros A f xs H. induction xs as [| x xs IH]; simpl; [reflexivity |].
  rewrite (H x (or_introl eq_refl)). apply IH. intros y Hy. apply H. now right.
Qed.

Lemma bind_Ok : forall (A B : Type) (m : result A) (k : A -> result B) b,
  bind m k = Ok b -> exists a, m = Ok a /\ k a = Ok b.
Proof.
  intros A B [a | e] k b H; simpl in H; [eauto | discriminate].
Qed.

(** ** The fill-value table *)

(** C2: [_dtype_to_na_value] returns the fill value of the table: the
    declared [na_value] of an extension dtype; NaT of the dtype for kinds
    m and M; NaN of the dtype for kinds f and c; None (which is not False)
    for kind b; None for kinds i and u without a proxy and [np.nan] with
    one; [np.nan] for kind O; and it raises NotImplementedError for a
    numpy dtype of any other kind. *)
Theorem dtype_to_na_value_table :
  (forall e h, _dtype_to_na_value (ExtDtype e) h = Ok (na_value e)) /\
  (forall k sz h, char_in k "mM" = true ->
     _dtype_to_na_value (NpDtype k sz) h = Ok (NpGeneric k sz "NaT")) /\
  (forall k sz h, char_in k "fc" = true ->
     _dtype_to_na_value (NpDtype k sz) h = Ok (NpGeneric k sz "NaN")) /\
  (forall sz h, _dtype_to_na_value (NpDtype "b" sz) h = Ok PyNone) /\
  PyNone <> PyBool false /\
  (forall k sz, char_in k "iu" = true ->
     _dtype_to_na_value (NpDtype k sz) false = Ok PyNone) /\
  (forall k sz, char_in k "iu" = true ->
     _dtype_to_na_value (NpDtype k sz) true = Ok NpNan) /\
  (forall sz h, _dtype_to_na_value (NpDtype "O" sz) h = Ok NpNan) /\
  (forall k sz h, char_in k "mMfcbiuO" = false ->
     _dtype_to_na_value (NpDtype k sz) h = Raise NotImplementedError).
Proof.
  repeat split; try discriminate; try reflexivity.
  - intros k sz h Hk. unfold _dtype_to_na_value. now rewrite Hk.
  - intros k sz h Hk. simpl in *.
    repeat (apply orb_prop in Hk; destruct Hk as [Hk | Hk]);
      try discriminate;
      apply Ascii.eqb_eq in Hk; subst; reflexivity.
  - intros k sz Hk. simpl in *.
    repeat (apply orb_prop in Hk; destruct Hk as [Hk | Hk]);
      try discriminate;
      apply Ascii.eqb_eq in Hk; subst; reflexivity.
  - intros k sz Hk. simpl in *.
    repeat (apply orb_prop in Hk; destruct Hk as [Hk | Hk]);
      try discriminate;
      apply Ascii.eqb_eq in Hk; subst; reflexivity.
  - intros k sz h Hk. simpl in *.
    repeat (apply orb_false_elim in Hk; destruct Hk as [?H Hk]).
    repeat match goal with
           | H : Ascii.eqb _ _ = false |- _ => rewrite H; clear H
           end.
    reflexivity.
Qed.

Lemma dtype_to_na_value_table_witness :
  _dtype_to_na_value (NpDtype "M" 8) false = Ok (NpGeneric "M" 8 "NaT") /\
  _dtype_to_na_value np_float64 true = Ok (NpGeneric "f" 8 "NaN") /\
  _dtype_to_na_value np_int64 false = Ok PyNone /\
  _dtype_to_na_value np_int64 true = Ok NpNan /\
  _dtype_to_na_value np_void true = Raise NotImplementedError.
Proof.
  destruct dtype_to_na_value_table
    as (_ & HM & Hf & _ & _ & Hi & Hip & _ & Hother).
  split; [apply HM; reflexivity |].
  split; [apply Hf; reflexivity |].
  split; [apply Hi; reflexivity |].
  split; [apply Hip; reflexivity |].
  apply Hother; reflexivity.
Defined.

(** ** All-missing units *)

(** C4, as the code has it: a proxy-backed unit is all-missing; any other
    unit whose block cannot hold missing values is not all-missing, whatever
    its size; among the units that can hold missing values, one with zero
    elements is all-missing, whatever its storage, and a sparse one with at
    least one element is not. *)
Theorem is_na_special_cases : forall ju : JoinUnit,
  (is_proxy ju = true -> is_na ju = true) /\
  (is_proxy ju = false -> _can_hold_na (block ju) = false ->
     is_na ju = false) /\
  (is_proxy ju = false -> _can_hold_na (block ju) = true ->
     size (values (block ju)) = 0 -> is_na ju = true) /\
  (is_proxy ju = false -> _can_hold_na (block ju) = true ->
     size (values (block ju)) <> 0 ->
     isinstance_SparseDtype (arr_dtype (values (block ju))) = true ->
     is_na ju = false).
Proof.
  intro ju. unfold is_proxy, is_na.
  repeat split; intros.
  - now rewrite H.
  - now rewrite H, H0.
  - rewrite H, H0, H1. reflexivity.
  - rewrite H, H0, H2. simpl.
    apply Nat.eqb_neq in H1. now rewrite H1.
Qed.

Lemma is_na_special_cases_witness :
  is_na (proxy_unit 2) = true /\
  is_na empty_int64_unit = false /\
  is_na empty_sparse_unit = true /\
  is_na (mkJoinUnit (extension_block sparse_float64 [NpNan] NpNan)) = false.
Proof.
  split; [apply (proj1 (is_na_special_cases (proxy_unit 2))); reflexivity |].
  split;
    [apply (proj1 (proj2 (is_na_special_cases empty_int64_unit)));
     reflexivity |].
  split;
    [apply (proj1 (proj2 (proj2 (is_na_special_cases empty_sparse_unit))));
     reflexivity |].
  apply (proj2 (proj2 (proj2 (is_na_special_cases
           (mkJoinUnit (extension_block sparse_float64 [NpNan] NpNan))))));
    try reflexivity.
  vm_compute; discriminate.
Defined.

(** C4 as stated fails twice: a sparse unit with zero elements is
    all-missing, and a unit with zero elements whose block cannot hold
    missing values is not. *)
Lemma is_na_special_cases_counterexample :
  (isinstance_SparseDtype (arr_dtype (values (block empty_sparse_unit))) = true
   /\ is_na empty_sparse_unit = true) /\
  (size (values (block empty_int64_unit)) = 0
   /\ is_na empty_int64_unit = false).
Proof. repeat split. Qed.

(** C10: a unit that is not a proxy and whose block cannot hold missing
    values is not all-missing, also when it has zero elements. *)
Theorem is_na_cannot_hold_na : forall ju : JoinUnit,
  kind (dtype (block ju)) <> "V"%char ->
  _can_hold_na (block ju) = false ->
  is_na ju = false.
Proof.
  intros ju HV Hna. unfold is_na.
  apply Ascii.eqb_neq in HV. now rewrite HV, Hna.
Qed.

Lemma is_na_cannot_hold_na_witness :
  size (values (block empty_int64_unit)) = 0 /\
  is_na empty_int64_unit = false.
Proof.
  split; [reflexivity |].
  apply (is_na_cannot_hold_na empty_int64_unit); [discriminate | reflexivity].
Defined.

(** ** The uniformity classifier *)

Lemma char_in_iub_not_V : forall k, char_in k "iub" = true -> k <> "V"%char.
Proof.
  intros k Hk ->. discriminate Hk.
Qed.

(** C3: [_is_uniform_join_units] returns true exactly when the group has
    more than one unit, no unit is a proxy, every block has the class of the
    first unit's block, every dtype equals the first unit's dtype or has kind
    i, u or b, and every all-missing unit has an extension block. *)
Theorem is_uniform_join_units_iff : forall join_units : list JoinUnit,
  _is_uniform_join_units join_units = Ok true <->
  (1 < length join_units /\
   (forall ju, In ju join_units -> is_proxy ju = false) /\
   (forall first ju, hd_error join_units = Some first -> In ju join_units ->
      block_class (block ju) = block_class (block first)) /\
   (forall first ju, hd_error join_units = Some first -> In ju join_units ->
      dtype (block ju) = dtype (block first) \/
      char_in (kind (dtype (block ju))) "iub" = true) /\
   (forall ju, In ju join_units -> is_na ju = true ->
      is_extension (block ju) = true)).
Proof.
  intros [| ju0 rest].
  - simpl. split; [discriminate | intros [H _]; inversion H].
  - unfold _is_uniform_join_units.
    destruct (Ascii.eqb (kind (dtype (block ju0))) "V") eqn:HV.
    + split; [discriminate |].
      intros (_ & Hp & _). specialize (Hp ju0 (or_introl eq_refl)).
      unfold is_proxy in Hp. congruence.
    + apply Ascii.eqb_neq in HV. split.
      * intro H. apply Ok_inj in H.
        apply andb_true_iff in H; destruct H as [H H0].
        apply andb_true_iff in H; destruct H as [H H1].
        apply andb_true_iff in H; destruct H as [H H2].
        rewrite forallb_forall in H, H1, H2. apply Nat.ltb_lt in H0.
        assert (Hdt : forall ju, In ju (ju0 :: rest) ->
                  dtype (block ju) = dtype (block ju0) \/
                  char_in (kind (dtype (block ju))) "iub" = true).
        { intros ju Hin. specialize (H2 ju Hin).
          apply orb_true_iff in H2. destruct H2 as [H2 | H2]; [left | now right].
          now apply is_dtype_equal_true. }
        split; [exact H0 |]. split; [| split; [| split]].
        -- intros ju Hin. unfold is_proxy. apply Ascii.eqb_neq.
           destruct (Hdt ju Hin) as [Heq | Hk].
           ++ now rewrite Heq.
           ++ now apply char_in_iub_not_V.
        -- intros first ju Hf Hin. injection Hf as <-.
           apply String.eqb_eq. now apply H.
        -- intros first ju Hf Hin. injection Hf as <-. now apply Hdt.
        -- intros ju Hin Hna. specialize (H1 ju Hin).
           rewrite Hna in H1. exact H1.
      * intros (Hlen & _ & Hcls & Hdt & Hna). f_equal.
        apply andb_true_iff; split;
          [apply andb_true_iff; split; [apply andb_true_iff; split | ] | ].
        -- apply forallb_forall. intros ju Hin. apply String.eqb_eq.
           now apply Hcls.
        -- apply forallb_forall. intros ju Hin. apply orb_true_iff.
           destruct (Hdt ju0 ju eq_refl Hin) as [Heq | Hk]; [left | now right].
           now apply is_dtype_equal_true.
        -- apply forallb_forall. intros ju Hin.
           destruct (is_na ju) eqn:E; [| reflexivity].
           simpl. now apply Hna.
        -- now apply Nat.ltb_lt.
Qed.

(** ** The dtype unifier *)

Lemma dtypes_all_equal_cons : forall (u : JoinUnit) (rest : list JoinUnit),
  dtypes_all_equal (map (fun ju => dtype (block ju)) (u :: rest)) =
  Ok (forallb (fun ju => is_dtype_equal (dtype (block ju)) (dtype (block u)))
              rest).
Proof.
  intros u rest. simpl. f_equal. induction rest as [| v rest IH].
  - reflexivity.
  - simpl. now rewrite IH.
Qed.

Lemma differing_dtypes_not_all_equal : forall (u0 : JoinUnit) rest,
  (exists u v, In u (u0 :: rest) /\ In v (u0 :: rest) /\
               dtype (block u) <> dtype (block v)) ->
  rest <> [] /\
  forallb (fun ju => is_dtype_equal (dtype (block ju)) (dtype (block u0)))
          rest = false.
Proof.
  intros u0 rest (u & v & Hu & Hv & Hne).
  destruct (forallb _ rest) eqn:E.
  - exfalso. rewrite forallb_forall in E.
    assert (Hall : forall w, In w (u0 :: rest) ->
              dtype (block w) = dtype (block u0)).
    { intros w [<- | Hw]; [reflexivity |].
      apply is_dtype_equal_true. now apply E. }
    apply Hne. now rewrite (Hall u Hu), (Hall v Hv).
  - split; [| reflexivity]. intros ->. discriminate E.
Qed.

Section DtypeUnifierFacts.

Variable find_common_type : list DtypeObj -> result DtypeObj.
Variable ensure_dtype_can_hold_na : DtypeObj -> DtypeObj.

Let get_empty_dtype := _get_empty_dtype find_common_type
                                        ensure_dtype_can_hold_na.

Lemma get_empty_dtype_same : forall (join_units : list JoinUnit) d,
  join_units <> [] ->
  (forall u, In u join_units -> dtype (block u) = d) ->
  get_empty_dtype join_units = Ok d.
Proof.
  intros join_units d Hne Hall. unfold get_empty_dtype.
  destruct join_units as [| u rest]; [congruence |].
  destruct rest as [| v rest].
  - simpl. f_equal. apply Hall. now left.
  - unfold _get_empty_dtype. rewrite dtypes_all_equal_cons.
    assert (E : forallb (fun ju => is_dtype_equal (dtype (block ju))
                                                  (dtype (block u)))
                        (v :: rest) = true).
    { apply forallb_forall. intros w Hw. apply is_dtype_equal_true.
      rewrite (Hall w (or_intror Hw)). symmetry. apply Hall. now left. }
    rewrite E. simpl. f_equal. apply Hall. now left.
Qed.

(** C1: for a group of exactly one unit [_get_empty_dtype] returns that
    unit's dtype; for a group whose units all have the same dtype it returns
    that dtype; for any other group it returns the common type the promotion
    service finds for the dtypes of the units that are not all-missing (of
    the units that are not proxies when every unit is all-missing), passed
    through [ensure_dtype_can_hold_na] when some unit of the group is a proxy
    and unchanged when none is. *)
Theorem get_empty_dtype_spec : forall join_units : list JoinUnit,
  (forall u, join_units = [u] ->
     get_empty_dtype join_units = Ok (dtype (block u))) /\
  (forall d, join_units <> [] ->
     (forall u, In u join_units -> dtype (block u) = d) ->
     get_empty_dtype join_units = Ok d) /\
  ((exists u v, In u join_units /\ In v join_units /\
                dtype (block u) <> dtype (block v)) ->
   ((exists p, In p join_units /\ is_proxy p = true) ->
      get_empty_dtype join_units =
      (common <- find_common_type (collected_dtypes join_units) ;;
       Ok (ensure_dtype_can_hold_na common))) /\
   ((forall p, In p join_units -> is_proxy p = false) ->
      get_empty_dtype join_units =
      find_common_type (collected_dtypes join_units))).
Proof.
  intro join_units. unfold get_empty_dtype. split; [| split].
  - intros u ->. reflexivity.
  - intros d Hne Hall. now apply get_empty_dtype_same.
  - intros Hdiff. destruct join_units as [| u rest].
    { destruct Hdiff as (u & _ & [] & _). }
    destruct (differing_dtypes_not_all_equal Hdiff) as [Hrest E].
    destruct rest as [| v rest]; [congruence |].
    unfold _get_empty_dtype. rewrite dtypes_all_equal_cons, E.
    cbv beta iota delta [bind].
    assert (Hc : (if Nat.eqb
                       (length (map (fun unit => dtype (block unit))
                          (filter (fun unit => negb (is_na unit))
                                  (u :: v :: rest)))) 0
                  then map (fun unit => dtype (block unit))
                         (filter (fun unit => negb (is_proxy unit))
                                 (u :: v :: rest))
                  else map (fun unit => dtype (block unit))
                         (filter (fun unit => negb (is_na unit))
                                 (u :: v :: rest)))
                 = collected_dtypes (u :: v :: rest)).
    { unfold collected_dtypes.
      destruct (filter (fun unit => negb (is_na unit)) (u :: v :: rest));
        reflexivity. }
    rewrite Hc. split.
    + intros (p & Hp & Hpx).
      assert (Hex : existsb is_proxy (u :: v :: rest) = true).
      { apply existsb_exists. eauto. }
      rewrite Hex. reflexivity.
    + intros Hnone.
      assert (Hex : existsb is_proxy (u :: v :: rest) = false).
      { destruct (existsb is_proxy (u :: v :: rest)) eqn:Ex; [| reflexivity].
        apply existsb_exists in Ex. destruct Ex as (p & Hp & Hpx).
        rewrite (Hnone p Hp) in Hpx. discriminate. }
      rewrite Hex.
      destruct (find_common_type (collected_dtypes (u :: v :: rest)));
        reflexivity.
Qed.

End DtypeUnifierFacts.

(** ** Synthesis of all-missing arrays *)

Lemma forallb_concat : forall (A : Type) (f : A -> bool) (xss : list (list A)),
  forallb (forallb f) xss = true -> forallb f (concat xss) = true.
Proof.
  intros A f xss. induction xss as [| xs xss IH]; simpl; [reflexivity |].
  intro H. apply andb_true_iff in H. destruct H as [H1 H2].
  rewrite forallb_app, H1. now apply IH.
Qed.

(** The cells of an all-missing unit that is not a proxy and not empty are
    all missing markers. *)
Lemma is_na_cells : forall ju : JoinUnit,
  is_na ju = true ->
  kind (dtype (block ju)) <> "V"%char ->
  ravel (values (block ju)) <> [] ->
  forallb isna (ravel (values (block ju))) = true.
Proof.
  intros ju Hna HV Hne. unfold is_na in Hna.
  apply Ascii.eqb_neq in HV. rewrite HV in Hna.
  destruct (negb (_can_hold_na (block ju))); [discriminate |].
  unfold size in Hna.
  destruct (Nat.eqb (length (ravel (values (block ju)))) 0) eqn:Hsz.
  { apply Nat.eqb_eq in Hsz. apply length_zero_iff_nil in Hsz. contradiction. }
  destruct (isinstance_SparseDtype (arr_dtype (values (block ju))));
    [discriminate |].
  unfold ravel. destruct (arr_data (values (block ju))) as [xs | rows].
  - destruct xs as [| val xs]; [discriminate |].
    destruct (negb (is_scalar val) || negb (isna val)); [discriminate |].
    exact Hna.
  - destruct rows as [| [| val row] rows]; try discriminate.
    destruct (negb (is_scalar val) || negb (isna val)); [discriminate |].
    now apply forallb_concat.
Qed.

Lemma map_repeat : forall (A B : Type) (f : A -> B) (x : A) (n : nat),
  map f (repeat x n) = repeat (f x) n.
Proof.
  intros A B f x n. induction n as [| n IH]; simpl; [reflexivity |].
  now rewrite IH.
Qed.

Lemma combine_repeat : forall (A B : Type) (x : A) (y : B) (n : nat),
  combine (repeat x n) (repeat y n) = repeat (x, y) n.
Proof.
  intros A B x y n. induction n as [| n IH]; simpl; [reflexivity |].
  now rewrite IH.
Qed.

(** Appending constant rows to constant rows gives constant rows. *)
Lemma append_rows_repeat : forall (v : Scalar) (r : nat) (cs : list nat)
  (c0 : nat),
  append_rows (repeat (repeat v c0) r)
              (map (fun c => Data2D (repeat (repeat v c) r)) cs) =
  Ok (repeat (repeat v (c0 + list_sum cs)) r).
Proof.
  intros v r cs. induction cs as [| c cs IH]; intro c0; simpl.
  - now rewrite Nat.add_0_r.
  - rewrite !repeat_length, Nat.eqb_refl.
    rewrite combine_repeat, map_repeat. simpl.
    rewrite <- repeat_app, IH. now rewrite Nat.add_assoc.
Qed.

Lemma mapM_ext_Ok : forall (A B : Type) (f : A -> result B) (g : A -> B)
  (xs : list A),
  (forall x, In x xs -> f x = Ok (g x)) -> mapM f xs = Ok (map g xs).
Proof.
  intros A B f g xs. induction xs as [| x xs IH]; intro H; simpl.
  - reflexivity.
  - rewrite (H x (or_introl eq_refl)). simpl.
    rewrite IH by (intros y Hy; apply H; now right). reflexivity.
Qed.

(** [np.concatenate] along axis 1 of arrays of one dtype joins their cells
    and keeps the dtype. *)
Lemma np_concatenate_same_dtype :
  forall astype_array np_result_type (arrays : list ArrayLike) dt,
  arrays <> [] ->
  (forall a, In a arrays -> arr_dtype a = dt) ->
  np_concatenate astype_array np_result_type arrays 1%Z =
  (cells <- concat_cells (map arr_data arrays) 1%Z ;; Ok (mkArray dt cells)).
Proof.
  intros astype nrt arrays dt Hne Hall.
  destruct arrays as [| a rest]; [congruence |].
  unfold np_concatenate.
  assert (Hrest : forallb (fun x => is_dtype_equal (arr_dtype x) (arr_dtype a))
                          rest = true).
  { apply forallb_forall. intros x Hx. apply is_dtype_equal_true.
    rewrite (Hall x (or_intror Hx)). symmetry. apply Hall. now left. }
  rewrite Hrest, (Hall a (or_introl eq_refl)).
  rewrite map_ext_in with (g := arr_data); [reflexivity |].
  intros x Hx. now rewrite (Hall x Hx), is_dtype_equal_refl.
Qed.

Lemma np_concatenate_full :
  forall astype_array np_result_type dt (v : Scalar) (r c0 : nat)
         (cs : list nat),
  np_concatenate astype_array np_result_type
    (map (fun c => full dt (r, c) v) (c0 :: cs)) 1%Z =
  Ok (full dt (r, c0 + list_sum cs) v).
Proof.
  intros astype nrt dt v r c0 cs.
  rewrite np_concatenate_same_dtype with (dt := dt).
  - rewrite map_map. simpl map. unfold concat_cells.
    change (Z.eqb 1 0) with false. cbv iota.
    change (map (fun x => arr_data (full dt (r, x) v)) cs)
      with (map (fun c => Data2D (repeat (repeat v c) r)) cs).
    simpl arr_data. simpl fst. simpl snd.
    rewrite append_rows_repeat. reflexivity.
  - discriminate.
  - intros a Ha. apply in_map_iff in Ha. destruct Ha as (c & <- & _).
    reflexivity.
Qed.

Section AllMissingSynthesis.

Variable find_common_type : list DtypeObj -> result DtypeObj.
Variable ensure_dtype_can_hold_na : DtypeObj -> DtypeObj.
Variable is_valid_na_for_dtype : Scalar -> DtypeObj -> bool.
Variable needs_i8_conversion : DtypeObj -> bool.
Variable astype_array : ArrayLike -> DtypeObj -> ArrayLike.
Variable np_result_type : list DtypeObj -> DtypeObj.
Variable concat_compat : list ArrayLike -> Z -> bool -> result ArrayLike.

(** Contract of the generic concatenation: arrays that already share one
    dtype are concatenated natively. *)
Hypothesis concat_compat_same_dtype : forall (arrays : list ArrayLike) dt,
  (forall a, In a arrays -> arr_dtype a = dt) ->
  concat_compat arrays 1%Z false =
  np_concatenate astype_array np_result_type arrays 1%Z.

(** Contract of the compatibility check: the object type takes every missing
    marker. *)
Hypothesis valid_na_for_object : forall x : Scalar,
  isna x = true -> is_valid_na_for_dtype x np_object = true.

Let valid_na_for := _is_valid_na_for is_valid_na_for_dtype needs_i8_conversion.
Let reindexed_values :=
  get_reindexed_values is_valid_na_for_dtype needs_i8_conversion astype_array.

(** Contract of the compatibility check: a floating target takes NaN. *)
Hypothesis valid_nan_for_float64 :
  is_valid_na_for_dtype NpNan np_float64 = true.

(** Proxies, and all-missing blocks that are not object blocks and whose own
    fill value is NaN (the floating blocks), are all-missing for float64. *)
Lemma is_na_valid_for_float64 : forall u : JoinUnit,
  is_na u = true ->
  is_proxy u = true \/
  (dtype (block u) <> np_object /\ fill_value (block u) = NpNan) ->
  valid_na_for u np_float64 = true.
Proof.
  intros u Hna Hkind. unfold valid_na_for, _is_valid_na_for.
  rewrite Hna. simpl negb. cbv iota.
  destruct (Ascii.eqb (kind (dtype (block u))) "V") eqn:HV; [reflexivity |].
  destruct Hkind as [Hp | [Hobj Hfill]].
  - unfold is_proxy in Hp. congruence.
  - apply is_dtype_equal_false in Hobj. rewrite Hobj, Hfill.
    exact valid_nan_for_float64.
Qed.

Lemma reindexed_values_float64 : forall u : JoinUnit,
  valid_na_for u np_float64 = true ->
  reindexed_values u np_float64 nan64 =
  Ok (full np_float64 (shape (block u)) nan64).
Proof.
  intros u Hv. unfold reindexed_values, get_reindexed_values.
  fold valid_na_for. rewrite Hv.
  change (scalar_is nan64 PyNone) with false. simpl andb. cbv iota.
  unfold make_na_array. change (is_1d_only_ea_dtype np_float64) with false.
  cbv iota. do 2 f_equal.
  destruct (is_dtype_equal (dtype (block u)) np_object); [| reflexivity].
  destruct (ravel (values (block u))) as [| v0 rest]; [reflexivity |].
  destruct (scalar_is v0 PyNone); reflexivity.
Qed.

(** C5: when every unit of a group is all-missing for the target type
    float64, the value [_concatenate_join_units] assembles is the array of
    the group's shape whose every cell is the float64 NaN, whatever the
    units' own fill values are; and for the target type object, with the
    fill value the table gives for it, [get_reindexed_values] on an
    all-missing object unit whose first value is None synthesizes the array
    of the unit's shape whose every cell is None. *)
Theorem all_missing_synthesis :
  (forall (join_units : list JoinUnit) (copy : bool) (r : nat),
     join_units <> [] ->
     (forall u, In u join_units -> valid_na_for u np_float64 = true) ->
     _get_empty_dtype find_common_type ensure_dtype_can_hold_na join_units
       = Ok np_float64 ->
     (forall u, In u join_units -> fst (shape (block u)) = r) ->
     _concatenate_join_units find_common_type ensure_dtype_can_hold_na
       is_valid_na_for_dtype needs_i8_conversion astype_array concat_compat
       join_units copy
     = Ok (full np_float64 (r, total_rows join_units) nan64)) /\
  (forall (u : JoinUnit) (has_none_blocks : bool) (upcasted_na : Scalar),
     is_na u = true ->
     dtype (block u) = np_object ->
     hd_error (ravel (values (block u))) = Some PyNone ->
     _dtype_to_na_value np_object has_none_blocks = Ok upcasted_na ->
     reindexed_values u np_object upcasted_na =
     Ok (full np_object (shape (block u)) PyNone)).
Proof.
  split.
  - intros join_units copy r Hne Hvalid Hdt Hshape.
    unfold _concatenate_join_units. rewrite Hdt.
    cbv beta iota delta [bind].
    change (_dtype_to_na_value np_float64 (existsb is_proxy join_units))
      with (Ok nan64 : result Scalar). cbv beta iota.
    fold reindexed_values.
    rewrite (mapM_ext_Ok
               (fun ju => reindexed_values ju np_float64 nan64)
               (fun ju => full np_float64 (shape (block ju)) nan64))
      by (intros u Hu; apply reindexed_values_float64; now apply Hvalid).
    assert (Hmap : map (fun ju => full np_float64 (shape (block ju)) nan64)
                       join_units =
                   map (fun c => full np_float64 (r, c) nan64)
                       (map (fun u => snd (shape (block u))) join_units)).
    { rewrite map_map. apply map_ext_in. intros u Hu.
      rewrite <- (Hshape u Hu), <- surjective_pairing. reflexivity. }
    rewrite Hmap. unfold total_rows.
    destruct join_units as [| u0 [| u1 rest]]; [congruence | |].
    + simpl. rewrite Nat.add_0_r. now destruct copy.
    + set (c0 := snd (shape (block u0))).
      set (cs := map (fun u => snd (shape (block u))) (u1 :: rest)).
      change (map (fun u => snd (shape (block u))) (u0 :: u1 :: rest))
        with (c0 :: cs).
      assert (Htail : forall (a0 a1 : ArrayLike) (tl : list ArrayLike),
                existsb (fun t => is_1d_only_ea_dtype (arr_dtype t))
                        (a0 :: a1 :: tl) = false ->
                concat_reindexed concat_compat (a0 :: a1 :: tl) copy =
                concat_compat (a0 :: a1 :: tl) 1%Z false).
      { intros a0 a1 tl Hex. unfold concat_reindexed. now rewrite Hex. }
      assert (Hall : forall a,
                In a (map (fun c => full np_float64 (r, c) nan64) (c0 :: cs))
                -> arr_dtype a = np_float64).
      { intros a Ha. apply in_map_iff in Ha. destruct Ha as (c & <- & _).
        reflexivity. }
      assert (Hex : existsb (fun t => is_1d_only_ea_dtype (arr_dtype t))
                      (map (fun c => full np_float64 (r, c) nan64) (c0 :: cs))
                    = false).
      { destruct (existsb _ _) eqn:E; [| reflexivity].
        apply existsb_exists in E. destruct E as (a & Ha & H1d).
        rewrite (Hall a Ha) in H1d. discriminate. }
      unfold cs in *. simpl map in *.
      rewrite Htail by exact Hex.
      rewrite (@concat_compat_same_dtype _ np_float64) by exact Hall.
      apply (np_concatenate_full astype_array np_result_type np_float64 nan64
               r c0 (snd (shape (block u1))
                     :: map (fun u => snd (shape (block u))) rest)).
  - intros u h upcasted_na Hna Hobj Hhd Hfill.
    assert (upcasted_na = NpNan) by (simpl in Hfill; congruence). subst.
    assert (Hne : ravel (values (block u)) <> []).
    { intro E. rewrite E in Hhd. discriminate. }
    assert (HV : kind (dtype (block u)) <> "V"%char).
    { rewrite Hobj. discriminate. }
    pose proof (is_na_cells u Hna HV Hne) as Hcells.
    unfold reindexed_values, get_reindexed_values, _is_valid_na_for.
    rewrite Hna, Hobj.
    change (scalar_is NpNan PyNone) with false.
    change (Ascii.eqb (kind np_object) "V") with false.
    rewrite is_dtype_equal_refl. simpl negb. simpl andb. cbv iota.
    assert (Hvalid : forallb (fun x => is_valid_na_for_dtype x np_object)
                             (ravel (values (block u))) = true).
    { apply forallb_forall. intros x Hx. apply valid_na_for_object.
      rewrite forallb_forall in Hcells. now apply Hcells. }
    rewrite Hvalid.
    destruct (ravel (values (block u))) as [| v0 rest]; [discriminate |].
    injection Hhd as ->. reflexivity.
Qed.

End AllMissingSynthesis.

Lemma pandas_concat_compat_same_dtype : forall (arrays : list ArrayLike) dt,
  (forall a, In a arrays -> arr_dtype a = dt) ->
  pandas_concat_compat arrays 1%Z false =
  np_concatenate pandas_astype_array numpy_result_type arrays 1%Z.
Proof.
  intros arrays dt Hall. destruct arrays as [| a rest]; [reflexivity |].
  unfold pandas_concat_compat.
  assert (Hrest : forallb (fun x => is_dtype_equal (arr_dtype x) (arr_dtype a))
                          rest = true).
  { apply forallb_forall. intros x Hx. apply is_dtype_equal_true.
    rewrite (Hall x (or_intror Hx)). symmetry. apply Hall. now left. }
  now rewrite Hrest.
Qed.

Lemma pandas_valid_na_for_object : forall x : Scalar,
  isna x = true -> pandas_is_valid_na_for_dtype x np_object = true.
Proof.
  intros x Hx. unfold pandas_is_valid_na_for_dtype. rewrite Hx.
  destruct x; try discriminate; reflexivity.
Qed.

Lemma all_missing_synthesis_witness :
  pandas_concatenate_join_units [float64_nan_unit 2; proxy_unit 3] false =
    Ok (full np_float64 (1, 5) nan64) /\
  get_reindexed_values pandas_is_valid_na_for_dtype pandas_needs_i8_conversion
    pandas_astype_array object_none_unit np_object NpNan =
    Ok (full np_object (1, 2) PyNone).
Proof.
  destruct (@all_missing_synthesis
              pandas_find_common_type pandas_ensure_dtype_can_hold_na
              pandas_is_valid_na_for_dtype pandas_needs_i8_conversion
              pandas_astype_array numpy_result_type pandas_concat_compat
              pandas_concat_compat_same_dtype pandas_valid_na_for_object)
    as [Hfloat Hobject].
  split.
  - apply (Hfloat [float64_nan_unit 2; proxy_unit 3] false 1).
    + discriminate.
    + intros u [<- | [<- | []]]; reflexivity.
    + reflexivity.
    + intros u [<- | [<- | []]]; reflexivity.
  - apply (Hobject object_none_unit false NpNan); reflexivity.
Defined.

Lemma get_empty_dtype_spec_witness :
  pandas_get_empty_dtype [int64_unit [1%Z]] = Ok np_int64 /\
  pandas_get_empty_dtype [int64_unit [1%Z]; int64_unit [2%Z]] = Ok np_int64 /\
  pandas_get_empty_dtype [int64_unit [1%Z]; proxy_unit 1] = Ok np_float64 /\
  pandas_get_empty_dtype [int64_unit [1%Z]; float64_nan_unit 1] = Ok np_int64.
Proof.
  pose proof (get_empty_dtype_spec pandas_find_common_type
                pandas_ensure_dtype_can_hold_na) as H.
  assert (Hdiff : forall u v : JoinUnit,
            dtype (block u) <> dtype (block v) ->
            exists a b, In a [u; v] /\ In b [u; v] /\
                        dtype (block a) <> dtype (block b)).
  { intros u v Hne. exists u, v. simpl. auto. }
  split; [exact (proj1 (H [int64_unit [1%Z]]) (int64_unit [1%Z]) eq_refl) |].
  split.
  { apply (proj1 (proj2 (H [int64_unit [1%Z]; int64_unit [2%Z]])) np_int64).
    - discriminate.
    - intros u [<- | [<- | []]]; reflexivity. }
  split.
  { unfold pandas_get_empty_dtype.
    rewrite (proj1 (proj2 (proj2 (H [int64_unit [1%Z]; proxy_unit 1]))
                      (Hdiff (int64_unit [1%Z]) (proxy_unit 1)
                             ltac:(discriminate)))).
    - reflexivity.
    - exists (proxy_unit 1). split; [right; now left | reflexivity]. }
  unfold pandas_get_empty_dtype.
  rewrite (proj2 (proj2 (proj2 (H [int64_unit [1%Z]; float64_nan_unit 1]))
                    (Hdiff (int64_unit [1%Z]) (float64_nan_unit 1)
                           ltac:(discriminate)))).
  - reflexivity.
  - intros p [<- | [<- | []]]; reflexivity.
Defined.

(** ** The fast path against the generic path *)

Lemma uniform_inv : forall join_units : list JoinUnit,
  _is_uniform_join_units join_units = Ok true ->
  1 < length join_units /\
  (forall first, hd_error join_units = Some first ->
     kind (dtype (block first)) <> "V"%char) /\
  (forall u, In u join_units -> is_na u = true ->
     is_extension (block u) = true).
Proof.
  intros [| ju0 rest] H; [discriminate |].
  unfold _is_uniform_join_units in H.
  destruct (Ascii.eqb (kind (dtype (block ju0))) "V") eqn:HV; [discriminate |].
  apply Ok_inj in H.
  apply andb_true_iff in H; destruct H as [H Hlen].
  apply andb_true_iff in H; destruct H as [_ Hna].
  rewrite forallb_forall in Hna. apply Nat.ltb_lt in Hlen.
  split; [exact Hlen |]. split.
  - intros first Hf. injection Hf as <-. now apply Ascii.eqb_neq.
  - intros u Hu Hu_na. specialize (Hna u Hu). now rewrite Hu_na in Hna.
Qed.

Section FastPath.

Variable find_common_type : list DtypeObj -> result DtypeObj.
Variable ensure_dtype_can_hold_na : DtypeObj -> DtypeObj.
Variable is_valid_na_for_dtype : Scalar -> DtypeObj -> bool.
Variable needs_i8_conversion : DtypeObj -> bool.
Variable astype_array : ArrayLike -> DtypeObj -> ArrayLike.
Variable np_result_type : list DtypeObj -> DtypeObj.
Variable concat_compat : list ArrayLike -> Z -> bool -> result ArrayLike.

(** Contract of the generic concatenation: arrays that already share one
    dtype are concatenated natively. *)
Hypothesis concat_compat_same_dtype : forall (arrays : list ArrayLike) dt,
  (forall a, In a arrays -> arr_dtype a = dt) ->
  concat_compat arrays 1%Z false =
  np_concatenate astype_array np_result_type arrays 1%Z.

(** Contract of the generic concatenation: in representation-compatible
    mode the axis is not used. *)
Hypothesis concat_compat_ea_axis : forall arrays : list ArrayLike,
  concat_compat arrays 0%Z true = concat_compat arrays 1%Z true.

(** A unit that is not all-missing hands its own values to a target dtype
    equal to its own. *)
Lemma reindexed_values_own_dtype : forall (u : JoinUnit) (na : Scalar),
  is_na u = false ->
  kind (dtype (block u)) <> "V"%char ->
  _dtype_to_na_value (dtype (block u)) false = Ok na ->
  get_reindexed_values is_valid_na_for_dtype needs_i8_conversion astype_array
    u (dtype (block u)) na = Ok (values (block u)).
Proof.
  intros u na Hna HV Hfill. unfold get_reindexed_values, _is_valid_na_for.
  rewrite Hna. apply Ascii.eqb_neq in HV. rewrite HV.
  simpl negb. cbv iota. rewrite andb_true_r.
  destruct (scalar_is na PyNone) eqn:Hnone; [reflexivity |].
  destruct (negb (_can_consolidate (block u))); [reflexivity |].
  destruct (is_bool (block u)) eqn:Hb; [| reflexivity].
  exfalso. unfold is_bool in Hb. apply is_dtype_equal_true in Hb.
  rewrite Hb in Hfill. simpl in Hfill. injection Hfill as <-.
  discriminate Hnone.
Qed.

Lemma mapM_id_Ok : forall (A : Type) (f : A -> result A) (xs : list A),
  (forall x, In x xs -> f x = Ok x) -> mapM f xs = Ok xs.
Proof.
  intros A f xs H. rewrite (mapM_ext_Ok f (fun x => x) xs H).
  now rewrite map_id.
Qed.

(** C6, as the code has it: for a uniform group whose units all have one
    and the same dtype (one the fill-value table knows, and held by
    extension blocks when it is one-dimensional only) and none of which is
    all-missing, the generic path [_concatenate_join_units] produces exactly
    the value the fast path produces. Groups that mix integer, unsigned and
    boolean dtypes are uniform too, and there the two paths differ. *)
Theorem uniform_same_dtype_fast_path :
  forall (join_units : list JoinUnit) (first : JoinUnit) (copy : bool)
         (d : DtypeObj) (na : Scalar),
  hd_error join_units = Some first ->
  _is_uniform_join_units join_units = Ok true ->
  (forall u, In u join_units -> dtype (block u) = d) ->
  (forall u, In u join_units -> is_na u = false) ->
  (is_1d_only_ea_dtype d = true -> is_extension (block first) = true) ->
  _dtype_to_na_value d false = Ok na ->
  _concatenate_join_units find_common_type ensure_dtype_can_hold_na
    is_valid_na_for_dtype needs_i8_conversion astype_array concat_compat
    join_units copy =
  uniform_values astype_array np_result_type concat_compat join_units
    (block first).
Proof.
  intros join_units first copy d na Hfirst Hunif Hdt Hnot_na H1d Hfill.
  destruct (uniform_inv _ Hunif) as (Hlen & HV & _).
  assert (Hin : In first join_units).
  { destruct join_units; [discriminate |]. injection Hfirst as <-. now left. }
  assert (HdV : kind d <> "V"%char).
  { rewrite <- (Hdt first Hin). now apply HV. }
  assert (Hproxy : existsb is_proxy join_units = false).
  { apply existsb_false_forall. intros p Hp. unfold is_proxy.
    rewrite (Hdt p Hp). now apply Ascii.eqb_neq. }
  unfold _concatenate_join_units.
  rewrite (get_empty_dtype_same find_common_type ensure_dtype_can_hold_na
             (join_units := join_units) (d := d))
    by (try assumption; intros ->; discriminate).
  cbv beta iota delta [bind]. rewrite Hproxy, Hfill. cbv beta iota.
  rewrite (mapM_ext_Ok _ (fun ju => values (block ju))).
  2:{ intros u Hu. rewrite <- (Hdt u Hu).
      apply reindexed_values_own_dtype.
      - now apply Hnot_na.
      - now rewrite (Hdt u Hu).
      - now rewrite (Hdt u Hu). }
  set (vals := map (fun ju => values (block ju)) join_units).
  assert (Hall : forall a, In a vals -> arr_dtype a = d).
  { intros a Ha. apply in_map_iff in Ha. destruct Ha as (u & <- & Hu).
    now apply Hdt. }
  assert (Hmany : forall copy', concat_reindexed concat_compat vals copy' =
            if existsb (fun t => is_1d_only_ea_dtype (arr_dtype t)) vals then
              to_concat <- mapM (fun t => if is_1d_only_ea_dtype (arr_dtype t)
                                          then Ok t else getitem_row0 t)
                                vals ;;
              concat_values <- concat_compat to_concat 0%Z true ;;
              Ok (ensure_block_shape concat_values)
            else concat_compat vals 1%Z false).
  { intro copy'. unfold vals.
    destruct join_units as [| u0 [| u1 rest]]; simpl in Hlen; try lia.
    reflexivity. }
  rewrite Hmany. unfold uniform_values. fold vals.
  unfold dtype at 1. change (arr_dtype (values (block first)))
                      with (dtype (block first)).
  rewrite (Hdt first Hin).
  destruct (is_1d_only_ea_dtype d) eqn:E1d.
  - rewrite (H1d eq_refl). simpl negb. cbv iota.
    assert (Hex : existsb (fun t => is_1d_only_ea_dtype (arr_dtype t)) vals
                  = true).
    { apply existsb_exists. exists (values (block first)). split.
      - unfold vals. apply in_map_iff. now exists first.
      - change (arr_dtype (values (block first))) with (dtype (block first)).
        now rewrite (Hdt first Hin). }
    rewrite Hex.
    rewrite mapM_id_Ok by (intros t Ht; now rewrite (Hall t Ht), E1d).
    cbv beta iota delta [bind]. now rewrite concat_compat_ea_axis.
  - assert (Hex : existsb (fun t => is_1d_only_ea_dtype (arr_dtype t)) vals
                  = false).
    { apply existsb_false_forall. intros a Ha. now rewrite (Hall a Ha). }
    rewrite Hex.
    destruct (is_extension (block first)); simpl negb; cbv iota.
    + reflexivity.
    + apply (concat_compat_same_dtype _ Hall).
Qed.

End FastPath.

Lemma pandas_concat_compat_ea_axis : forall arrays : list ArrayLike,
  pandas_concat_compat arrays 0%Z true = pandas_concat_compat arrays 1%Z true.
Proof. reflexivity. Qed.

Lemma uniform_same_dtype_fast_path_witness :
  (pandas_concatenate_join_units [int64_unit [1; 2]%Z; int64_unit [3]%Z] false
   = pandas_uniform_values [int64_unit [1; 2]%Z; int64_unit [3]%Z]
       (block (int64_unit [1; 2]%Z)) /\
   pandas_uniform_values [int64_unit [1; 2]%Z; int64_unit [3]%Z]
     (block (int64_unit [1; 2]%Z))
   = Ok (mkArray np_int64 (Data2D [[PyInt 1; PyInt 2; PyInt 3]]))) /\
  (pandas_concatenate_join_units
     [category_unit ["a"; "b"]; category_unit ["b"]] false
   = pandas_uniform_values [category_unit ["a"; "b"]; category_unit ["b"]]
       (block (category_unit ["a"; "b"])) /\
   pandas_uniform_values [category_unit ["a"; "b"]; category_unit ["b"]]
     (block (category_unit ["a"; "b"]))
   = Ok (mkArray category_dtype (Data1D [PyStr "a"; PyStr "b"; PyStr "b"]))).
Proof.
  pose proof (@uniform_same_dtype_fast_path
                pandas_find_common_type pandas_ensure_dtype_can_hold_na
                pandas_is_valid_na_for_dtype pandas_needs_i8_conversion
                pandas_astype_array numpy_result_type pandas_concat_compat
                pandas_concat_compat_same_dtype pandas_concat_compat_ea_axis)
    as H.
  split; (split; [| reflexivity]).
  - apply (H [int64_unit [1; 2]%Z; int64_unit [3]%Z] (int64_unit [1; 2]%Z)
             false np_int64 PyNone).
    + reflexivity.
    + reflexivity.
    + intros u [<- | [<- | []]]; reflexivity.
    + intros u [<- | [<- | []]]; reflexivity.
    + discriminate.
    + reflexivity.
  - apply (H [category_unit ["a"; "b"]; category_unit ["b"]]
             (category_unit ["a"; "b"]) false category_dtype NpNan).
    + reflexivity.
    + reflexivity.
    + intros u [<- | [<- | []]]; reflexivity.
    + intros u [<- | [<- | []]]; reflexivity.
    + reflexivity.
    + reflexivity.
Defined.

(** C6 as stated fails on a boolean column followed by an integer column:
    the group is uniform, the fast path gives the int64 cells
    1, 0, 1, 1, 1, 0, 1 and the generic path the object cells
    True, False, True, True, 1, 0, 1. *)
Lemma fast_path_equivalence_counterexample :
  _is_uniform_join_units bool_int_group = Ok true /\
  pandas_uniform_values bool_int_group
    (block (bool_unit [true; false; true; true])) =
    Ok (mkArray np_int64
          (Data2D [[PyInt 1; PyInt 0; PyInt 1; PyInt 1;
                    PyInt 1; PyInt 0; PyInt 1]])) /\
  pandas_concatenate_join_units bool_int_group false =
    Ok (mkArray np_object
          (Data2D [[PyBool true; PyBool false; PyBool true; PyBool true;
                    PyInt 1; PyInt 0; PyInt 1]])) /\
  pandas_uniform_values bool_int_group
    (block (bool_unit [true; false; true; true])) <>
  pandas_concatenate_join_units bool_int_group false.
Proof.
  split; [reflexivity |]. split; [reflexivity |]. split; [reflexivity |].
  discriminate.
Qed.

(** ** Placement coverage of the plan *)

Lemma group_runs_placements : forall (cols : list (list Z)) (cur : list Z)
  (start n : nat),
  concat (map snd (group_runs cur start n cols)) =
  seq start (n + length cols).
Proof.
  induction cols as [| col cols IH]; intros cur start n; simpl.
  - now rewrite app_nil_r, Nat.add_0_r.
  - destruct (list_eq_dec Z.eq_dec col cur).
    + rewrite IH. f_equal. lia.
    + simpl. rewrite IH, <- seq_app. f_equal.
Qed.

Lemma py_getitem_0 : forall (A : Type) (xs : list A) (x : A),
  py_getitem xs 0%Z = Ok x -> hd_error xs = Some x.
Proof.
  intros A [| y xs] x H.
  - discriminate H.
  - change (Ok y = Ok x) in H. simpl. congruence.
Qed.

Lemma py_getitem_0_hd : forall (A : Type) (xs : list A) (x : A),
  hd_error xs = Some x -> py_getitem xs 0%Z = Ok x.
Proof.
  intros A [| y xs] x H; simpl in H; [discriminate |].
  injection H as ->. reflexivity.
Qed.

(** The placements [get_concat_blkno_indexers] returns are, in order, the
    positions of the column axis: each once. *)
Lemma get_concat_blkno_indexers_placements :
  forall (blknos_list : list (list Z)) pairs blknos0,
  get_concat_blkno_indexers blknos_list = Ok pairs ->
  hd_error blknos_list = Some blknos0 ->
  concat (map snd pairs) = seq 0 (length blknos0).
Proof.
  intros blknos_list pairs blknos0 H Hhd.
  unfold get_concat_blkno_indexers in H.
  rewrite (py_getitem_0_hd _ Hhd) in H. simpl in H.
  destruct (length blknos0) as [| n] eqn:Hn.
  - simpl in H. injection H as <-. reflexivity.
  - simpl Nat.eqb in H. cbv iota in H.
    destruct (negb (forallb _ blknos_list)); [discriminate |].
    rewrite <- cons_seq in H. simpl map in H. injection H as <-.
    rewrite group_runs_placements, length_map, length_seq. reflexivity.
Qed.

(** On block numbers of one common length the partition always exists. *)
Lemma get_concat_blkno_indexers_total :
  forall (blknos0 : list Z) (rest : list (list Z)),
  (forall b, In b rest -> length b = length blknos0) ->
  exists pairs, get_concat_blkno_indexers (blknos0 :: rest) = Ok pairs.
Proof.
  intros blknos0 rest Hlen. unfold get_concat_blkno_indexers.
  change (py_getitem (blknos0 :: rest) 0%Z) with (Ok blknos0).
  cbv beta iota delta [bind].
  destruct (length blknos0) as [| n] eqn:Hn; [now exists [] |].
  simpl Nat.eqb. cbv iota.
  assert (Hall : forallb (fun b => Nat.eqb (length b) (S n)) (blknos0 :: rest)
                 = true).
  { apply forallb_forall. intros b [<- | Hb]; apply Nat.eqb_eq;
      [exact Hn | now rewrite (Hlen b Hb)]. }
  rewrite Hall. simpl negb. cbv iota.
  rewrite <- cons_seq. simpl map. eauto.
Qed.

Lemma mapM_map_inv : forall (A B C : Type) (f : A -> result B) (g : B -> C)
  (h : A -> C) (xs : list A) (ys : list B),
  (forall x y, In x xs -> f x = Ok y -> g y = h x) ->
  mapM f xs = Ok ys -> map g ys = map h xs.
Proof.
  intros A B C f g h xs. induction xs as [| x xs IH]; intros ys Hf H.
  - simpl in H. injection H as <-. reflexivity.
  - simpl in H. apply bind_Ok in H. destruct H as (y & Hy & H).
    apply bind_Ok in H. destruct H as (ys' & Hys & H). injection H as <-.
    simpl. f_equal.
    + apply (Hf x y); [now left | exact Hy].
    + apply IH; [| exact Hys]. intros x' y' Hx'. apply Hf. now right.
Qed.

Lemma mapM_hd : forall (A B : Type) (f : A -> result B) (xs : list A)
  (ys : list B) (x : A),
  mapM f xs = Ok ys -> hd_error xs = Some x ->
  exists y, f x = Ok y /\ hd_error ys = Some y.
Proof.
  intros A B f [| x0 xs] ys x H Hhd; [discriminate |].
  injection Hhd as ->. simpl in H.
  apply bind_Ok in H. destruct H as (y & Hy & H).
  apply bind_Ok in H. destruct H as (ys' & _ & H). injection H as <-.
  exists y. split; [exact Hy | reflexivity].
Qed.

Lemma foldM_invariant : forall (A B : Type) (P : A -> Prop)
  (f : A -> B -> result A) (xs : list B) (a r : A),
  (forall a x a', P a -> f a x = Ok a' -> P a') ->
  P a -> foldM f xs a = Ok r -> P r.
Proof.
  intros A B P f xs. induction xs as [| x xs IH]; intros a r Hstep Ha H.
  - simpl in H. injection H as <-. exact Ha.
  - simpl in H. apply bind_Ok in H. destruct H as (a' & Ha' & H).
    apply (IH a' r Hstep); [| exact H]. now apply (Hstep a x a').
Qed.

Lemma list_set_length : forall (arr : list Z) (j : nat) (v : Z),
  length (list_set arr j v) = length arr.
Proof.
  induction arr as [| x arr IH]; intros [| j] v; simpl; auto.
Qed.

Lemma assign_length : forall (arr arr' : list Z) (j : nat) (v : Z),
  assign arr j v = Ok arr' -> length arr' = length arr.
Proof.
  intros arr arr' j v H. unfold assign in H.
  destruct (Nat.ltb j (length arr)); [| discriminate].
  injection H as <-. apply list_set_length.
Qed.

(** [mgr.blknos] has one entry per item of the manager. *)
Lemma blknos_length : forall (mgr : BlockManager) (nos : list Z) (n : nat),
  blknos mgr = Ok nos -> shape0 mgr = Ok n -> length nos = n.
Proof.
  intros mgr nos n H Hn. unfold blknos, _rebuild_blknos_and_blklocs in H.
  rewrite Hn in H. simpl in H.
  apply bind_Ok in H. destruct H as (r & Hr & H).
  apply bind_Ok in Hr. destruct Hr as (r' & Hr' & Hr).
  destruct (existsb (Z.eqb (-1)) (fst r')); [discriminate |].
  injection Hr as <-. injection H as <-.
  apply (foldM_invariant
           (fun acc : list Z * list Z => length (fst acc) = n)) in Hr'.
  - exact Hr'.
  - intros acc nb acc' Hacc Hstep.
    apply (foldM_invariant
             (fun acc : list Z * list Z => length (fst acc) = n)) in Hstep.
    + exact Hstep.
    + intros a ij a' Ha Hassign.
      apply bind_Ok in Hassign. destruct Hassign as (nos' & Hnos & Hassign).
      apply bind_Ok in Hassign. destruct Hassign as (locs' & _ & Hassign).
      injection Hassign as <-. simpl.
      now rewrite (assign_length _ _ _ Hnos).
    + exact Hacc.
  - simpl. apply repeat_length.
Qed.

(** The placements of the plan are those of [get_concat_blkno_indexers]. *)
Lemma combined_plan_placements : forall (mgrs : list BlockManager) plan,
  _get_combined_plan mgrs = Ok plan ->
  exists mgr0 max_len nos0,
    hd_error mgrs = Some mgr0 /\ shape0 mgr0 = Ok max_len /\
    blknos mgr0 = Ok nos0 /\
    concat (map fst plan) = seq 0 (length nos0).
Proof.
  intros mgrs plan H. unfold _get_combined_plan in H.
  apply bind_Ok in H. destruct H as (mgr0 & Hmgr0 & H).
  apply bind_Ok in H. destruct H as (max_len & Hmax & H).
  apply bind_Ok in H. destruct H as (blknos_list & Hnos & H).
  apply bind_Ok in H. destruct H as (pairs & Hpairs & H).
  apply py_getitem_0 in Hmgr0.
  destruct (mapM_hd _ _ Hnos Hmgr0) as (nos0 & Hnos0 & Hhd).
  exists mgr0, max_len, nos0. repeat split; try assumption.
  rewrite <- (get_concat_blkno_indexers_placements _ Hpairs Hhd).
  f_equal. eapply mapM_map_inv; [| exact H].
  intros [run bp] [bp' units] _ Hxy.
  apply bind_Ok in Hxy. destruct Hxy as (us & _ & Hxy).
  injection Hxy as <- _. reflexivity.
Qed.

(** Managers without indexers pass the reindexing step unchanged. *)
Lemma maybe_reindex_no_indexers :
  forall reindex_indexer (axes : list Index) (mgrs : list BlockManager),
  _maybe_reindex_columns_na_proxy reindex_indexer axes
    (map (fun mgr => (mgr, [])) mgrs) =
  Ok (map (fun mgr => (mgr, [])) mgrs).
Proof.
  intros rx axes mgrs. unfold _maybe_reindex_columns_na_proxy.
  induction mgrs as [| mgr mgrs IH]; simpl; [reflexivity |].
  now rewrite IH.
Qed.

Lemma take_all_block : forall blk : Block, getitem_block blk SliceAll = Ok blk.
Proof.
  intros [cls [dt data] locs chn ext cc fill]. unfold getitem_block.
  simpl. destruct data; reflexivity.
Qed.

Lemma copy_block_same : forall (blk : Block) (deep : bool),
  copy_block blk deep = blk.
Proof.
  intros [cls vals locs chn ext cc fill] deep. unfold copy_block.
  now destruct deep.
Qed.

Lemma axis0_blocks_shifted : forall (copy made_copy : bool) (offset : nat)
  (mgr : BlockManager),
  axis0_blocks copy made_copy offset mgr =
  Ok (map (shifted offset) (blocks mgr)).
Proof.
  intros copy made_copy offset mgr. unfold axis0_blocks.
  apply mapM_ext_Ok. intros blk _.
  assert (H : (if made_copy then Ok (copy_block blk false)
               else if copy then Ok (copy_block blk true)
               else getitem_block blk SliceAll) = Ok blk).
  { destruct made_copy; [now rewrite copy_block_same |].
    destruct copy; [now rewrite copy_block_same | apply take_all_block]. }
  rewrite H. reflexivity.
Qed.

Lemma shape0_items : forall mgr : BlockManager,
  axes mgr <> [] -> shape0 mgr = Ok (nitems mgr).
Proof.
  intros mgr H. unfold shape0, nitems.
  destruct (axes mgr); [congruence | reflexivity].
Qed.

Lemma axis0_loop_stacked : forall (copy : bool) (mgrs : list BlockManager)
  (flags : list bool) (offset : nat) (acc : list Block),
  length flags = length mgrs ->
  (forall mgr, In mgr mgrs -> axes mgr <> []) ->
  axis0_loop copy (combine flags mgrs) offset acc =
  Ok (acc ++ stacked_blocks mgrs offset).
Proof.
  intros copy mgrs. induction mgrs as [| mgr mgrs IH];
    intros flags offset acc Hlen Hax.
  - destruct flags; simpl; now rewrite app_nil_r.
  - destruct flags as [| made_copy flags]; [discriminate |].
    simpl. rewrite axis0_blocks_shifted.
    rewrite (shape0_items mgr) by (apply Hax; now left). simpl.
    rewrite IH.
    + now rewrite <- app_assoc.
    + simpl in Hlen. lia.
    + intros m Hm. apply Hax. now right.
Qed.

Lemma mapM_length : forall (A B : Type) (f : A -> result B) (xs : list A)
  (ys : list B),
  mapM f xs = Ok ys -> length ys = length xs.
Proof.
  intros A B f xs. induction xs as [| x xs IH]; intros ys H.
  - simpl in H. injection H as <-. reflexivity.
  - simpl in H. apply bind_Ok in H. destruct H as (y & _ & H).
    apply bind_Ok in H. destruct H as (ys' & Hys & H). injection H as <-.
    simpl. f_equal. now apply IH.
Qed.

Lemma stacked_blocks_values : forall (mgrs : list BlockManager) (offset : nat),
  map values (stacked_blocks mgrs offset) =
  flat_map (fun mgr => map values (blocks mgr)) mgrs.
Proof.
  induction mgrs as [| mgr mgrs IH]; intro offset; simpl; [reflexivity |].
  rewrite map_app, IH, map_map. reflexivity.
Qed.

Lemma map_add_seq : forall (offset start n : nat),
  map (fun pos => pos + offset) (seq start n) = seq (start + offset) n.
Proof.
  intros offset start n. revert start.
  induction n as [| n IH]; intro start; simpl; [reflexivity |].
  now rewrite IH.
Qed.

Lemma shifted_placements : forall (offset : nat) (blks : list Block),
  concat (map mgr_locs (map (shifted offset) blks)) =
  map (fun pos => pos + offset) (concat (map mgr_locs blks)).
Proof.
  intros offset blks. induction blks as [| blk blks IH]; simpl;
    [reflexivity |].
  now rewrite IH, map_app.
Qed.

(** When the blocks of every manager cover its own items, each once, the
    stacked blocks cover the items of all managers laid end to end. *)
Lemma stacked_blocks_placements : forall (mgrs : list BlockManager)
  (offset : nat),
  (forall mgr, In mgr mgrs ->
     Permutation (concat (map mgr_locs (blocks mgr))) (seq 0 (nitems mgr))) ->
  Permutation (concat (map mgr_locs (stacked_blocks mgrs offset)))
              (seq offset (list_sum (map nitems mgrs))).
Proof.
  induction mgrs as [| mgr mgrs IH]; intros offset Hcover; simpl.
  - constructor.
  - rewrite map_app, concat_app, seq_app, shifted_placements.
    apply Permutation_app.
    + change (seq offset (nitems mgr)) with (seq (0 + offset) (nitems mgr)).
      rewrite <- map_add_seq.
      apply Permutation_map. apply Hcover. now left.
    + apply IH. intros m Hm. apply Hcover. now right.
Qed.

Section PlacementCoverage.

Variable find_common_type : list DtypeObj -> result DtypeObj.
Variable ensure_dtype_can_hold_na : DtypeObj -> DtypeObj.
Variable is_valid_na_for_dtype : Scalar -> DtypeObj -> bool.
Variable needs_i8_conversion : DtypeObj -> bool.
Variable astype_array : ArrayLike -> DtypeObj -> ArrayLike.
Variable np_result_type : list DtypeObj -> DtypeObj.
Variable concat_compat : list ArrayLike -> Z -> bool -> result ArrayLike.
Variable reindex_indexer :
  BlockManager -> Index -> option (list Z) -> Z -> result BlockManager.
Variable new_block_2d : ArrayLike -> BlockPlacement -> Block.

(** Contract of the block constructor: the block sits at the placement it
    is given. *)
Hypothesis new_block_2d_placement : forall vals placement,
  mgr_locs (new_block_2d vals placement) = placement.

Let concat_managers :=
  concatenate_managers find_common_type ensure_dtype_can_hold_na
    is_valid_na_for_dtype needs_i8_conversion astype_array np_result_type
    concat_compat reindex_indexer new_block_2d.

Lemma concat_group_placement : forall copy group blk,
  concat_group find_common_type ensure_dtype_can_hold_na
    is_valid_na_for_dtype needs_i8_conversion astype_array np_result_type
    concat_compat new_block_2d copy group = Ok blk ->
  mgr_locs blk = fst group.
Proof.
  intros copy [placement join_units] blk H. unfold concat_group in H.
  apply bind_Ok in H. destruct H as (unit & _ & H).
  apply bind_Ok in H. destruct H as ([vals fastpath] & _ & H).
  injection H as <-. destruct fastpath; [reflexivity |].
  apply new_block_2d_placement.
Qed.

(** C7: for managers aligned to the output column axis, the placements of
    the plan [_get_combined_plan] produces are, in order, the positions of
    that axis, each exactly once (no gap, no overlap); and the container
    [concatenate_managers] returns along the other axis has the supplied
    axes and blocks whose placements are, in order, those same positions,
    each exactly once. *)
Theorem plan_placement_coverage :
  forall (mgrs : list BlockManager) (axes' : list Index) (items : Index)
         (concat_axis : Z) (copy : bool),
  hd_error axes' = Some items ->
  (forall mgr, In mgr mgrs -> hd_error (axes mgr) = Some items) ->
  concat_axis <> 0%Z ->
  (forall plan, _get_combined_plan mgrs = Ok plan ->
     concat (map fst plan) = seq 0 (length items) /\
     NoDup (concat (map fst plan)) /\
     (forall pos, In pos (concat (map fst plan)) <-> pos < length items)) /\
  (forall result,
     concat_managers (map (fun mgr => (mgr, [])) mgrs) axes' concat_axis copy
       = Ok result ->
     axes result = axes' /\
     concat (map mgr_locs (blocks result)) = seq 0 (length items) /\
     NoDup (concat (map mgr_locs (blocks result))) /\
     (forall pos, In pos (concat (map mgr_locs (blocks result))) <->
                  pos < length items)).
Proof.
  intros mgrs axes' items concat_axis copy Haxes Haligned Haxis.
  assert (Hplan : forall plan, _get_combined_plan mgrs = Ok plan ->
                    concat (map fst plan) = seq 0 (length items)).
  { intros plan H.
    destruct (combined_plan_placements _ H)
      as (mgr0 & max_len & nos0 & Hhd & Hshape & Hnos & Hcover).
    rewrite Hcover. f_equal.
    assert (Hin : In mgr0 mgrs).
    { destruct mgrs; [discriminate |]. injection Hhd as <-. now left. }
    apply (blknos_length _ Hnos). unfold shape0.
    now rewrite (py_getitem_0_hd _ (Haligned mgr0 Hin)). }
  assert (Hseq : forall l, l = seq 0 (length items) ->
                   l = seq 0 (length items) /\ NoDup l /\
                   (forall pos, In pos l <-> pos < length items)).
  { intros l ->. split; [reflexivity |]. split; [apply seq_NoDup |].
    intro pos. rewrite in_seq. lia. }
  split.
  - intros plan H. apply Hseq. now apply Hplan.
  - intros result H. unfold concat_managers, concatenate_managers in H.
    apply bind_Ok in H. destruct H as (first & _ & H).
    apply Z.eqb_neq in Haxis. rewrite Haxis in H.
    rewrite maybe_reindex_no_indexers in H. simpl bind in H.
    rewrite map_map in H. simpl in H. rewrite map_id in H.
    apply bind_Ok in H. destruct H as (plan & Hp & H).
    apply bind_Ok in H. destruct H as (blks & Hblks & H).
    injection H as <-. simpl. split; [reflexivity |].
    apply Hseq. rewrite <- (Hplan plan Hp). f_equal.
    eapply mapM_map_inv; [| exact Hblks].
    intros group blk _ Hg. now apply (concat_group_placement _ _ Hg).
Qed.

End PlacementCoverage.

Lemma pandas_new_block_2d_placement : forall vals placement,
  mgr_locs (pandas_new_block_2d vals placement) = placement.
Proof.
  intros vals placement. unfold pandas_new_block_2d.
  destruct (arr_dtype vals); reflexivity.
Qed.

Lemma plan_placement_coverage_witness :
  (exists plan,
     _get_combined_plan [mgr_one_block; mgr_two_blocks] = Ok plan /\
     length plan = 2 /\
     concat (map fst plan) = [0; 1]) /\
  (exists result,
     pandas_concatenate_managers
       [(mgr_one_block, []); (mgr_two_blocks, [])] output_axes 1%Z false
       = Ok result /\
     axes result = output_axes /\
     concat (map mgr_locs (blocks result)) = [0; 1]).
Proof.
  destruct (@plan_placement_coverage
              pandas_find_common_type pandas_ensure_dtype_can_hold_na
              pandas_is_valid_na_for_dtype pandas_needs_i8_conversion
              pandas_astype_array numpy_result_type pandas_concat_compat
              aligned_reindex_indexer pandas_new_block_2d
              pandas_new_block_2d_placement
              [mgr_one_block; mgr_two_blocks] output_axes ["X"; "Y"]
              1%Z false eq_refl)
    as [Hplan Hresult].
  - intros mgr [<- | [<- | []]]; reflexivity.
  - discriminate.
  - split.
    + eexists. split; [vm_compute; reflexivity |].
      split; [reflexivity |].
      apply Hplan. vm_compute. reflexivity.
    + eexists. split; [vm_compute; reflexivity |].
      match goal with
      | |- axes ?r = _ /\ _ =>
          destruct (Hresult r) as (Hax & Hcover & _);
            [vm_compute; reflexivity | split; [exact Hax | exact Hcover]]
      end.
Defined.

(** ** Row-axis concatenation *)

Section AxisZero.

Variable reindex_indexer :
  BlockManager -> Index -> option (list Z) -> Z -> result BlockManager.

(** C8: row-axis concatenation returns the supplied axes and, in manager
    order and in block order, the blocks of the column-aligned managers:
    each with its own class, values and dtype, and with its placement
    shifted by the number of items of all managers before it. The managers
    are the ones the reindexing step hands over, which are the source
    managers themselves when no indexer is given. *)
Theorem concat_managers_axis0_stacks :
  forall (mgrs_indexers aligned : list (BlockManager * list (Z * option (list Z))))
         (axes' : list Index) (copy : bool),
  _maybe_reindex_columns_na_proxy reindex_indexer axes' mgrs_indexers
    = Ok aligned ->
  (forall mgr, In mgr (map fst aligned) -> axes mgr <> []) ->
  _concat_managers_axis0 reindex_indexer mgrs_indexers axes' copy =
    Ok (mkBlockManager (stacked_blocks (map fst aligned) 0) axes') /\
  map values (stacked_blocks (map fst aligned) 0) =
    flat_map (fun mgr => map values (blocks mgr)) (map fst aligned) /\
  ((forall mi, In mi mgrs_indexers -> snd mi = []) ->
   map fst aligned = map fst mgrs_indexers).
Proof.
  intros mgrs_indexers aligned axes' copy Hal Hax. split; [| split].
  - unfold _concat_managers_axis0. rewrite Hal. simpl bind.
    rewrite axis0_loop_stacked.
    + reflexivity.
    + rewrite !length_map. symmetry. apply (mapM_length _ _ Hal).
    + exact Hax.
  - apply stacked_blocks_values.
  - intro Hnone. unfold _maybe_reindex_columns_na_proxy in Hal.
    eapply mapM_map_inv; [| exact Hal].
    intros [mgr indexers] [mgr' indexers'] Hin H.
    rewrite (Hnone _ Hin : indexers = []) in H. simpl in H.
    injection H as <- _. reflexivity.
Qed.

(** Along the column axis itself every manager brings its own items: when
    the blocks of every manager cover its items, each once, the blocks of
    the result cover the items of all managers laid end to end, each
    once. *)
Lemma axis0_placement_coverage :
  forall (mgrs_indexers aligned : list (BlockManager * list (Z * option (list Z))))
         (axes' : list Index) (copy : bool),
  _maybe_reindex_columns_na_proxy reindex_indexer axes' mgrs_indexers
    = Ok aligned ->
  (forall mgr, In mgr (map fst aligned) ->
     axes mgr <> [] /\
     Permutation (concat (map mgr_locs (blocks mgr))) (seq 0 (nitems mgr))) ->
  exists result,
    _concat_managers_axis0 reindex_indexer mgrs_indexers axes' copy
      = Ok result /\
    axes result = axes' /\
    Permutation (concat (map mgr_locs (blocks result)))
                (seq 0 (list_sum (map nitems (map fst aligned)))).
Proof.
  intros mgrs_indexers aligned axes' copy Hal Hwf.
  exists (mkBlockManager (stacked_blocks (map fst aligned) 0) axes').
  split; [| split].
  - unfold _concat_managers_axis0. rewrite Hal. simpl bind.
    rewrite axis0_loop_stacked.
    + reflexivity.
    + rewrite !length_map. symmetry. apply (mapM_length _ _ Hal).
    + intros mgr Hm. now apply Hwf.
  - reflexivity.
  - apply stacked_blocks_placements. intros mgr Hm. now apply Hwf.
Qed.

End AxisZero.

Lemma concat_managers_axis0_stacks_witness :
  pandas_concatenate_managers
    [(mgr_one_block, []); (mgr_two_blocks, [])]
    [["X"; "Y"; "X"; "Y"]; ["r0"; "r1"]] 0%Z false =
  Ok (mkBlockManager
        (blocks mgr_one_block
         ++ map (shifted 2) (blocks mgr_two_blocks))
        [["X"; "Y"; "X"; "Y"]; ["r0"; "r1"]]).
Proof.
  destruct (@concat_managers_axis0_stacks aligned_reindex_indexer
              [(mgr_one_block, []); (mgr_two_blocks, [])]
              [(mgr_one_block, []); (mgr_two_blocks, [])]
              [["X"; "Y"; "X"; "Y"]; ["r0"; "r1"]] false eq_refl)
    as (H & _ & _).
  - intros mgr [<- | [<- | []]]; discriminate.
  - exact H.
Defined.

(** ** No input at all *)

Section EmptyInput.

Variable find_common_type : list DtypeObj -> result DtypeObj.
Variable ensure_dtype_can_hold_na : DtypeObj -> DtypeObj.
Variable is_valid_na_for_dtype : Scalar -> DtypeObj -> bool.
Variable needs_i8_conversion : DtypeObj -> bool.
Variable astype_array : ArrayLike -> DtypeObj -> ArrayLike.
Variable np_result_type : list DtypeObj -> DtypeObj.
Variable concat_compat : list ArrayLike -> Z -> bool -> result ArrayLike.
Variable reindex_indexer :
  BlockManager -> Index -> option (list Z) -> Z -> result BlockManager.
Variable new_block_2d : ArrayLike -> BlockPlacement -> Block.

(** C9, as the code has it: called with an empty list of pairs,
    [concatenate_managers] returns no container: it fails with the
    IndexError that looking up the first pair raises, whatever the axes, the
    concatenation axis and the copy flag. *)
Theorem concatenate_managers_empty :
  forall (axes' : list Index) (concat_axis : Z) (copy : bool),
  concatenate_managers find_common_type ensure_dtype_can_hold_na
    is_valid_na_for_dtype needs_i8_conversion astype_array np_result_type
    concat_compat reindex_indexer new_block_2d [] axes' concat_axis copy
  = Raise IndexError.
Proof. reflexivity. Qed.

End EmptyInput.

(** C9 as stated fails: the failure on an empty list is not a dedicated
    EmptyInput condition but the IndexError of the lookup. *)
Lemma concatenate_managers_empty_counterexample :
  pandas_concatenate_managers [] output_axes 1%Z false
    <> Raise (PyExc "EmptyInput") /\
  pandas_concatenate_managers [] output_axes 1%Z false
    = Raise (PyExc "IndexError").
Proof. split; [discriminate | reflexivity]. Qed.

(** * Further properties of the engine *)

(** ** What a unit hands over *)

Lemma void_is_not_object : forall dt : DtypeObj,
  kind dt = "V"%char -> is_dtype_equal dt np_object = false.
Proof.
  intros dt HV. apply is_dtype_equal_false. intros ->. discriminate HV.
Qed.

Lemma isna_is_scalar : forall x : Scalar, isna x = true -> is_scalar x = true.
Proof. intros x H. destruct x; try reflexivity; discriminate H. Qed.

Section ReindexedValues.

Variable find_common_type : list DtypeObj -> result DtypeObj.
Variable ensure_dtype_can_hold_na : DtypeObj -> DtypeObj.
Variable is_valid_na_for_dtype : Scalar -> DtypeObj -> bool.
Variable needs_i8_conversion : DtypeObj -> bool.
Variable astype_array : ArrayLike -> DtypeObj -> ArrayLike.
Variable concat_compat : list ArrayLike -> Z -> bool -> result ArrayLike.

Let valid_na_for := _is_valid_na_for is_valid_na_for_dtype needs_i8_conversion.
Let reindexed_values :=
  get_reindexed_values is_valid_na_for_dtype needs_i8_conversion astype_array.
Let concatenate_join_units :=
  _concatenate_join_units find_common_type ensure_dtype_can_hold_na
    is_valid_na_for_dtype needs_i8_conversion astype_array concat_compat.

(** A proxy is materialized only by [get_reindexed_values], and always: for
    every target dtype and every fill value, None included, the result is
    the fresh all-missing array [make_na_array] builds for the target dtype,
    the proxy's shape and that fill value. *)
Theorem proxy_always_materialized :
  forall (u : JoinUnit) (empty_dtype : DtypeObj) (upcasted_na : Scalar),
  is_proxy u = true ->
  valid_na_for u empty_dtype = true /\
  reindexed_values u empty_dtype upcasted_na =
  make_na_array empty_dtype (shape (block u)) upcasted_na.
Proof.
  intros u empty_dtype upcasted_na Hp. unfold is_proxy in Hp.
  assert (Hv : valid_na_for u empty_dtype = true).
  { unfold valid_na_for, _is_valid_na_for, is_na. now rewrite Hp. }
  split; [exact Hv |].
  unfold reindexed_values, get_reindexed_values. fold valid_na_for.
  rewrite Hv, Hp. simpl negb. rewrite andb_false_r.
  apply Ascii.eqb_eq in Hp. now rewrite (void_is_not_object _ Hp).
Qed.

(** [_is_valid_na_for] only accepts all-missing units, and it refuses two
    kinds of all-missing block whatever the compatibility check says: a
    block whose fill value is NaT, for any dtype other than the block's own,
    and a block whose fill value is NA, for a target that needs i8
    conversion. *)
Theorem valid_na_for_refusals :
  forall (u : JoinUnit) (target : DtypeObj),
  (valid_na_for u target = true -> is_na u = true) /\
  (is_proxy u = false ->
   dtype (block u) <> np_object ->
   fill_value (block u) = PdNaT ->
   dtype (block u) <> target ->
   valid_na_for u target = false) /\
  (is_proxy u = false ->
   dtype (block u) <> np_object ->
   fill_value (block u) = PdNA ->
   needs_i8_conversion target = true ->
   valid_na_for u target = false).
Proof.
  intros u target. unfold valid_na_for, _is_valid_na_for, is_proxy.
  split; [| split].
  - destruct (is_na u); [reflexivity | discriminate].
  - intros HV Hobj Hfill Hne.
    destruct (negb (is_na u)); [reflexivity |]. rewrite HV.
    apply is_dtype_equal_false in Hobj, Hne. now rewrite Hobj, Hfill, Hne.
  - intros HV Hobj Hfill Hi8.
    destruct (negb (is_na u)); [reflexivity |]. rewrite HV.
    apply is_dtype_equal_false in Hobj. rewrite Hobj, Hfill, Hi8.
    reflexivity.
Qed.

(** When the unified dtype of a group without proxies is a numpy integer,
    unsigned or boolean dtype, [_concatenate_join_units] synthesizes nothing
    and casts nothing: what it puts together are the units' own values. *)
Theorem integer_target_keeps_values :
  forall (join_units : list JoinUnit) (copy : bool) (k : ascii) (sz : N),
  char_in k "iub" = true ->
  _get_empty_dtype find_common_type ensure_dtype_can_hold_na join_units
    = Ok (NpDtype k sz) ->
  (forall u, In u join_units -> is_proxy u = false) ->
  concatenate_join_units join_units copy =
  concat_reindexed concat_compat
    (map (fun u => values (block u)) join_units) copy.
Proof.
  intros join_units copy k sz Hk Hdt Hnp.
  unfold concatenate_join_units, _concatenate_join_units.
  rewrite Hdt. cbv beta iota delta [bind].
  rewrite (existsb_false_forall _ _ Hnp).
  assert (Hfill : _dtype_to_na_value (NpDtype k sz) false = Ok PyNone).
  { simpl in Hk.
    repeat (apply orb_prop in Hk; destruct Hk as [Hk | Hk]);
      try discriminate; apply Ascii.eqb_eq in Hk; subst; reflexivity. }
  rewrite Hfill. cbv beta iota.
  rewrite (mapM_ext_Ok _ (fun u => values (block u))); [reflexivity |].
  intros u Hu. unfold get_reindexed_values.
  specialize (Hnp u Hu). unfold is_proxy in Hnp. now rewrite Hnp.
Qed.

(** A group made of proxies only, all of one void dtype, cannot be assembled:
    the unified dtype is the void dtype itself, for which the fill-value
    table has no entry. *)
Theorem all_proxy_group_unsupported :
  forall (join_units : list JoinUnit) (copy : bool) (sz : N),
  join_units <> [] ->
  (forall u, In u join_units -> dtype (block u) = NpDtype "V" sz) ->
  concatenate_join_units join_units copy = Raise NotImplementedError.
Proof.
  intros join_units copy sz Hne Hall.
  unfold concatenate_join_units, _concatenate_join_units.
  now rewrite (get_empty_dtype_same find_common_type ensure_dtype_can_hold_na
                 Hne Hall).
Qed.

End ReindexedValues.

Lemma proxy_always_materialized_witness :
  get_reindexed_values pandas_is_valid_na_for_dtype pandas_needs_i8_conversion
    pandas_astype_array (proxy_unit 3) np_float64 PyNone =
  Ok (full np_float64 (1, 3) nan64).
Proof.
  rewrite (proj2 (@proxy_always_materialized
                    pandas_is_valid_na_for_dtype pandas_needs_i8_conversion
                    pandas_astype_array (proxy_unit 3) np_float64 PyNone
                    eq_refl)).
  reflexivity.
Defined.

Lemma valid_na_for_refusals_witness :
  _is_valid_na_for pandas_is_valid_na_for_dtype pandas_needs_i8_conversion
    (mkJoinUnit (mkBlock "DatetimeLikeBlock"
                   (mkArray (NpDtype "M" 8) (Data2D [[PdNaT; PdNaT]]))
                   [0] true false true PdNaT))
    (NpDtype "m" 8) = false.
Proof.
  apply (proj1 (proj2 (@valid_na_for_refusals
                         pandas_is_valid_na_for_dtype
                         pandas_needs_i8_conversion
                         (mkJoinUnit (mkBlock "DatetimeLikeBlock"
                            (mkArray (NpDtype "M" 8) (Data2D [[PdNaT; PdNaT]]))
                            [0] true false true PdNaT))
                         (NpDtype "m" 8))));
    try reflexivity; discriminate.
Defined.

Lemma integer_target_keeps_values_witness :
  pandas_concatenate_join_units
    [int64_unit [1; 2]%Z; mkJoinUnit (numpy_block np_int32 [PyInt 3] false NpNan)]
    false
  = Ok (mkArray np_int64 (Data2D [[PyInt 1; PyInt 2; PyInt 3]])).
Proof.
  unfold pandas_concatenate_join_units.
  rewrite (@integer_target_keeps_values
             pandas_find_common_type pandas_ensure_dtype_can_hold_na
             pandas_is_valid_na_for_dtype pandas_needs_i8_conversion
             pandas_astype_array pandas_concat_compat
             [int64_unit [1; 2]%Z;
              mkJoinUnit (numpy_block np_int32 [PyInt 3] false NpNan)]
             false "i"%char 8%N eq_refl eq_refl).
  - reflexivity.
  - intros u [<- | [<- | []]]; reflexivity.
Defined.

Lemma all_proxy_group_unsupported_witness :
  pandas_concatenate_join_units [proxy_unit 2; proxy_unit 2] false
  = Raise NotImplementedError.
Proof.
  apply (@all_proxy_group_unsupported
           pandas_find_common_type pandas_ensure_dtype_can_hold_na
           pandas_is_valid_na_for_dtype pandas_needs_i8_conversion
           pandas_astype_array pandas_concat_compat
           [proxy_unit 2; proxy_unit 2] false 0%N).
  - discriminate.
  - intros u [<- | [<- | []]]; reflexivity.
Defined.

(** ** More on the fill-value table and on all-missing units *)

(** Whatever fill value [_dtype_to_na_value] returns for a numpy dtype is a
    scalar missing marker: never a value such as 0 or False. *)
Theorem numpy_fill_value_is_missing :
  forall (k : ascii) (sz : N) (has_none_blocks : bool) (na : Scalar),
  _dtype_to_na_value (NpDtype k sz) has_none_blocks = Ok na ->
  isna na = true /\ is_scalar na = true.
Proof.
  intros k sz h na H. unfold _dtype_to_na_value in H.
  destruct (char_in k "mM"); [injection H as <-; now split |].
  destruct (char_in k "fc"); [injection H as <-; now split |].
  destruct (Ascii.eqb k "b"); [injection H as <-; now split |].
  destruct (char_in k "iu").
  - destruct (negb h); injection H as <-; now split.
  - destruct (Ascii.eqb k "O"); [injection H as <-; now split | discriminate].
Qed.

Lemma numpy_fill_value_is_missing_witness :
  isna (NpGeneric "M" 8 "NaT") = true /\ is_scalar (NpGeneric "M" 8 "NaT") = true.
Proof.
  apply (numpy_fill_value_is_missing "M"%char 8%N false). reflexivity.
Defined.

Lemma forallb_concat_inv : forall (A : Type) (f : A -> bool)
  (xss : list (list A)),
  forallb f (concat xss) = true -> forallb (forallb f) xss = true.
Proof.
  intros A f xss. induction xss as [| xs xss IH]; simpl; [reflexivity |].
  rewrite forallb_app. intro H. apply andb_true_iff in H.
  destruct H as [H1 H2]. now rewrite H1, IH.
Qed.

(** For a unit that is not a proxy, whose block can hold missing values and
    whose values are rectangular and not sparse, [is_na] says exactly that
    every cell is a missing marker; looking at the first cell first changes
    nothing, and a unit without cells is all-missing. *)
Theorem is_na_iff_all_cells_missing : forall ju : JoinUnit,
  is_proxy ju = false ->
  _can_hold_na (block ju) = true ->
  isinstance_SparseDtype (arr_dtype (values (block ju))) = false ->
  rectangular (values (block ju)) ->
  (is_na ju = true <-> forallb isna (ravel (values (block ju))) = true).
Proof.
  intros ju HV Hcan Hsp Hrect. split.
  - intro Hna.
    destruct (ravel (values (block ju))) eqn:E; [reflexivity |].
    rewrite <- E. apply is_na_cells; try assumption.
    + unfold is_proxy in HV. now apply Ascii.eqb_neq.
    + rewrite E. discriminate.
  - intro Hall. unfold is_na. unfold is_proxy in HV.
    rewrite HV, Hcan, Hsp. simpl negb. cbv iota. unfold size.
    unfold rectangular in Hrect. unfold ravel in *.
    destruct (arr_data (values (block ju))) as [xs | rows].
    + destruct xs as [| val xs]; [reflexivity |]. simpl Nat.eqb. cbv iota.
      simpl in Hall. apply andb_true_iff in Hall. destruct Hall as [Hv Hxs].
      rewrite Hv, (isna_is_scalar _ Hv). simpl. now rewrite Hv.
    + destruct rows as [| [| val row] rows]; [reflexivity | |].
      * assert (Hnil : concat ([] :: rows) = []).
        { simpl. apply concat_nil_Forall. apply Forall_forall.
          intros r Hr. apply length_zero_iff_nil.
          apply (Hrect r). now right. }
        now rewrite Hnil.
      * simpl length. cbv iota.
        assert (Hv : isna val = true).
        { simpl in Hall. now apply andb_true_iff in Hall. }
        rewrite Hv, (isna_is_scalar _ Hv). simpl orb. cbv iota.
        now apply forallb_concat_inv.
Qed.

Lemma is_na_iff_all_cells_missing_witness :
  is_na object_none_unit = true /\
  is_na (mkJoinUnit (numpy_block np_object [PyNone; PyInt 1] true NpNan))
    = false.
Proof.
  split.
  - apply (is_na_iff_all_cells_missing object_none_unit);
      try reflexivity.
    intros row [<- | []]. reflexivity.
  - destruct (is_na (mkJoinUnit
                       (numpy_block np_object [PyNone; PyInt 1] true NpNan)))
      eqn:E; [| reflexivity].
    apply (is_na_iff_all_cells_missing
             (mkJoinUnit (numpy_block np_object [PyNone; PyInt 1] true NpNan)))
      in E; try reflexivity.
    + discriminate E.
    + intros row [<- | []]. reflexivity.
Defined.

(** ** Uniformity depends on the order of the units *)

(** Only the units after the first may differ from the first by an integer,
    unsigned or boolean dtype. So for two units of one block class, neither
    all-missing, where [b] has such a dtype and [a] has a different dtype of
    another kind (not void), the group [a; b] is uniform and the group
    [b; a] is not. *)
Theorem uniformity_depends_on_order : forall a b : JoinUnit,
  block_class (block a) = block_class (block b) ->
  is_na a = false -> is_na b = false ->
  dtype (block a) <> dtype (block b) ->
  char_in (kind (dtype (block a))) "iub" = false ->
  kind (dtype (block a)) <> "V"%char ->
  char_in (kind (dtype (block b))) "iub" = true ->
  _is_uniform_join_units [a; b] = Ok true /\
  _is_uniform_join_units [b; a] = Ok false.
Proof.
  intros a b Hcls Hna Hnb Hne Hka HVa Hkb.
  assert (HVb : kind (dtype (block b)) <> "V"%char)
    by now apply char_in_iub_not_V.
  apply Ascii.eqb_neq in HVa, HVb.
  assert (Hba : is_dtype_equal (dtype (block b)) (dtype (block a)) = false).
  { apply is_dtype_equal_false. congruence. }
  assert (Hab : is_dtype_equal (dtype (block a)) (dtype (block b)) = false).
  { now apply is_dtype_equal_false. }
  unfold _is_uniform_join_units. rewrite HVa, HVb. unfold forallb.
  rewrite Hna, Hnb, Hcls, !String.eqb_refl, !is_dtype_equal_refl.
  rewrite Hba, Hab, Hka, Hkb. split; reflexivity.
Qed.

Lemma uniformity_depends_on_order_witness :
  _is_uniform_join_units
    [mkJoinUnit (numpy_block np_float64 [PyFloat 1 0] true NpNan);
     int64_unit [2%Z]] = Ok true /\
  _is_uniform_join_units
    [int64_unit [2%Z];
     mkJoinUnit (numpy_block np_float64 [PyFloat 1 0] true NpNan)] = Ok false.
Proof.
  apply (uniformity_depends_on_order
           (mkJoinUnit (numpy_block np_float64 [PyFloat 1 0] true NpNan))
           (int64_unit [2%Z]));
    try reflexivity; discriminate.
Defined.

(** ** The reindexing step *)

Section ReindexingStep.

Variable reindex_indexer :
  BlockManager -> Index -> option (list Z) -> Z -> result BlockManager.

Let maybe_reindex := _maybe_reindex_columns_na_proxy reindex_indexer.

Lemma maybe_reindex_drops_indexers :
  forall (axes' : list Index)
         (mgrs_indexers aligned : list (BlockManager * list (Z * option (list Z)))),
  maybe_reindex axes' mgrs_indexers = Ok aligned ->
  forall mi, In mi aligned -> snd mi = [].
Proof.
  intros axes' mgrs_indexers. unfold maybe_reindex,
    _maybe_reindex_columns_na_proxy.
  induction mgrs_indexers as [| [mgr indexers] rest IH]; intros aligned H mi Hin.
  - simpl in H. injection H as <-. destruct Hin.
  - simpl in H. apply bind_Ok in H. destruct H as (p & Hp & H).
    apply bind_Ok in H. destruct H as (ps & Hps & H). injection H as <-.
    apply bind_Ok in Hp. destruct Hp as (mgr' & _ & Hp). injection Hp as <-.
    destruct Hin as [<- | Hin]; [reflexivity |]. now apply (IH ps).
Qed.

(** [_maybe_reindex_columns_na_proxy] returns one pair per pair it is given,
    each with an empty indexer dict, so reindexing is done once: running the
    step again on its own result changes nothing and never calls the
    reindexer. *)
Theorem maybe_reindex_idempotent :
  forall (axes' : list Index)
         (mgrs_indexers aligned : list (BlockManager * list (Z * option (list Z)))),
  maybe_reindex axes' mgrs_indexers = Ok aligned ->
  length aligned = length mgrs_indexers /\
  (forall mi, In mi aligned -> snd mi = []) /\
  maybe_reindex axes' aligned = Ok aligned.
Proof.
  intros axes' mgrs_indexers aligned H.
  pose proof (maybe_reindex_drops_indexers _ _ H) as Hnil.
  split; [apply (mapM_length _ _ H) |]. split; [exact Hnil |].
  assert (Heq : aligned = map (fun mgr => (mgr, [])) (map fst aligned)).
  { clear H. induction aligned as [| [mgr ix] rest IH]; [reflexivity |].
    simpl. rewrite (Hnil (mgr, ix) (or_introl eq_refl) : ix = []).
    f_equal. apply IH. intros mi Hmi. apply Hnil. now right. }
  rewrite Heq. apply maybe_reindex_no_indexers.
Qed.

(** An indexer for an axis the output axes do not have stops the step with
    an IndexError, before the reindexer is called for it. *)
Theorem maybe_reindex_missing_axis :
  forall (axes' : list Index) (mgr : BlockManager) (i : Z)
         (indexer : option (list Z))
         (more : list (Z * option (list Z)))
         (rest : list (BlockManager * list (Z * option (list Z)))),
  (Z.of_nat (length axes') <= i)%Z ->
  maybe_reindex axes' ((mgr, (i, indexer) :: more) :: rest) = Raise IndexError.
Proof.
  intros axes' mgr i indexer more rest Hi.
  unfold maybe_reindex, _maybe_reindex_columns_na_proxy. simpl.
  assert (Hget : py_getitem axes' i = Raise IndexError).
  { unfold py_getitem.
    assert (Hlt : Z.ltb i 0 = false) by (apply Z.ltb_ge; lia).
    rewrite Hlt, Hlt.
    destruct (nth_error axes' (Z.to_nat i)) eqn:E; [| reflexivity].
    assert (Hlen : Z.to_nat i < length axes').
    { apply nth_error_Some. congruence. }
    lia. }
  now rewrite Hget.
Qed.

End ReindexingStep.

Lemma maybe_reindex_idempotent_witness :
  _maybe_reindex_columns_na_proxy aligned_reindex_indexer output_axes
    [(mgr_one_block, []); (mgr_two_blocks, [])]
  = Ok [(mgr_one_block, []); (mgr_two_blocks, [])].
Proof.
  apply (@maybe_reindex_idempotent aligned_reindex_indexer output_axes
           [(mgr_one_block, [(1%Z, None)]); (mgr_two_blocks, [])]
           [(mgr_one_block, []); (mgr_two_blocks, [])] eq_refl).
Defined.

Lemma maybe_reindex_missing_axis_witness :
  _maybe_reindex_columns_na_proxy aligned_reindex_indexer output_axes
    [(mgr_one_block, [(2%Z, None)])] = Raise IndexError.
Proof.
  apply (@maybe_reindex_missing_axis aligned_reindex_indexer output_axes
           mgr_one_block 2%Z None [] []).
  simpl. lia.
Defined.

(** ** More on row-axis concatenation *)

Lemma shifted_0 : forall blk : Block, shifted 0 blk = blk.
Proof.
  intros [cls vals locs chn ext cc fill]. unfold shifted. simpl. f_equal.
  rewrite <- (map_id locs) at 2. apply map_ext. intro pos. lia.
Qed.

Lemma map_shifted_0 : forall blks : list Block, map (shifted 0) blks = blks.
Proof.
  intro blks. rewrite <- (map_id blks) at 2. apply map_ext. apply shifted_0.
Qed.

Section AxisZeroIdentity.

Variable reindex_indexer :
  BlockManager -> Index -> option (list Z) -> Z -> result BlockManager.

(** Concatenation along the item axis ([concat_axis] 0) of managers that
    need no reindexing leaves the first manager's blocks exactly as they
    are, placement included, whatever the copy flag; the other managers'
    blocks follow, shifted past the first manager's items. A single manager
    therefore comes back with its own blocks and the axes supplied. *)
Theorem axis0_first_manager_unchanged :
  forall (mgr0 : BlockManager) (rest : list BlockManager)
         (axes' : list Index) (copy : bool),
  (forall mgr, In mgr (mgr0 :: rest) -> axes mgr <> []) ->
  _concat_managers_axis0 reindex_indexer
    (map (fun mgr => (mgr, [])) (mgr0 :: rest)) axes' copy =
  Ok (mkBlockManager (blocks mgr0 ++ stacked_blocks rest (nitems mgr0)) axes')
  /\
  (rest = [] ->
   _concat_managers_axis0 reindex_indexer [(mgr0, [])] axes' copy =
   Ok (mkBlockManager (blocks mgr0) axes')).
Proof.
  intros mgr0 rest axes' copy Hax.
  assert (H : _concat_managers_axis0 reindex_indexer
                (map (fun mgr => (mgr, [])) (mgr0 :: rest)) axes' copy =
              Ok (mkBlockManager
                    (blocks mgr0 ++ stacked_blocks rest (nitems mgr0)) axes')).
  { assert (Hgen : forall mgrs,
              (forall mgr, In mgr mgrs -> axes mgr <> []) ->
              _concat_managers_axis0 reindex_indexer
                (map (fun mgr => (mgr, [])) mgrs) axes' copy =
              Ok (mkBlockManager (stacked_blocks mgrs 0) axes')).
    { intros mgrs Hmgrs. unfold _concat_managers_axis0.
      rewrite maybe_reindex_no_indexers. cbv beta iota delta [bind].
      rewrite axis0_loop_stacked.
      - rewrite map_map. simpl. now rewrite map_id.
      - now rewrite !length_map.
      - rewrite map_map. simpl. rewrite map_id. exact Hmgrs. }
    rewrite (Hgen (mgr0 :: rest) Hax). simpl. now rewrite map_shifted_0. }
  split; [exact H |].
  intros ->. simpl in H. now rewrite app_nil_r in H.
Qed.

End AxisZeroIdentity.

Lemma axis0_first_manager_unchanged_witness :
  pandas_concatenate_managers [(mgr_two_blocks, [])]
    [["X"; "Y"]; ["r2"; "r3"]] 0%Z true
  = Ok (mkBlockManager (blocks mgr_two_blocks) [["X"; "Y"]; ["r2"; "r3"]]).
Proof.
  apply (proj2 (@axis0_first_manager_unchanged aligned_reindex_indexer
                  mgr_two_blocks [] [["X"; "Y"]; ["r2"; "r3"]] true
                  ltac:(intros mgr [<- | []]; discriminate))
               eq_refl).
Defined.

Lemma axis0_placement_coverage_witness :
  exists result,
    _concat_managers_axis0 aligned_reindex_indexer
      [(mgr_one_block, []); (mgr_two_blocks, [])]
      [["X"; "Y"; "X"; "Y"]; ["r0"; "r1"]] false = Ok result /\
    axes result = [["X"; "Y"; "X"; "Y"]; ["r0"; "r1"]] /\
    Permutation (concat (map mgr_locs (blocks result))) (seq 0 4).
Proof.
  apply (@axis0_placement_coverage aligned_reindex_indexer
           [(mgr_one_block, []); (mgr_two_blocks, [])]
           [(mgr_one_block, []); (mgr_two_blocks, [])]
           [["X"; "Y"; "X"; "Y"]; ["r0"; "r1"]] false eq_refl).
  intros mgr [<- | [<- | []]]; (split; [discriminate | apply Permutation_refl]).
Defined.

(** ** Invariants of the plan *)

Lemma mapM_In_inv : forall (A B : Type) (f : A -> result B) (xs : list A)
  (ys : list B) (y : B),
  mapM f xs = Ok ys -> In y ys -> exists x, In x xs /\ f x = Ok y.
Proof.
  intros A B f xs. induction xs as [| x xs IH]; intros ys y H Hin.
  - simpl in H. injection H as <-. destruct Hin.
  - simpl in H. apply bind_Ok in H. destruct H as (y0 & Hy0 & H).
    apply bind_Ok in H. destruct H as (ys' & Hys & H). injection H as <-.
    destruct Hin as [<- | Hin].
    + exists x. split; [now left | exact Hy0].
    + destruct (IH ys' y Hys Hin) as (x' & Hx' & Hfx).
      exists x'. split; [now right | exact Hfx].
Qed.

Lemma mapM_nth_error : forall (A B : Type) (f : A -> result B) (xs : list A)
  (ys : list B) (k : nat) (y : B),
  mapM f xs = Ok ys -> nth_error ys k = Some y ->
  exists x, nth_error xs k = Some x /\ f x = Ok y.
Proof.
  intros A B f xs. induction xs as [| x xs IH]; intros ys k y H Hk.
  - simpl in H. injection H as <-. destruct k; discriminate.
  - simpl in H. apply bind_Ok in H. destruct H as (y0 & Hy0 & H).
    apply bind_Ok in H. destruct H as (ys' & Hys & H). injection H as <-.
    destruct k as [| k]; simpl in *.
    + injection Hk as <-. eauto.
    + now apply (IH ys').
Qed.

Lemma enumerate_from_length : forall (A : Type) (xs : list A) (i : nat),
  length (enumerate_from i xs) = length xs.
Proof.
  intros A xs. induction xs as [| x xs IH]; intro i; simpl; [reflexivity |].
  now rewrite IH.
Qed.

Lemma skipn_cons_inv : forall (A : Type) (l : list A) (k : nat) (x : A)
  (t : list A),
  x :: t = skipn k l -> nth_error l k = Some x /\ t = skipn (S k) l.
Proof.
  intros A l. induction l as [| y l IH]; intros k x t H.
  - destruct k; discriminate.
  - destruct k as [| k]; simpl in *.
    + injection H as -> ->. split; reflexivity.
    + now apply IH.
Qed.

(** Every run [group_runs] returns is a non-empty range of consecutive
    positions, and the column at each of its positions is the column the run
    is labelled with. *)
Lemma group_runs_inv : forall (all : list (list Z)) (cols : list (list Z))
  (cur : list Z) (start n : nat),
  cols = skipn (start + n) all ->
  (forall p, start <= p < start + n -> nth_error all p = Some cur) ->
  1 <= n ->
  forall run bp, In (run, bp) (group_runs cur start n cols) ->
  (exists s m, bp = seq s m /\ 1 <= m) /\
  (forall p, In p bp -> nth_error all p = Some run).
Proof.
  intros all cols. induction cols as [| col cols IH];
    intros cur start n Hcols Hcur Hn run bp Hin.
  - destruct Hin as [Heq | []]. injection Heq as <- <-. split.
    + now exists start, n.
    + intros p Hp. apply in_seq in Hp. now apply Hcur.
  - destruct (skipn_cons_inv _ _ Hcols) as [Hcol Hrest].
    simpl in Hin. destruct (list_eq_dec Z.eq_dec col cur) as [-> | Hne].
    + apply (IH cur start (S n)); try assumption; try lia.
      * now rewrite Nat.add_succ_r.
      * intros p Hp. destruct (Nat.eq_dec p (start + n)) as [-> | Hp'];
          [exact Hcol | apply Hcur; lia].
    + destruct Hin as [Heq | Hin].
      * injection Heq as <- <-. split.
        -- now exists start, n.
        -- intros p Hp. apply in_seq in Hp. now apply Hcur.
      * apply (IH col (start + n) 1); try assumption; try lia.
        -- now rewrite Nat.add_1_r.
        -- intros p Hp. assert (p = start + n) as -> by lia. exact Hcol.
Qed.

Lemma nth_error_map_seq : forall (A : Type) (F : nat -> A) (n p : nat) (x : A),
  nth_error (map F (seq 0 n)) p = Some x -> p < n /\ x = F p.
Proof.
  intros A F n p x H. rewrite nth_error_map in H.
  destruct (nth_error (seq 0 n) p) as [q |] eqn:E; [| discriminate].
  simpl in H. injection H as <-.
  assert (Hp : p < n).
  { rewrite <- (length_seq n 0). apply nth_error_Some. congruence. }
  split; [exact Hp |].
  apply (nth_error_nth _ _ 0) in E. rewrite seq_nth in E by exact Hp.
  now subst q.
Qed.

(** What [get_concat_blkno_indexers] returns: every placement is a non-empty
    range of consecutive column positions, and the block numbers it is
    labelled with are, at every position of the range, the block numbers of
    the managers. *)
Lemma blkno_indexers_inv :
  forall (blknos_list : list (list Z)) pairs (run : list Z) (bp : BlockPlacement),
  get_concat_blkno_indexers blknos_list = Ok pairs ->
  In (run, bp) pairs ->
  (exists s m, bp = seq s m /\ 1 <= m) /\
  (forall p, In p bp ->
     run = map (fun b => nth p b (-1)%Z) blknos_list /\
     forall b, In b blknos_list -> p < length b).
Proof.
  intros blknos_list pairs run bp H Hin.
  unfold get_concat_blkno_indexers in H.
  apply bind_Ok in H. destruct H as (blknos0 & _ & H).
  destruct (Nat.eqb (length blknos0) 0);
    [injection H as <-; destruct Hin |].
  destruct (forallb (fun b => Nat.eqb (length b) (length blknos0)) blknos_list)
    eqn:Hlen; [| discriminate]. simpl negb in H. cbv iota in H.
  set (F := fun i => map (fun b : list Z => nth i b (-1)%Z) blknos_list) in *.
  destruct (map F (seq 0 (length blknos0))) as [| col cols] eqn:Hall;
    [injection H as <-; destruct Hin |].
  injection H as <-.
  destruct (@group_runs_inv (col :: cols) cols col 0 1) with (run := run)
                                                             (bp := bp)
    as [Hrange Hcols]; try reflexivity; try lia; try assumption.
  { intros p Hp. assert (p = 0) as -> by lia. reflexivity. }
  split; [exact Hrange |].
  intros p Hp. specialize (Hcols p Hp). rewrite <- Hall in Hcols.
  apply nth_error_map_seq in Hcols. destruct Hcols as [Hp_lt ->].
  split; [reflexivity |].
  intros b Hb. rewrite forallb_forall in Hlen.
  specialize (Hlen b Hb). apply Nat.eqb_eq in Hlen. lia.
Qed.

Lemma as_slice_step_seq : forall s m : nat,
  1 <= m -> as_slice_step (seq s m) = Some 1%Z.
Proof.
  intros s [| [| m]] Hm; [lia | reflexivity |].
  change (seq s (S (S m))) with (s :: S s :: seq (S (S s)) m).
  cbv beta iota zeta delta [as_slice_step].
  replace (Z.of_nat (S s) - Z.of_nat s)%Z with 1%Z by lia.
  change (Z.eqb 1 0) with false. cbv iota.
  destruct (list_eq_dec Z.eq_dec _ _) as [_ | Hne]; [reflexivity |].
  exfalso. apply Hne.
  change (s :: S s :: seq (S (S s)) m) with (seq s (S (S m))).
  generalize (S (S m)) as n. intro n. rewrite length_seq.
  change (seq s n) with (seq (0 + s) n).
  rewrite <- map_add_seq, map_map. apply map_ext. intro i. lia.
Qed.

(** The shape of the plan: every group has a non-empty placement of
    consecutive column positions (the source's disabled assertions
    [bp.is_slice_like] and [len(bp) > 0]) and exactly one join unit per
    manager. *)
Theorem combined_plan_groups :
  forall (mgrs : list BlockManager) plan (bp : BlockPlacement)
         (units : list JoinUnit),
  _get_combined_plan mgrs = Ok plan ->
  In (bp, units) plan ->
  length units = length mgrs /\
  (exists s m, bp = seq s m /\ 1 <= m) /\
  is_slice_like bp = true.
Proof.
  intros mgrs plan bp units H Hin. unfold _get_combined_plan in H.
  apply bind_Ok in H. destruct H as (mgr0 & _ & H).
  apply bind_Ok in H. destruct H as (max_len & _ & H).
  apply bind_Ok in H. destruct H as (blknos_list & _ & H).
  apply bind_Ok in H. destruct H as (pairs & Hpairs & H).
  destruct (@mapM_In_inv _ _ _ _ _ _ H Hin) as ([run bp'] & Hpair & Hf).
  apply bind_Ok in Hf. destruct Hf as (us & Hus & Hf).
  injection Hf as -> ->.
  destruct (@blkno_indexers_inv _ _ _ _ Hpairs Hpair) as [(s & m & -> & Hm) _].
  split; [| split].
  - rewrite (mapM_length _ _ Hus). apply enumerate_from_length.
  - now exists s, m.
  - unfold is_slice_like. now rewrite as_slice_step_seq.
Qed.

Lemma mapM_nth_error_fwd : forall (A B : Type) (f : A -> result B)
  (xs : list A) (ys : list B) (k : nat) (x : A),
  mapM f xs = Ok ys -> nth_error xs k = Some x ->
  exists y, nth_error ys k = Some y /\ f x = Ok y.
Proof.
  intros A B f xs. induction xs as [| x0 xs IH]; intros ys k x H Hk.
  - destruct k; discriminate.
  - simpl in H. apply bind_Ok in H. destruct H as (y0 & Hy0 & H).
    apply bind_Ok in H. destruct H as (ys' & Hys & H). injection H as <-.
    destruct k as [| k]; simpl in *.
    + injection Hk as <-. eauto.
    + now apply (IH ys').
Qed.

(** [mgr.blknos], when it can be built, has no position without a block. *)
Lemma blknos_no_gaps : forall (mgr : BlockManager) (nos : list Z) (x : Z),
  blknos mgr = Ok nos -> In x nos -> x <> (-1)%Z.
Proof.
  intros mgr nos x H Hx. unfold blknos in H.
  apply bind_Ok in H. destruct H as (r & Hr & H). injection H as <-.
  unfold _rebuild_blknos_and_blklocs in Hr.
  apply bind_Ok in Hr. destruct Hr as (n & _ & Hr).
  apply bind_Ok in Hr. destruct Hr as (r' & _ & Hr).
  destruct (existsb (Z.eqb (-1)) (fst r')) eqn:E; [discriminate |].
  injection Hr as <-. intros ->.
  assert (Hex : existsb (Z.eqb (-1)) (fst r') = true).
  { apply existsb_exists. exists (-1)%Z. split; [exact Hx | reflexivity]. }
  congruence.
Qed.

(** The source's disabled assertions at the head of
    [_get_block_for_concat_plan] hold at every call [_get_combined_plan]
    makes: the run has one block number per manager; for every manager that
    number is not -1, and it is the manager's block number at every position
    of the placement. *)
Theorem block_numbers_at_plan_calls :
  forall (mgrs : list BlockManager) (blknos_list : list (list Z)) pairs
         (run : list Z) (bp : BlockPlacement),
  mapM blknos mgrs = Ok blknos_list ->
  get_concat_blkno_indexers blknos_list = Ok pairs ->
  In (run, bp) pairs ->
  length run = length mgrs /\
  forall (k : nat) (mgr : BlockManager),
    nth_error mgrs k = Some mgr ->
    exists nos blkno,
      blknos mgr = Ok nos /\
      nth_error run k = Some blkno /\
      blkno <> (-1)%Z /\
      forall p, In p bp -> nth_error nos p = Some blkno.
Proof.
  intros mgrs blknos_list pairs run bp Hnos Hpairs Hin.
  destruct (@blkno_indexers_inv _ _ _ _ Hpairs Hin)
    as [(s & m & -> & Hm) Hrun].
  assert (Hs : In s (seq s m)) by (apply in_seq; lia).
  destruct (Hrun s Hs) as [Hrun_s Hlen_s].
  split.
  - rewrite Hrun_s, length_map. apply (mapM_length _ _ Hnos).
  - intros k mgr Hk.
    destruct (mapM_nth_error_fwd _ _ _ Hnos Hk) as (nos & Hnos_k & Hmgr).
    assert (Hin_nos : In nos blknos_list) by (eapply nth_error_In; eauto).
    exists nos, (nth s nos (-1)%Z). split; [exact Hmgr |]. split; [| split].
    + rewrite Hrun_s, nth_error_map, Hnos_k. reflexivity.
    + apply (blknos_no_gaps mgr Hmgr). apply nth_In. now apply Hlen_s.
    + intros p Hp. destruct (Hrun p Hp) as [Hrun_p Hlen_p].
      assert (Heq : nth p nos (-1)%Z = nth s nos (-1)%Z).
      { assert (E : nth_error run k = Some (nth p nos (-1)%Z)).
        { rewrite Hrun_p, nth_error_map, Hnos_k. reflexivity. }
        rewrite Hrun_s, nth_error_map, Hnos_k in E. simpl in E. congruence. }
      rewrite <- Heq. apply nth_error_nth'. now apply Hlen_p.
Qed.

Lemma combined_plan_groups_witness :
  exists plan bp units,
    _get_combined_plan [mgr_one_block; mgr_two_blocks] = Ok plan /\
    In (bp, units) plan /\
    length units = 2 /\ bp = [1] /\ is_slice_like bp = true.
Proof.
  destruct (_get_combined_plan [mgr_one_block; mgr_two_blocks])
    as [plan | e] eqn:E; [| discriminate E].
  pose proof E as E'. vm_compute in E'. injection E' as E'.
  match type of E' with
  | [_; (?bp, ?units)] = _ =>
      exists plan, bp, units;
        assert (Hin : In (bp, units) plan) by (rewrite <- E'; right; now left)
  end.
  split; [reflexivity |]. split; [exact Hin |].
  destruct (combined_plan_groups _ _ _ E Hin) as (Hlen & _ & Hslice).
  split; [exact Hlen |]. split; [reflexivity | exact Hslice].
Defined.

Lemma block_numbers_at_plan_calls_witness :
  length [0%Z; 1%Z] = 2 /\
  exists nos blkno,
    blknos mgr_two_blocks = Ok nos /\
    nth_error [0%Z; 1%Z] 1 = Some blkno /\
    blkno <> (-1)%Z /\
    forall p, In p [1] -> nth_error nos p = Some blkno.
Proof.
  destruct (@block_numbers_at_plan_calls
              [mgr_one_block; mgr_two_blocks]
              [[0; 0]%Z; [0; 1]%Z]
              [([0; 0]%Z, [0]); ([0; 1]%Z, [1])]
              [0; 1]%Z [1] eq_refl eq_refl (or_intror (or_introl eq_refl)))
    as [Hlen Hcalls].
  split; [exact Hlen |].
  exact (Hcalls 1 mgr_two_blocks eq_refl).
Defined.

(** ** A single table of one block *)

Lemma list_set_app_length : forall (pre : list Z) (x v : Z) (post : list Z),
  list_set (pre ++ x :: post) (length pre) v = pre ++ v :: post.
Proof.
  induction pre as [| y pre IH]; intros x v post; simpl; [reflexivity |].
  now rewrite IH.
Qed.

Lemma assign_app_length : forall (pre : list Z) (x v : Z) (post : list Z),
  assign (pre ++ x :: post) (length pre) v = Ok (pre ++ v :: post).
Proof.
  intros pre x v post. unfold assign.
  assert (H : Nat.ltb (length pre) (length (pre ++ x :: post)) = true).
  { apply Nat.ltb_lt. rewrite length_app. simpl. lia. }
  now rewrite H, list_set_app_length.
Qed.

(** The block numbers and block locations of a manager whose single block
    holds the positions [0 .. n-1] in order. *)
Lemma rebuild_fill_block : forall (blkno : Z) (m i : nat)
  (nos locs : list Z),
  length nos = i -> length locs = i ->
  foldM (fun (acc : list Z * list Z) (ij : nat * nat) =>
           nos' <- assign (fst acc) (snd ij) blkno ;;
           locs' <- assign (snd acc) (snd ij) (Z.of_nat (fst ij)) ;;
           Ok (nos', locs'))
        (enumerate_from i (seq i m))
        (nos ++ repeat (-1)%Z m, locs ++ repeat (-1)%Z m) =
  Ok (nos ++ repeat blkno m, locs ++ map Z.of_nat (seq i m)).
Proof.
  intros blkno m. induction m as [| m IH]; intros i nos locs Hnos Hlocs.
  - reflexivity.
  - simpl. rewrite <- Hnos at 1. rewrite assign_app_length.
    simpl bind. rewrite <- Hlocs at 1. rewrite assign_app_length. simpl bind.
    specialize (IH (S i) (nos ++ [blkno]) (locs ++ [Z.of_nat i])).
    rewrite <- !app_assoc in IH. simpl in IH. apply IH.
    + rewrite length_app. simpl. lia.
    + rewrite length_app. simpl. lia.
Qed.

Lemma foldM_single : forall (A B : Type) (f : A -> B -> result A) (x : B)
  (a : A),
  foldM f [x] a = (a' <- f a x ;; Ok a').
Proof. reflexivity. Qed.

Lemma bind_ret : forall (A B : Type) (a : A) (k : A -> result B),
  bind (Ok a) k = k a.
Proof. reflexivity. Qed.

Lemma existsb_repeat_false : forall (f : Z -> bool) (x : Z) (n : nat),
  f x = false -> existsb f (repeat x n) = false.
Proof.
  intros f x n H. induction n as [| n IH]; simpl; [reflexivity |].
  now rewrite H.
Qed.

Lemma rebuild_single_block : forall (blk : Block) (items : Index)
  (other_axes : list Index),
  mgr_locs blk = seq 0 (length items) ->
  _rebuild_blknos_and_blklocs (mkBlockManager [blk] (items :: other_axes)) =
  Ok (repeat 0%Z (length items), map Z.of_nat (seq 0 (length items))).
Proof.
  intros blk items other_axes Hlocs. unfold _rebuild_blknos_and_blklocs.
  change (shape0 (mkBlockManager [blk] (items :: other_axes)))
    with (Ok (length items) : result nat).
  rewrite bind_ret. cbn [blocks].
  change (enumerate [blk]) with [(0, blk)]. rewrite foldM_single.
  cbn [fst snd]. rewrite Hlocs. unfold enumerate.
  pose proof (@rebuild_fill_block (Z.of_nat 0) (length items) 0 [] []
                eq_refl eq_refl) as H.
  cbn [app] in H. rewrite H. rewrite !bind_ret. cbn [fst Z.of_nat].
  now rewrite (@existsb_repeat_false (Z.eqb (-1)) 0%Z (length items) eq_refl).
Qed.

Lemma group_runs_constant : forall (cols : list (list Z)) (cur : list Z)
  (start n : nat),
  (forall col, In col cols -> col = cur) ->
  group_runs cur start n cols = [(cur, seq start (n + length cols))].
Proof.
  induction cols as [| col cols IH]; intros cur start n Hall; simpl.
  - now rewrite Nat.add_0_r.
  - destruct (list_eq_dec Z.eq_dec col cur) as [_ | Hne].
    + rewrite IH by (intros c Hc; apply Hall; now right).
      now replace (n + S (length cols)) with (S n + length cols) by lia.
    + exfalso. apply Hne. apply Hall. now left.
Qed.

Lemma single_run_indexers : forall n : nat,
  get_concat_blkno_indexers [repeat 0%Z (S n)] =
  Ok [([0%Z], seq 0 (S n))].
Proof.
  intro n. unfold get_concat_blkno_indexers.
  change (py_getitem [repeat 0%Z (S n)] 0%Z) with (Ok (repeat 0%Z (S n))).
  rewrite bind_ret. cbv zeta. rewrite repeat_length.
  change (Nat.eqb (S n) 0) with false. cbv iota.
  cbn [forallb]. rewrite repeat_length, Nat.eqb_refl. cbn [andb negb].
  cbv iota. change (seq 0 (S n)) with (0 :: seq 1 n) at 1.
  cbn [map].
  rewrite group_runs_constant.
  - rewrite length_map, length_seq. reflexivity.
  - intros col Hcol. apply in_map_iff in Hcol.
    destruct Hcol as (i & <- & Hi). apply in_seq in Hi.
    rewrite !nth_repeat_lt by lia. reflexivity.
Qed.

Lemma single_block_plan : forall (blk : Block) (items : Index)
  (other_axes : list Index),
  1 <= length items ->
  mgr_locs blk = seq 0 (length items) ->
  _get_combined_plan [mkBlockManager [blk] (items :: other_axes)] =
  Ok [(seq 0 (length items), [mkJoinUnit blk])].
Proof.
  intros blk items other_axes Hn Hlocs. unfold _get_combined_plan.
  change (py_getitem [mkBlockManager [blk] (items :: other_axes)] 0%Z)
    with (Ok (mkBlockManager [blk] (items :: other_axes))).
  rewrite bind_ret.
  change (shape0 (mkBlockManager [blk] (items :: other_axes)))
    with (Ok (length items) : result nat). rewrite bind_ret.
  cbn [mapM]. unfold blknos.
  rewrite (@rebuild_single_block blk items other_axes Hlocs).
  rewrite !bind_ret. cbn [fst].
  destruct (length items) as [| n] eqn:En; [lia |].
  rewrite (single_run_indexers n), bind_ret.
  cbn [mapM]. unfold enumerate. cbn [enumerate_from mapM].
  change (py_getitem [0%Z] (Z.of_nat 0)) with (Ok 0%Z : result Z).
  rewrite bind_ret. unfold _get_block_for_concat_plan. cbn [blocks].
  change (py_getitem [blk] 0%Z) with (Ok blk). rewrite bind_ret.
  unfold is_slice_like. rewrite Hlocs, (@as_slice_step_seq 0 _ Hn).
  rewrite length_seq, Nat.eqb_refl. reflexivity.
Qed.

Section SingleTable.

Variable find_common_type : list DtypeObj -> result DtypeObj.
Variable ensure_dtype_can_hold_na : DtypeObj -> DtypeObj.
Variable is_valid_na_for_dtype : Scalar -> DtypeObj -> bool.
Variable needs_i8_conversion : DtypeObj -> bool.
Variable astype_array : ArrayLike -> DtypeObj -> ArrayLike.
Variable np_result_type : list DtypeObj -> DtypeObj.
Variable concat_compat : list ArrayLike -> Z -> bool -> result ArrayLike.
Variable reindex_indexer :
  BlockManager -> Index -> option (list Z) -> Z -> result BlockManager.
Variable new_block_2d : ArrayLike -> BlockPlacement -> Block.

(** Concatenating, along the row axis of the table ([concat_axis] other than
    0), a single table whose columns sit in order in one block gives back a
    manager of one block with the class, the cells and the placement of that
    block, under the axes supplied, whatever the copy flag: nothing is
    unified, cast or rebuilt. *)
Theorem single_block_table_identity :
  forall (blk : Block) (items : Index) (other_axes axes' : list Index)
         (concat_axis : Z) (copy : bool),
  concat_axis <> 0%Z ->
  1 <= length items ->
  mgr_locs blk = seq 0 (length items) ->
  concatenate_managers find_common_type ensure_dtype_can_hold_na
    is_valid_na_for_dtype needs_i8_conversion astype_array np_result_type
    concat_compat reindex_indexer new_block_2d
    [(mkBlockManager [blk] (items :: other_axes), [])] axes' concat_axis copy
  = Ok (mkBlockManager [blk] axes').
Proof.
  intros blk items other_axes axes' concat_axis copy Haxis Hn Hlocs.
  unfold concatenate_managers.
  change (py_getitem [(mkBlockManager [blk] (items :: other_axes),
                       @nil (Z * option (list Z)))] 0%Z)
    with (Ok (mkBlockManager [blk] (items :: other_axes),
              @nil (Z * option (list Z)))).
  cbv beta iota delta [bind]. apply Z.eqb_neq in Haxis. rewrite Haxis.
  change [(mkBlockManager [blk] (items :: other_axes),
           @nil (Z * option (list Z)))]
    with (map (fun mgr : BlockManager => (mgr, @nil (Z * option (list Z))))
              [mkBlockManager [blk] (items :: other_axes)]).
  rewrite maybe_reindex_no_indexers. cbv beta iota.
  rewrite map_map. simpl map.
  rewrite (@single_block_plan blk items other_axes Hn Hlocs). cbv beta iota.
  simpl. do 2 f_equal.
  assert (Hsame : forall v, (if copy then copy_array v else view v) = v)
    by (intro v; now destruct copy).
  rewrite Hsame. unfold make_block_same_class. rewrite <- Hlocs.
  now destruct blk.
Qed.

End SingleTable.

Lemma single_block_table_identity_witness :
  pandas_concatenate_managers [(mgr_one_block, [])]
    [["X"; "Y"]; ["r0"; "r1"]] 1%Z true
  = Ok (mkBlockManager (blocks mgr_one_block) [["X"; "Y"]; ["r0"; "r1"]]).
Proof.
  apply (@single_block_table_identity
           pandas_find_common_type pandas_ensure_dtype_can_hold_na
           pandas_is_valid_na_for_dtype pandas_needs_i8_conversion
           pandas_astype_array numpy_result_type pandas_concat_compat
           aligned_reindex_indexer pandas_new_block_2d
           (mkBlock "NumpyBlock"
              (mkArray np_int64
                 (Data2D [[PyInt 1; PyInt 2]; [PyInt 3; PyInt 4]]))
              [0; 1] false false true NpNan)
           ["X"; "Y"] [["r0"; "r1"]] [["X"; "Y"]; ["r0"; "r1"]] 1%Z true).
  - discriminate.
  - simpl. lia.
  - reflexivity.
Defined.

(** ** The blocks of the plan *)

Lemma foldM_invariant_In : forall (A B : Type) (P : A -> Prop)
  (f : A -> B -> result A) (xs : list B) (a r : A),
  (forall a x a', In x xs -> P a -> f a x = Ok a' -> P a') ->
  P a -> foldM f xs a = Ok r -> P r.
Proof.
  intros A B P f xs. induction xs as [| x xs IH]; intros a r Hstep Ha H.
  - simpl in H. injection H as <-. exact Ha.
  - simpl in H. apply bind_Ok in H. destruct H as (a' & Ha' & H).
    apply (IH a' r); [| | exact H].
    + intros a0 x0 a0' Hin. apply Hstep. now right.
    + apply (Hstep a x a'); [now left | exact Ha | exact Ha'].
Qed.

Lemma enumerate_from_In : forall (A : Type) (xs : list A) (k i : nat) (x : A),
  In (i, x) (enumerate_from k xs) -> k <= i /\ nth_error xs (i - k) = Some x.
Proof.
  intros A xs. induction xs as [| x0 xs IH]; intros k i x H; simpl in H.
  - destruct H.
  - destruct H as [H | H].
    + injection H as <- <-. split; [lia |]. now rewrite Nat.sub_diag.
    + apply IH in H. destruct H as [Hle Hn]. split; [lia |].
      replace (i - k) with (S (i - S k)) by lia. exact Hn.
Qed.

Lemma list_set_nth_eq : forall (arr : list Z) (j : nat) (v : Z),
  j < length arr -> nth_error (list_set arr j v) j = Some v.
Proof.
  induction arr as [| x arr IH]; intros [| j] v Hj; simpl in *;
    try lia; [reflexivity |].
  apply IH. lia.
Qed.

Lemma list_set_nth_neq : forall (arr : list Z) (j p : nat) (v : Z),
  p <> j -> nth_error (list_set arr j v) p = nth_error arr p.
Proof.
  induction arr as [| x arr IH]; intros [| j] [| p] v Hne; simpl;
    try reflexivity; try congruence.
  apply IH. congruence.
Qed.

Lemma assign_inv : forall (arr arr' : list Z) (j : nat) (v : Z),
  assign arr j v = Ok arr' -> j < length arr /\ arr' = list_set arr j v.
Proof.
  intros arr arr' j v H. unfold assign in H.
  destruct (Nat.ltb j (length arr)) eqn:E; [| discriminate].
  apply Nat.ltb_lt in E. injection H as <-. now split.
Qed.

(** The arrays [_rebuild_blknos_and_blklocs] builds describe the blocks. *)
Lemma rebuild_locates : forall (mgr : BlockManager) (nos locs : list Z),
  _rebuild_blknos_and_blklocs mgr = Ok (nos, locs) ->
  locates (blocks mgr) nos locs.
Proof.
  intros mgr nos locs H. unfold _rebuild_blknos_and_blklocs in H.
  apply bind_Ok in H. destruct H as (n & _ & H).
  apply bind_Ok in H. destruct H as (r & Hr & H).
  destruct (existsb (Z.eqb (-1)) (fst r)); [discriminate |].
  injection H as ->.
  apply (foldM_invariant_In
           (fun acc : list Z * list Z =>
              locates (blocks mgr) (fst acc) (snd acc))) in Hr.
  - exact Hr.
  - intros acc [b blk] acc' Hin Hacc Hstep.
    apply enumerate_from_In in Hin. destruct Hin as [_ Hb].
    rewrite Nat.sub_0_r in Hb. cbn [fst snd] in Hstep.
    apply (foldM_invariant_In
             (fun acc : list Z * list Z =>
                locates (blocks mgr) (fst acc) (snd acc))) in Hstep.
    + exact Hstep.
    + intros [nos0 locs0] [i j] a' Hin' [Hlen Ha] Hassign.
      apply enumerate_from_In in Hin'. destruct Hin' as [_ Hi].
      rewrite Nat.sub_0_r in Hi. cbn [fst snd] in *.
      apply bind_Ok in Hassign. destruct Hassign as (nos' & Hnos & Hassign).
      apply bind_Ok in Hassign. destruct Hassign as (locs' & Hlocs & Hassign).
      injection Hassign as <-. cbn [fst snd].
      apply assign_inv in Hnos. destruct Hnos as [Hj ->].
      apply assign_inv in Hlocs. destruct Hlocs as [Hj' ->].
      split; [now rewrite !list_set_length |].
      intros pos x Hpos Hx. destruct (Nat.eq_dec pos j) as [-> | Hne].
      * rewrite list_set_nth_eq in Hpos by exact Hj. injection Hpos as <-.
        exists b, blk, i. split; [reflexivity |]. split; [exact Hb |].
        split; [now apply list_set_nth_eq | exact Hi].
      * rewrite list_set_nth_neq in Hpos by exact Hne.
        destruct (Ha pos x Hpos Hx) as (b0 & blk0 & i0 & E1 & E2 & E3 & E4).
        exists b0, blk0, i0. split; [exact E1 |]. split; [exact E2 |].
        split; [| exact E4]. now rewrite list_set_nth_neq.
    + exact Hacc.
  - cbn [fst snd]. split; [now rewrite !repeat_length |].
    intros pos x Hpos Hx. apply nth_error_In in Hpos.
    apply repeat_spec in Hpos. congruence.
Qed.

Lemma py_getitem_of_nat : forall (A : Type) (xs : list A) (k : nat) (x : A),
  py_getitem xs (Z.of_nat k) = Ok x <-> nth_error xs k = Some x.
Proof.
  intros A xs k x. unfold py_getitem.
  assert (E : Z.ltb (Z.of_nat k) 0 = false) by (apply Z.ltb_ge; lia).
  rewrite !E, Nat2Z.id.
  destruct (nth_error xs k) as [y |]; split; intro H;
    try discriminate; congruence.
Qed.

Lemma seq_from_nth_error : forall (m s : nat) (l : list nat),
  length l = m -> (forall j, j < m -> nth_error l j = Some (s + j)) ->
  l = seq s m.
Proof.
  induction m as [| m IH]; intros s l Hlen H.
  - now destruct l.
  - destruct l as [| x l]; [discriminate |]. simpl. f_equal.
    + assert (H0 : 0 < S m) by lia. apply H in H0. simpl in H0.
      injection H0 as ->. lia.
    + apply IH; [simpl in Hlen; lia |]. intros j Hj.
      assert (Hj' : S j < S m) by lia. apply H in Hj'. simpl in Hj'.
      rewrite Hj'. f_equal. lia.
Qed.

(** A placement whose slice has step 1 is a range of consecutive
    positions. *)
Lemma as_slice_step_one_inv : forall l : BlockPlacement,
  as_slice_step l = Some 1%Z -> exists a, l = seq a (length l).
Proof.
  intros [| a [| b t]] H; [discriminate | now exists a |].
  exists a. cbv beta iota zeta delta [as_slice_step] in H.
  destruct (Z.eqb (Z.of_nat b - Z.of_nat a) 0); [discriminate |].
  destruct (list_eq_dec Z.eq_dec _ _) as [E |]; [| discriminate].
  injection H as Hd. rewrite Hd in E.
  apply seq_from_nth_error; [reflexivity |]. intros j Hj.
  assert (En : nth_error (map Z.of_nat (a :: b :: t)) j =
               nth_error (map (fun i : nat => (Z.of_nat a + Z.of_nat i * 1)%Z)
                              (seq 0 (length (a :: b :: t)))) j)
    by now rewrite E.
  rewrite !nth_error_map, nth_error_seq in En.
  apply Nat.ltb_lt in Hj. rewrite Hj in En.
  destruct (nth_error (a :: b :: t) j) as [y |]; [| discriminate].
  simpl in En. injection En as En. f_equal. lia.
Qed.

(** What [xs[slc]] holds when [slc] is [maybe_indices_to_slice] of valid
    positions: the elements of [xs] at those positions, in order. *)
Lemma take_indices_to_slice : forall (A : Type) (xs xs' : list A)
  (idx : list Z) (max_len : nat),
  idx <> [] ->
  (forall j, j < length idx ->
     exists i, nth_error idx j = Some (Z.of_nat i) /\ i < length xs) ->
  take_slicer xs (maybe_indices_to_slice idx max_len) = Ok xs' ->
  length xs' = length idx /\
  forall j i, nth_error idx j = Some (Z.of_nat i) ->
    nth_error xs' j = nth_error xs i.
Proof.
  intros A xs xs' idx max_len Hne Hidx H.
  destruct idx as [| v0 rest] eqn:Eidx; [congruence |].
  rewrite <- Eidx in *. clear Hne.
  assert (Hslc : maybe_indices_to_slice idx max_len =
    if Z.leb 0 v0
       && Z.leb (v0 + Z.of_nat (length idx)) (Z.of_nat max_len)
       && (if list_eq_dec Z.eq_dec idx
                (map (fun i => (v0 + Z.of_nat i)%Z) (seq 0 (length idx)))
           then true else false)
    then PySlice v0 (v0 + Z.of_nat (length idx))
    else Indices idx) by (rewrite Eidx; reflexivity).
  rewrite Hslc in H. clear Hslc.
  remember (length idx) as n eqn:En.
  destruct (Z.leb 0 v0
            && Z.leb (v0 + Z.of_nat n) (Z.of_nat max_len)
            && (if list_eq_dec Z.eq_dec idx
                     (map (fun i => (v0 + Z.of_nat i)%Z) (seq 0 n))
                then true else false)) eqn:C.
  - apply andb_true_iff in C. destruct C as [C Hcontig].
    apply andb_true_iff in C. destruct C as [Hv0 _].
    apply Z.leb_le in Hv0.
    destruct (list_eq_dec Z.eq_dec idx _) as [E |]; [| discriminate].
    assert (Hnth : forall j, j < n ->
              nth_error idx j = Some (v0 + Z.of_nat j)%Z).
    { intros j Hj. rewrite E, nth_error_map, nth_error_seq.
      apply Nat.ltb_lt in Hj. now rewrite Hj. }
    simpl in H. injection H as <-.
    replace (Z.to_nat (v0 + Z.of_nat n - v0)) with n by lia.
    assert (Hn : 1 <= n) by (rewrite En, Eidx; simpl; lia).
    assert (Hlast : Z.to_nat v0 + n <= length xs).
    { destruct (Hidx (n - 1)) as (i & Hi & Hlt); [lia |].
      rewrite Hnth in Hi by lia. injection Hi as Hi. lia. }
    split.
    + rewrite length_firstn, length_skipn. lia.
    + intros j i Hj.
      assert (Hjn : j < n).
      { rewrite En. apply nth_error_Some. congruence. }
      rewrite Hnth in Hj by exact Hjn. injection Hj as Hj.
      rewrite nth_error_firstn. apply Nat.ltb_lt in Hjn. rewrite Hjn.
      rewrite nth_error_skipn. f_equal. lia.
  - simpl in H. split.
    + rewrite En. apply (mapM_length _ _ H).
    + intros j i Hj.
      destruct (mapM_nth_error_fwd _ _ _ H Hj) as (y & Hy & Hget).
      apply py_getitem_of_nat in Hget. congruence.
Qed.

Lemma getitem_block_inv : forall (blk nb : Block) (slc : Slicer),
  getitem_block blk slc = Ok nb ->
  take_slicer (mgr_locs blk) slc = Ok (mgr_locs nb) /\
  match arr_data (values blk) with
  | Data2D rows =>
      exists rows', take_slicer rows slc = Ok rows' /\
                    arr_data (values nb) = Data2D rows'
  | Data1D xs => arr_data (values nb) = Data1D xs
  end.
Proof.
  intros blk nb slc H. unfold getitem_block in H.
  apply bind_Ok in H. destruct H as (new_locs & Hlocs & H).
  apply bind_Ok in H. destruct H as (new_values & Hvals & H).
  injection H as <-. cbn [mgr_locs values]. split; [exact Hlocs |].
  destruct (arr_data (values blk)) as [xs | rows] eqn:Ed.
  - destruct slc as [| start stop | idx]; try discriminate;
      apply bind_Ok in Hvals; destruct Hvals as ([| k kept] & _ & Hvals);
      try discriminate; injection Hvals as <-; exact Ed.
  - apply bind_Ok in Hvals. destruct Hvals as (rows' & Hrows & Hvals).
    injection Hvals as <-. exists rows'. now split.
Qed.

(** The block [_get_block_for_concat_plan] returns for a run of positions
    that all lie in one block of the manager. *)
Lemma plan_block_placement :
  forall (mgr : BlockManager) (nos locs : list Z) (blkno : Z)
         (max_len s m : nat) (nb : Block),
  _rebuild_blknos_and_blklocs mgr = Ok (nos, locs) ->
  1 <= m ->
  (forall p, In p (seq s m) -> nth_error nos p = Some blkno) ->
  blkno <> (-1)%Z ->
  (forall blk, In blk (blocks mgr) ->
     fst (shape blk) = length (mgr_locs blk)) ->
  _get_block_for_concat_plan mgr (seq s m) blkno max_len = Ok nb ->
  mgr_locs nb = seq s m /\ fst (shape nb) = m.
Proof.
  intros mgr nos locs blkno max_len s m nb Hreb Hm Hnos Hblkno Hfits H.
  pose proof (rebuild_locates _ Hreb) as [Hlen Hloc].
  assert (Hs : In s (seq s m)) by (apply in_seq; lia).
  destruct (Hloc s blkno (Hnos s Hs) Hblkno) as (b & blk & _ & -> & Hb & _).
  assert (Hat : forall j, j < m ->
            exists i, nth_error locs (s + j) = Some (Z.of_nat i) /\
                      nth_error (mgr_locs blk) i = Some (s + j)).
  { intros j Hj. assert (Hp : In (s + j) (seq s m)) by (apply in_seq; lia).
    destruct (Hloc (s + j) (Z.of_nat b) (Hnos _ Hp) Hblkno)
      as (b' & blk' & i & Eb & Hb' & Hi & Hpos).
    apply Nat2Z.inj in Eb. subst b'.
    assert (blk' = blk) by congruence. subst blk'. now exists i. }
  assert (Hfit : fst (shape blk) = length (mgr_locs blk)).
  { apply Hfits. eapply nth_error_In; eauto. }
  unfold _get_block_for_concat_plan in H.
  apply py_getitem_of_nat in Hb. rewrite Hb, bind_ret in H.
  destruct (Nat.eqb (length (seq s m)) (length (mgr_locs blk))
            && (is_slice_like (mgr_locs blk)
                && match as_slice_step (mgr_locs blk) with
                   | Some step => Z.eqb step 1
                   | None => false
                   end)) eqn:C.
  - injection H as <-.
    apply andb_true_iff in C. destruct C as [Hsame C].
    apply andb_true_iff in C. destruct C as [_ Hstep].
    apply Nat.eqb_eq in Hsame. rewrite length_seq in Hsame.
    destruct (as_slice_step (mgr_locs blk)) as [step |] eqn:Estep;
      [| discriminate].
    apply Z.eqb_eq in Hstep. subst step.
    destruct (as_slice_step_one_inv _ Estep) as (a & Ea).
    rewrite <- Hsame in Ea.
    assert (a = s).
    { destruct (Hat 0) as (i & _ & Hi); [lia |].
      destruct (Hat (m - 1)) as (i' & _ & Hi'); [lia |].
      apply nth_error_In in Hi, Hi'. rewrite Ea in Hi, Hi'.
      apply in_seq in Hi, Hi'. lia. }
    subst a. split; [exact Ea | congruence].
  - clear C. unfold blklocs in H. rewrite Hreb, !bind_ret in H.
    cbn [snd] in H.
    apply bind_Ok in H. destruct H as (idx & Hidx & H).
    assert (Hidx_len : length idx = m).
    { rewrite (mapM_length _ _ Hidx). apply length_seq. }
    assert (Hidx_at : forall j, j < m ->
              exists i, nth_error idx j = Some (Z.of_nat i) /\
                        nth_error (mgr_locs blk) i = Some (s + j)).
    { intros j Hj. destruct (Hat j Hj) as (i & Hi & Hpos).
      assert (Hsj : nth_error (seq s m) j = Some (s + j)).
      { rewrite nth_error_seq. apply Nat.ltb_lt in Hj. now rewrite Hj. }
      destruct (mapM_nth_error_fwd _ _ _ Hidx Hsj) as (y & Hy & Hget).
      apply py_getitem_of_nat in Hget. exists i. split; [congruence | exact Hpos]. }
    assert (Hne : idx <> []) by (intros ->; simpl in Hidx_len; lia).
    apply getitem_block_inv in H. destruct H as [Hlocs Hvals].
    assert (Hvalid : forall (A : Type) (xs : list A),
              length xs = length (mgr_locs blk) ->
              forall j, j < length idx ->
                exists i, nth_error idx j = Some (Z.of_nat i) /\
                          i < length xs).
    { intros A xs Hxs j Hj. rewrite Hidx_len in Hj.
      destruct (Hidx_at j Hj) as (i & Hi & Hpos). exists i.
      split; [exact Hi |]. rewrite Hxs. apply nth_error_Some. congruence. }
    destruct (@take_indices_to_slice _ _ _ _ _ Hne (Hvalid _ _ eq_refl) Hlocs)
      as [Hl Hnth].
    assert (Hplace : mgr_locs nb = seq s m).
    { apply seq_from_nth_error; [congruence |]. intros j Hj.
      destruct (Hidx_at j Hj) as (i & Hi & Hpos).
      now rewrite (Hnth j i Hi). }
    split; [exact Hplace |].
    assert (Hrows_len : forall rows, arr_data (values blk) = Data2D rows ->
              length rows = length (mgr_locs blk)).
    { intros rows Ed. unfold shape, arr_shape in Hfit.
      now rewrite Ed in Hfit. }
    unfold shape, arr_shape.
    destruct (arr_data (values blk)) as [xs | rows] eqn:Ed.
    + rewrite Hvals. cbn [fst]. rewrite Hplace. apply length_seq.
    + destruct Hvals as (rows' & Hrows & ->). cbn [fst].
      destruct (@take_indices_to_slice _ _ _ _ _ Hne
                  (Hvalid _ rows (Hrows_len rows eq_refl)) Hrows)
        as [Hl' _]. congruence.
Qed.

(** The source's disabled assertion at the end of
    [_get_block_for_concat_plan], on the column axis, and more: when every
    block of every manager has one row of values per position it is placed
    at, each join unit of a plan group holds a block placed exactly at the
    positions of the group, with one row of values for each of them. *)
Theorem plan_units_sit_at_placement :
  forall (mgrs : list BlockManager) plan (bp : BlockPlacement)
         (units : list JoinUnit) (u : JoinUnit),
  (forall mgr blk, In mgr mgrs -> In blk (blocks mgr) ->
     fst (shape blk) = length (mgr_locs blk)) ->
  _get_combined_plan mgrs = Ok plan ->
  In (bp, units) plan ->
  In u units ->
  mgr_locs (block u) = bp /\ fst (shape (block u)) = length bp.
Proof.
  intros mgrs plan bp units u Hfits H Hin Hu. unfold _get_combined_plan in H.
  apply bind_Ok in H. destruct H as (mgr0 & _ & H).
  apply bind_Ok in H. destruct H as (max_len & _ & H).
  apply bind_Ok in H. destruct H as (blknos_list & Hnos & H).
  apply bind_Ok in H. destruct H as (pairs & Hpairs & H).
  destruct (@mapM_In_inv _ _ _ _ _ _ H Hin) as ([run bp'] & Hpair & Hf).
  apply bind_Ok in Hf. destruct Hf as (us & Hus & Hf).
  injection Hf as -> ->.
  destruct (@mapM_In_inv _ _ _ _ _ _ Hus Hu) as ([k mgr] & Hkm & Hunit).
  apply bind_Ok in Hunit. destruct Hunit as (blkno & Hblkno & Hunit).
  apply bind_Ok in Hunit. destruct Hunit as (nb & Hnb & Hunit).
  injection Hunit as <-. cbn [block].
  apply enumerate_from_In in Hkm. destruct Hkm as [_ Hk].
  rewrite Nat.sub_0_r in Hk. apply py_getitem_of_nat in Hblkno.
  destruct (mapM_nth_error_fwd _ _ _ Hnos Hk) as (nos & Hnos_k & Hmgr).
  destruct (@blkno_indexers_inv _ _ _ _ Hpairs Hpair)
    as [(s & m & -> & Hm) Hrun].
  assert (Hat : forall p, In p (seq s m) -> nth_error nos p = Some blkno).
  { intros p Hp. destruct (Hrun p Hp) as [Hrun_p Hlen_p].
    rewrite Hrun_p, nth_error_map, Hnos_k in Hblkno.
    injection Hblkno as <-. apply nth_error_nth'. apply Hlen_p.
    eapply nth_error_In; eauto. }
  assert (Hs : In s (seq s m)) by (apply in_seq; lia).
  assert (Hne : blkno <> (-1)%Z).
  { apply (blknos_no_gaps mgr Hmgr). eapply nth_error_In. apply (Hat s Hs). }
  unfold blknos in Hmgr. apply bind_Ok in Hmgr.
  destruct Hmgr as ([nos' locs] & Hreb & Hmgr). injection Hmgr as ->.
  rewrite length_seq.
  apply (@plan_block_placement mgr nos locs blkno max_len s m nb
           Hreb Hm Hat Hne); [| exact Hnb].
  intros blk Hblk. apply (Hfits mgr blk); [| exact Hblk].
  eapply nth_error_In; eauto.
Qed.

Lemma plan_units_sit_at_placement_witness :
  exists plan bp units u,
    _get_combined_plan [mgr_one_block; mgr_two_blocks] = Ok plan /\
    In (bp, units) plan /\ In u units /\
    values (block u) = mkArray np_int64 (Data2D [[PyInt 3; PyInt 4]]) /\
    mgr_locs (block u) = bp /\ fst (shape (block u)) = length bp.
Proof.
  destruct (_get_combined_plan [mgr_one_block; mgr_two_blocks])
    as [plan | e] eqn:E; [| discriminate E].
  pose proof E as E'. vm_compute in E'. injection E' as E'.
  match type of E' with
  | [_; (?bp, [?u; ?u'])] = _ =>
      exists plan, bp, [u; u'], u;
        assert (Hin : In (bp, [u; u']) plan)
          by (rewrite <- E'; right; now left);
        assert (Hu : In u [u; u']) by now left
  end.
  split; [reflexivity |]. split; [exact Hin |]. split; [exact Hu |].
  split; [reflexivity |].
  eapply (@plan_units_sit_at_placement [mgr_one_block; mgr_two_blocks] plan);
    [| exact E | exact Hin | exact Hu].
  intros mgr blk [<- | [<- | []]] Hblk; simpl in Hblk;
    repeat (destruct Hblk as [<- | Hblk]; [reflexivity |]); destruct Hblk.
Defined.

(** ** The plan of well-formed managers *)








(** The block a run of positions with one block number lies in, and where
    in that block each position of the run is. *)
Lemma plan_block_located :
  forall (mgr : BlockManager) (nos locs : list Z) (blkno : Z) (s m : nat),
  _rebuild_blknos_and_blklocs mgr = Ok (nos, locs) ->
  1 <= m ->
  (forall p, In p (seq s m) -> nth_error nos p = Some blkno) ->
  blkno <> (-1)%Z ->
  exists b blk,
    blkno = Z.of_nat b /\ nth_error (blocks mgr) b = Some blk /\
    forall j, j < m ->
      exists i, nth_error locs (s + j) = Some (Z.of_nat i) /\
                nth_error (mgr_locs blk) i = Some (s + j).
Proof.
  intros mgr nos locs blkno s m Hreb Hm Hnos Hblkno.
  pose proof (rebuild_locates _ Hreb) as [Hlen Hloc].
  assert (Hs : In s (seq s m)) by (apply in_seq; lia).
  destruct (Hloc s blkno (Hnos s Hs) Hblkno) as (b & blk & _ & -> & Hb & _).
  exists b, blk. split; [reflexivity |]. split; [exact Hb |].
  intros j Hj. assert (Hp : In (s + j) (seq s m)) by (apply in_seq; lia).
  destruct (Hloc (s + j) (Z.of_nat b) (Hnos _ Hp) Hblkno)
    as (b' & blk' & i & Eb & Hb' & Hi & Hpos).
  apply Nat2Z.inj in Eb. subst b'.
  assert (blk' = blk) by congruence. subst blk'. now exists i.
Qed.




(** ** The cells of the plan *)

Lemma getitem_block_attrs : forall (blk nb : Block) (slc : Slicer),
  getitem_block blk slc = Ok nb ->
  block_class nb = block_class blk /\
  arr_dtype (values nb) = arr_dtype (values blk).
Proof.
  intros blk nb slc H. unfold getitem_block in H.
  apply bind_Ok in H. destruct H as (new_locs & _ & H).
  apply bind_Ok in H. destruct H as (new_values & Hvals & H).
  injection H as <-. cbn [block_class values]. split; [reflexivity |].
  destruct (arr_data (values blk)) as [xs | rows].
  - destruct slc as [| start stop | idx]; try discriminate;
      apply bind_Ok in Hvals; destruct Hvals as ([| k kept] & _ & Hvals);
      try discriminate; now injection Hvals as <-.
  - apply bind_Ok in Hvals. destruct Hvals as (rows' & _ & Hvals).
    now injection Hvals as <-.
Qed.

Lemma nth_error_enumerate_from : forall (A : Type) (xs : list A)
  (i k k' : nat) (x : A),
  nth_error (enumerate_from i xs) k = Some (k', x) ->
  k' = i + k /\ nth_error xs k = Some x.
Proof.
  intros A xs. induction xs as [| x0 xs IH]; intros i k k' x H.
  - destruct k; discriminate.
  - destruct k as [| k]; simpl in H.
    + injection H as <- <-. split; [lia | reflexivity].
    + apply IH in H. destruct H as [-> H]. split; [lia | exact H].
Qed.

(** The rows of the block [_get_block_for_concat_plan] returns are the rows
    a block of the manager keeps for the positions of the run. *)
Lemma plan_block_rows :
  forall (mgr : BlockManager) (nos locs : list Z) (blkno : Z)
         (max_len s m : nat) (nb : Block),
  _rebuild_blknos_and_blklocs mgr = Ok (nos, locs) ->
  1 <= m ->
  (forall p, In p (seq s m) -> nth_error nos p = Some blkno) ->
  blkno <> (-1)%Z ->
  (forall blk, In blk (blocks mgr) ->
     fst (shape blk) = length (mgr_locs blk)) ->
  _get_block_for_concat_plan mgr (seq s m) blkno max_len = Ok nb ->
  exists blk,
    In blk (blocks mgr) /\
    block_class nb = block_class blk /\
    arr_dtype (values nb) = arr_dtype (values blk) /\
    forall j, j < m ->
      exists i,
        nth_error (mgr_locs blk) i = Some (s + j) /\
        match arr_data (values blk) with
        | Data2D rows =>
            exists rows', arr_data (values nb) = Data2D rows' /\
                          nth_error rows' j = nth_error rows i
        | Data1D xs => arr_data (values nb) = Data1D xs
        end.
Proof.
  intros mgr nos locs blkno max_len s m nb Hreb Hm Hnos Hblkno Hfits H.
  destruct (@plan_block_placement mgr nos locs blkno max_len s m nb
              Hreb Hm Hnos Hblkno Hfits H) as [Hplace _].
  destruct (@plan_block_located mgr nos locs blkno s m Hreb Hm Hnos Hblkno)
    as (b & blk & -> & Hb & Hat).
  assert (Hin : In blk (blocks mgr)) by (eapply nth_error_In; eauto).
  assert (Hfit := Hfits blk Hin).
  exists blk. split; [exact Hin |].
  unfold _get_block_for_concat_plan in H.
  apply py_getitem_of_nat in Hb. rewrite Hb, bind_ret in H.
  destruct (Nat.eqb (length (seq s m)) (length (mgr_locs blk))
            && (is_slice_like (mgr_locs blk)
                && match as_slice_step (mgr_locs blk) with
                   | Some step => Z.eqb step 1
                   | None => false
                   end)).
  - injection H as <-. split; [reflexivity |]. split; [reflexivity |].
    intros j Hj. exists j. split.
    + rewrite Hplace, nth_error_seq. apply Nat.ltb_lt in Hj. now rewrite Hj.
    + destruct (arr_data (values blk)) as [xs | rows]; [reflexivity |].
      now exists rows.
  - unfold blklocs in H. rewrite Hreb, !bind_ret in H. cbn [snd] in H.
    apply bind_Ok in H. destruct H as (idx & Hidx & H).
    assert (Hidx_len : length idx = m).
    { rewrite (mapM_length _ _ Hidx). apply length_seq. }
    assert (Hidx_at : forall j, j < m ->
              exists i, nth_error idx j = Some (Z.of_nat i) /\
                        nth_error (mgr_locs blk) i = Some (s + j)).
    { intros j Hj. destruct (Hat j Hj) as (i & Hi & Hpos).
      assert (Hsj : nth_error (seq s m) j = Some (s + j)).
      { rewrite nth_error_seq. apply Nat.ltb_lt in Hj. now rewrite Hj. }
      destruct (mapM_nth_error_fwd _ _ _ Hidx Hsj) as (y & Hy & Hget).
      apply py_getitem_of_nat in Hget. exists i.
      split; [congruence | exact Hpos]. }
    assert (Hne : idx <> []) by (intros ->; simpl in Hidx_len; lia).
    destruct (getitem_block_attrs _ _ H) as [Hclass Hdtype].
    split; [exact Hclass |]. split; [exact Hdtype |].
    apply getitem_block_inv in H. destruct H as [_ Hvals].
    intros j Hj. destruct (Hidx_at j Hj) as (i & Hi & Hpos).
    exists i. split; [exact Hpos |].
    assert (Hrows_len : forall rows, arr_data (values blk) = Data2D rows ->
              length rows = length (mgr_locs blk)).
    { intros rows Ed. unfold shape, arr_shape in Hfit.
      now rewrite Ed in Hfit. }
    destruct (arr_data (values blk)) as [xs | rows]; [exact Hvals |].
    destruct Hvals as (rows' & Hrows & Hdata). exists rows'.
    split; [exact Hdata |].
    assert (Hvalid : forall j0, j0 < length idx ->
              exists i0, nth_error idx j0 = Some (Z.of_nat i0) /\
                         i0 < length rows).
    { intros j0 Hj0. rewrite Hidx_len in Hj0.
      destruct (Hidx_at j0 Hj0) as (i0 & Hi0 & Hpos0). exists i0.
      split; [exact Hi0 |]. rewrite (Hrows_len rows eq_refl).
      apply nth_error_Some. congruence. }
    destruct (@take_indices_to_slice _ _ _ _ _ Hne Hvalid Hrows)
      as [_ Hnth].
    now apply Hnth.
Qed.

(** What the planner cuts out: when every block of every manager has one
    row of values per position it is placed at, the [k]-th join unit of a
    plan group comes from the [k]-th manager, from a block of that manager
    of the same class and dtype, and its [j]-th row of values is the row
    that block keeps for the [j]-th position of the group's placement. *)
Theorem plan_units_hold_source_rows :
  forall (mgrs : list BlockManager) plan (bp : BlockPlacement)
         (units : list JoinUnit) (k : nat) (u : JoinUnit),
  (forall mgr blk, In mgr mgrs -> In blk (blocks mgr) ->
     fst (shape blk) = length (mgr_locs blk)) ->
  _get_combined_plan mgrs = Ok plan ->
  In (bp, units) plan ->
  nth_error units k = Some u ->
  exists mgr blk,
    nth_error mgrs k = Some mgr /\ In blk (blocks mgr) /\
    block_class (block u) = block_class blk /\
    arr_dtype (values (block u)) = arr_dtype (values blk) /\
    forall j pos, nth_error bp j = Some pos ->
      exists i,
        nth_error (mgr_locs blk) i = Some pos /\
        match arr_data (values blk) with
        | Data2D rows =>
            exists rows', arr_data (values (block u)) = Data2D rows' /\
                          nth_error rows' j = nth_error rows i
        | Data1D xs => arr_data (values (block u)) = Data1D xs
        end.
Proof.
  intros mgrs plan bp units k u Hfits H Hin Hu.
  unfold _get_combined_plan in H.
  apply bind_Ok in H. destruct H as (mgr0 & _ & H).
  apply bind_Ok in H. destruct H as (max_len & _ & H).
  apply bind_Ok in H. destruct H as (blknos_list & Hnos & H).
  apply bind_Ok in H. destruct H as (pairs & Hpairs & H).
  destruct (@mapM_In_inv _ _ _ _ _ _ H Hin) as ([run bp'] & Hpair & Hf).
  apply bind_Ok in Hf. destruct Hf as (us & Hus & Hf).
  injection Hf as -> ->.
  destruct (mapM_nth_error _ _ _ Hus Hu) as ([k' mgr] & Hkm & Hunit).
  apply nth_error_enumerate_from in Hkm. destruct Hkm as [-> Hk].
  cbn [Nat.add] in Hunit.
  apply bind_Ok in Hunit. destruct Hunit as (blkno & Hblkno & Hunit).
  apply bind_Ok in Hunit. destruct Hunit as (nb & Hnb & Hunit).
  injection Hunit as <-. cbn [block].
  apply py_getitem_of_nat in Hblkno.
  destruct (mapM_nth_error_fwd _ _ _ Hnos Hk) as (nos & Hnos_k & Hmgr).
  destruct (@blkno_indexers_inv _ _ _ _ Hpairs Hpair)
    as [(s & m & -> & Hm) Hrun].
  assert (Hat : forall p, In p (seq s m) -> nth_error nos p = Some blkno).
  { intros p Hp. destruct (Hrun p Hp) as [Hrun_p Hlen_p].
    rewrite Hrun_p, nth_error_map, Hnos_k in Hblkno.
    injection Hblkno as <-. apply nth_error_nth'. apply Hlen_p.
    eapply nth_error_In; eauto. }
  assert (Hs : In s (seq s m)) by (apply in_seq; lia).
  assert (Hne : blkno <> (-1)%Z).
  { apply (blknos_no_gaps mgr Hmgr). eapply nth_error_In. apply (Hat s Hs). }
  unfold blknos in Hmgr. apply bind_Ok in Hmgr.
  destruct Hmgr as ([nos' locs] & Hreb & Hmgr). injection Hmgr as ->.
  assert (Hfits' : forall blk, In blk (blocks mgr) ->
            fst (shape blk) = length (mgr_locs blk)).
  { intros blk Hblk. apply (Hfits mgr blk); [| exact Hblk].
    eapply nth_error_In; eauto. }
  destruct (@plan_block_rows mgr nos locs blkno max_len s m nb
              Hreb Hm Hat Hne Hfits' Hnb)
    as (blk & Hblk & Hclass & Hdtype & Hrows).
  exists mgr, blk. split; [exact Hk |]. split; [exact Hblk |].
  split; [exact Hclass |]. split; [exact Hdtype |].
  intros j pos Hj.
  assert (Hjm : j < m).
  { rewrite <- (length_seq m s). apply nth_error_Some. congruence. }
  rewrite nth_error_seq in Hj.
  assert (Hjm' := proj2 (Nat.ltb_lt j m) Hjm). rewrite Hjm' in Hj.
  injection Hj as Hj. subst pos. now apply Hrows.
Qed.

Lemma plan_units_hold_source_rows_witness :
  exists plan bp units u mgr blk,
    _get_combined_plan [mgr_one_block; mgr_two_blocks] = Ok plan /\
    In (bp, units) plan /\ nth_error units 0 = Some u /\
    bp = [1] /\
    arr_data (values (block u)) = Data2D [[PyInt 3; PyInt 4]] /\
    nth_error [mgr_one_block; mgr_two_blocks] 0 = Some mgr /\
    In blk (blocks mgr) /\
    block_class (block u) = block_class blk /\
    arr_dtype (values (block u)) = arr_dtype (values blk) /\
    forall j pos, nth_error bp j = Some pos ->
      exists i,
        nth_error (mgr_locs blk) i = Some pos /\
        match arr_data (values blk) with
        | Data2D rows =>
            exists rows', arr_data (values (block u)) = Data2D rows' /\
                          nth_error rows' j = nth_error rows i
        | Data1D xs => arr_data (values (block u)) = Data1D xs
        end.
Proof.
  destruct (_get_combined_plan [mgr_one_block; mgr_two_blocks])
    as [plan | e] eqn:E; [| discriminate E].
  pose proof E as E'. vm_compute in E'. injection E' as E'.
  match type of E' with
  | [_; (?bp, [?u; ?u'])] = _ =>
      assert (Hin : In (bp, [u; u']) plan)
        by (rewrite <- E'; right; now left);
      assert (Hu : nth_error [u; u'] 0 = Some u) by reflexivity;
      destruct (@plan_units_hold_source_rows
                  [mgr_one_block; mgr_two_blocks] plan bp [u; u'] 0 u)
        as (mgr & blk & Hmgr & Hblk & Hrest);
      [| exact E | exact Hin | exact Hu
       | exists plan, bp, [u; u'], u, mgr, blk ]
  end.
  - intros mgr blk [<- | [<- | []]] Hblk; simpl in Hblk;
      repeat (destruct Hblk as [<- | Hblk]; [reflexivity |]); destruct Hblk.
  - split; [reflexivity |]. split; [exact Hin |]. split; [exact Hu |].
    split; [reflexivity |]. split; [reflexivity |].
    split; [exact Hmgr |]. split; [exact Hblk |]. exact Hrest.
Defined.
